(** * FREE-MINI-BASE: session supervisor and dispatch pipeline of inconnu.js

    A shallow embedding of the router module [inconnu.js]: the in-memory
    registry ([activeSockets], [socketCreationTime]), the connection lock
    kept in properties of [global], [inconnuboyPair], the reconnection
    listener installed by [setupAutoRestart], the [/disconnect] route and the
    [messages.upsert] dispatch listener; then the utilities [createSerial],
    [getGroupAdmins] and [decodeJid], the listener of the process event
    'exit', the [/status] route, the two listeners of 'call' and the routes
    [/update-config] and [/verify-otp].

    Asynchronous functions are run to completion one after the other; where a
    statement depends on what happens between two [await]s, the function is
    cut at that [await] and the pieces are run separately. *)

From Stdlib Require Import ZArith Ascii String List Bool Lia.
From Stdlib Require Strings.Byte.
From stdpp Require Import gmap strings list fin_maps pretty.

Local Open Scope string_scope.
Local Open Scope list_scope.

(** ** JavaScript string operations used by the module

    Strings are byte strings. [trim] and [toLowerCase] are JavaScript's on
    ASCII text only: outside ASCII, JavaScript strips more white space and
    lowers more letters. What is stated about a result of either is stated
    for ASCII text ([asciiText], [plainName] below). *)
Module Js.

Definition is_digit (c : ascii) : bool :=
  let n := nat_of_ascii c in (48 <=? n)%nat && (n <=? 57)%nat.

Fixpoint filter_chars (keep : ascii -> bool) (s : string) : string :=
  match s with
  | EmptyString => EmptyString
  | String c r =>
      if keep c then String c (filter_chars keep r) else filter_chars keep r
  end.

(** [s.startsWith(p)] *)
Definition startsWith (s p : string) : bool := String.prefix p s.

(** [s.includes(p)] *)
Fixpoint includes (s p : string) : bool :=
  String.prefix p s ||
  match s with
  | EmptyString => false
  | String _ r => includes r p
  end.

Fixpoint rev_onto (s acc : string) : string :=
  match s with
  | EmptyString => acc
  | String c r => rev_onto r (String c acc)
  end.

Definition reverse (s : string) : string := rev_onto s EmptyString.

(** [s.endsWith(p)] *)
Definition endsWith (s p : string) : bool :=
  String.prefix (reverse p) (reverse s).

(** [s.slice(n)] for [0 <= n] *)
Fixpoint slice (s : string) (n : nat) : string :=
  match n, s with
  | O, _ => s
  | S _, EmptyString => EmptyString
  | S k, String _ r => slice r k
  end.

(** The ASCII white space removed by [trim]: tab, line feed, vertical tab,
    form feed, carriage return and space. *)
Definition is_space (c : ascii) : bool :=
  let n := nat_of_ascii c in
  ((9 <=? n)%nat && (n <=? 13)%nat) || (n =? 32)%nat.

Fixpoint trimStart (s : string) : string :=
  match s with
  | EmptyString => EmptyString
  | String c r => if is_space c then trimStart r else s
  end.

Definition trimEnd (s : string) : string := reverse (trimStart (reverse s)).

(** [s.trim()], for ASCII text *)
Definition trim (s : string) : string := trimEnd (trimStart s).

(** [s.split(sep)[0]], which is also [s.split(sep).shift()], for a
    separator of one character *)
Fixpoint splitHead (sep : ascii) (s : string) : string :=
  match s with
  | EmptyString => EmptyString
  | String c r =>
      if Ascii.eqb c sep then EmptyString else String c (splitHead sep r)
  end.

Definition lower_char (c : ascii) : ascii :=
  let n := nat_of_ascii c in
  if (65 <=? n)%nat && (n <=? 90)%nat then ascii_of_nat (n + 32) else c.

(** [s.toLowerCase()], for ASCII text *)
Fixpoint toLowerCase (s : string) : string :=
  match s with
  | EmptyString => EmptyString
  | String c r => String (lower_char c) (toLowerCase r)
  end.

(** Truthiness of a string: only the empty string is falsy. *)
Definition truthy (s : string) : bool :=
  match s with EmptyString => false | String _ _ => true end.

End Js.

(** [number.replace(/[^0-9]/g, '')], the key of every per-tenant table *)
Definition sanitizedNumber (number : string) : string :=
  Js.filter_chars Js.is_digit number.

(** [`connecting_${sanitizedNumber}`] *)
Definition connectionLockKeyOf (sanitized : string) : string :=
  "connecting_" +:+ sanitized.

(** [path.join(__dirname, 'session', `session_${sanitizedNumber}`)] *)
Definition sessionDirOf (sanitized : string) : string :=
  "session/session_" +:+ sanitized.

(** ** Data model *)

(** A credential blob is opaque: the JSON text of [creds.json]. *)
Definition Creds := string.

(** The listeners [inconnuboyPair] attaches to a socket's emitter, in the
    order in which it attaches them. *)
Inductive Listener :=
  | LPresence      (* setupMessageHandlers: messages.upsert *)
  | LAntiCall      (* setupCallHandlers: call *)
  | LAutoRestart   (* setupAutoRestart: connection.update *)
  | LCredsUpdate   (* creds.update *)
  | LConnection    (* connection.update of inconnuboyPair *)
  | LCall          (* call of inconnuboyPair *)
  | LAntiDelete    (* messages.update *)
  | LUpsert.       (* messages.upsert of inconnuboyPair *)

Global Instance Listener_eq_dec : EqDecision Listener.
Proof. solve_decision. Defined.

(** What [makeWASocket] returned, with the variables its listeners close
    over. *)
Record Socket := {
  sock_number : string;            (* [number], as passed to inconnuboyPair *)
  sock_usePairingCode : bool;      (* option usePairingCode *)
  sock_creds : option Creds;       (* state.creds read from the local cache;
                                      None: freshly initialised credentials *)
  sock_listeners : list Listener;  (* conn.ev *)
  sock_restartAttempts : nat;      (* restartAttempts of setupAutoRestart *)
  sock_wsClosed : bool             (* conn.ws.close() was called *)
}.

(** Bodies passed to [res.json]. *)
Inductive Body :=
  | BAlreadyConnected (connectionTime : option Z) (uptime : Z)
  | BConnectionInProgress
  | BNewPairing (code : string)
  | BPairingFailed (details : string)
  | BReconnecting
  | BInternalServerError (details : string)
  | BNumberRequired
  | BNotFound
  | BDisconnected
  | BDisconnectFailed.

(** A response object. [res_mock] marks the stand-in objects whose [json] does
    nothing to [headersSent]; [res_sent] lists the calls of [json] with the
    status code in force. *)
Record Res := {
  res_headersSent : bool;
  res_mock : bool;
  res_statusCode : nat;
  res_sent : list (nat * Body)
}.

Definition freshRes : Res :=
  {| res_headersSent := false; res_mock := false;
     res_statusCode := 200; res_sent := [] |}.

(** [{ headersSent: false, json: () => {}, status: () => mockRes, ... }] *)
Definition mockRes : Res :=
  {| res_headersSent := false; res_mock := true;
     res_statusCode := 200; res_sent := [] |}.

(** Work left to the event loop: timers and sleeping continuations. *)
Inductive Task :=
  | TPairingTimeout (sid : nat) (sanitized : string) (res : option nat)
      (* callback of setTimeout(..., 3000) in inconnuboyPair *)
  | TPairingRequest (sid : nat) (sanitized : string) (res : option nat)
      (* the same callback after its delay(1500) *)
  | TReconnect (number : string).
      (* setupAutoRestart's listener after its delay(10000) *)

Record Timer := { due : Z; task : Task }.

Inductive LogType := info | success | error | warning | debug.

(** Calls made on a protocol client. *)
Inductive ClientCall :=
  | CReadMessages (jid : string)
  | CPresence (kind jid : string)
  | CSendText (jid text : string)
  | CReact (jid emoji : string)
  | CWelcome (sanitized : string)
  | CRequestPairingCode (sanitized : string)
  | CGroupMetadata (jid : string).

(** Which of the two dispatch paths invoked a plugin function. *)
Inductive Path := ByCommand | ByEvent.

Global Instance Path_eq_dec : EqDecision Path.
Proof. solve_decision. Defined.

Record World := {
  activeSockets : gmap string nat;        (* Map: number -> conn *)
  socketCreationTime : gmap string Z;     (* Map: number -> Date.now() *)
  globals : gmap string bool;             (* global[connectionLockKey] *)
  mongoSessions : gmap string Creds;      (* credential blobs in the store *)
  mongoNumbers : gset string;             (* roster of known numbers *)
  localFs : gmap string (option Creds);   (* session directories and the
                                             creds.json inside, if any *)
  sockets : list Socket;                  (* every conn created so far *)
  responses : list Res;                   (* response objects, by index *)
  timers : list Timer;
  logs : list (LogType * string);         (* inconnuLog *)
  unhandled : list string;                (* rejections nobody awaits *)
  outbox : list (nat * ClientCall);       (* socket and call *)
  invoked : list (nat * Path);            (* index in events.commands *)
  stats : list (string * string);         (* incrementStats calls *)
  clock : Z                               (* Date.now() *)
}.

Definition emptyWorld : World :=
  {| activeSockets := ∅; socketCreationTime := ∅; globals := ∅;
     mongoSessions := ∅; mongoNumbers := ∅; localFs := ∅;
     sockets := []; responses := []; timers := []; logs := [];
     unhandled := []; outbox := []; invoked := []; stats := []; clock := 0 |}.

(** Field updates. *)
Definition with_activeSockets (f : gmap string nat -> gmap string nat) (w : World) : World :=
  {| activeSockets := f (activeSockets w); socketCreationTime := socketCreationTime w;
     globals := globals w; mongoSessions := mongoSessions w; mongoNumbers := mongoNumbers w;
     localFs := localFs w; sockets := sockets w; responses := responses w;
     timers := timers w; logs := logs w; unhandled := unhandled w; outbox := outbox w;
     invoked := invoked w; stats := stats w; clock := clock w |}.

Definition with_socketCreationTime (f : gmap string Z -> gmap string Z) (w : World) : World :=
  {| activeSockets := activeSockets w; socketCreationTime := f (socketCreationTime w);
     globals := globals w; mongoSessions := mongoSessions w; mongoNumbers := mongoNumbers w;
     localFs := localFs w; sockets := sockets w; responses := responses w;
     timers := timers w; logs := logs w; unhandled := unhandled w; outbox := outbox w;
     invoked := invoked w; stats := stats w; clock := clock w |}.

Definition with_globals (f : gmap string bool -> gmap string bool) (w : World) : World :=
  {| activeSockets := activeSockets w; socketCreationTime := socketCreationTime w;
     globals := f (globals w); mongoSessions := mongoSessions w; mongoNumbers := mongoNumbers w;
     localFs := localFs w; sockets := sockets w; responses := responses w;
     timers := timers w; logs := logs w; unhandled := unhandled w; outbox := outbox w;
     invoked := invoked w; stats := stats w; clock := clock w |}.

Definition with_mongoSessions (f : gmap string Creds -> gmap string Creds) (w : World) : World :=
  {| activeSockets := activeSockets w; socketCreationTime := socketCreationTime w;
     globals := globals w; mongoSessions := f (mongoSessions w); mongoNumbers := mongoNumbers w;
     localFs := localFs w; sockets := sockets w; responses := responses w;
     timers := timers w; logs := logs w; unhandled := unhandled w; outbox := outbox w;
     invoked := invoked w; stats := stats w; clock := clock w |}.

Definition with_mongoNumbers (f : gset string -> gset string) (w : World) : World :=
  {| activeSockets := activeSockets w; socketCreationTime := socketCreationTime w;
     globals := globals w; mongoSessions := mongoSessions w; mongoNumbers := f (mongoNumbers w);
     localFs := localFs w; sockets := sockets w; responses := responses w;
     timers := timers w; logs := logs w; unhandled := unhandled w; outbox := outbox w;
     invoked := invoked w; stats := stats w; clock := clock w |}.

Definition with_localFs (f : gmap string (option Creds) -> gmap string (option Creds)) (w : World) : World :=
  {| activeSockets := activeSockets w; socketCreationTime := socketCreationTime w;
     globals := globals w; mongoSessions := mongoSessions w; mongoNumbers := mongoNumbers w;
     localFs := f (localFs w); sockets := sockets w; responses := responses w;
     timers := timers w; logs := logs w; unhandled := unhandled w; outbox := outbox w;
     invoked := invoked w; stats := stats w; clock := clock w |}.

Definition with_sockets (f : list Socket -> list Socket) (w : World) : World :=
  {| activeSockets := activeSockets w; socketCreationTime := socketCreationTime w;
     globals := globals w; mongoSessions := mongoSessions w; mongoNumbers := mongoNumbers w;
     localFs := localFs w; sockets := f (sockets w); responses := responses w;
     timers := timers w; logs := logs w; unhandled := unhandled w; outbox := outbox w;
     invoked := invoked w; stats := stats w; clock := clock w |}.

Definition with_responses (f : list Res -> list Res) (w : World) : World :=
  {| activeSockets := activeSockets w; socketCreationTime := socketCreationTime w;
     globals := globals w; mongoSessions := mongoSessions w; mongoNumbers := mongoNumbers w;
     localFs := localFs w; sockets := sockets w; responses := f (responses w);
     timers := timers w; logs := logs w; unhandled := unhandled w; outbox := outbox w;
     invoked := invoked w; stats := stats w; clock := clock w |}.

Definition with_timers (f : list Timer -> list Timer) (w : World) : World :=
  {| activeSockets := activeSockets w; socketCreationTime := socketCreationTime w;
     globals := globals w; mongoSessions := mongoSessions w; mongoNumbers := mongoNumbers w;
     localFs := localFs w; sockets := sockets w; responses := responses w;
     timers := f (timers w); logs := logs w; unhandled := unhandled w; outbox := outbox w;
     invoked := invoked w; stats := stats w; clock := clock w |}.

Definition with_logs (f : list (LogType * string) -> list (LogType * string)) (w : World) : World :=
  {| activeSockets := activeSockets w; socketCreationTime := socketCreationTime w;
     globals := globals w; mongoSessions := mongoSessions w; mongoNumbers := mongoNumbers w;
     localFs := localFs w; sockets := sockets w; responses := responses w;
     timers := timers w; logs := f (logs w); unhandled := unhandled w; outbox := outbox w;
     invoked := invoked w; stats := stats w; clock := clock w |}.

Definition with_unhandled (f : list string -> list string) (w : World) : World :=
  {| activeSockets := activeSockets w; socketCreationTime := socketCreationTime w;
     globals := globals w; mongoSessions := mongoSessions w; mongoNumbers := mongoNumbers w;
     localFs := localFs w; sockets := sockets w; responses := responses w;
     timers := timers w; logs := logs w; unhandled := f (unhandled w); outbox := outbox w;
     invoked := invoked w; stats := stats w; clock := clock w |}.

Definition with_outbox (f : list (nat * ClientCall) -> list (nat * ClientCall)) (w : World) : World :=
  {| activeSockets := activeSockets w; socketCreationTime := socketCreationTime w;
     globals := globals w; mongoSessions := mongoSessions w; mongoNumbers := mongoNumbers w;
     localFs := localFs w; sockets := sockets w; responses := responses w;
     timers := timers w; logs := logs w; unhandled := unhandled w; outbox := f (outbox w);
     invoked := invoked w; stats := stats w; clock := clock w |}.

Definition with_invoked (f : list (nat * Path) -> list (nat * Path)) (w : World) : World :=
  {| activeSockets := activeSockets w; socketCreationTime := socketCreationTime w;
     globals := globals w; mongoSessions := mongoSessions w; mongoNumbers := mongoNumbers w;
     localFs := localFs w; sockets := sockets w; responses := responses w;
     timers := timers w; logs := logs w; unhandled := unhandled w; outbox := outbox w;
     invoked := f (invoked w); stats := stats w; clock := clock w |}.

Definition with_stats (f : list (string * string) -> list (string * string)) (w : World) : World :=
  {| activeSockets := activeSockets w; socketCreationTime := socketCreationTime w;
     globals := globals w; mongoSessions := mongoSessions w; mongoNumbers := mongoNumbers w;
     localFs := localFs w; sockets := sockets w; responses := responses w;
     timers := timers w; logs := logs w; unhandled := unhandled w; outbox := outbox w;
     invoked := invoked w; stats := f (stats w); clock := clock w |}.

Definition with_clock (f : Z -> Z) (w : World) : World :=
  {| activeSockets := activeSockets w; socketCreationTime := socketCreationTime w;
     globals := globals w; mongoSessions := mongoSessions w; mongoNumbers := mongoNumbers w;
     localFs := localFs w; sockets := sockets w; responses := responses w;
     timers := timers w; logs := logs w; unhandled := unhandled w; outbox := outbox w;
     invoked := invoked w; stats := stats w; clock := f (clock w) |}.

(** ** Registry queries *)

(** [isNumberAlreadyConnected] *)
Definition isNumberAlreadyConnected (number : string) (w : World) : bool :=
  let sanitizedNumber := sanitizedNumber number in
  bool_decide (is_Some (activeSockets w !! sanitizedNumber)).

Record ConnectionStatus := {
  isConnected : bool;
  connectionTime : option Z;   (* the instant shown by toLocaleString, or null *)
  uptime : Z
}.

(** [getConnectionStatus]. A number is truthy unless it is 0. *)
Definition getConnectionStatus (number : string) (w : World) : ConnectionStatus :=
  let sanitizedNumber := sanitizedNumber number in
  let isConnected := bool_decide (is_Some (activeSockets w !! sanitizedNumber)) in
  let connectionTime := socketCreationTime w !! sanitizedNumber in
  let truthy :=
    match connectionTime with
    | Some t => negb (t =? 0)%Z
    | None => false
    end in
  {| isConnected := isConnected;
     connectionTime := if truthy then connectionTime else None;
     uptime :=
       match connectionTime with
       | Some t => if truthy then ((clock w - t) / 1000)%Z else 0%Z
       | None => 0%Z
       end |}.

(** ** Control flow

    A block of statements either runs to its end, executes a [return], or
    throws. [Block S A] is a block over a state [S]. *)
Inductive Completion (A : Type) : Type :=
  | Normal (a : A)
  | Returned
  | Thrown (e : string).
Arguments Normal {A} a.
Arguments Returned {A}.
Arguments Thrown {A} e.

Definition Block (S A : Type) : Type := S -> Completion A * S.

Definition block_ret {S A} (a : A) : Block S A := fun s => (Normal a, s).

Definition block_bind {S A B} (k : A -> Block S B) (m : Block S A) : Block S B :=
  fun s =>
    match m s with
    | (Normal a, s') => k a s'
    | (Returned, s') => (Returned, s')
    | (Thrown e, s') => (Thrown e, s')
    end.

Global Instance Block_ret {S} : MRet (Block S) := fun A => block_ret.
Global Instance Block_bind {S} : MBind (Block S) := fun A B => block_bind.

(** [return;] *)
Definition return_ {S A} : Block S A := fun s => (Returned, s).

(** [throw new Error(e)] *)
Definition throw {S A} (e : string) : Block S A := fun s => (Thrown e, s).

Definition gets {S A} (f : S -> A) : Block S A := fun s => (Normal (f s), s).

Definition modify {S} (f : S -> S) : Block S unit := fun s => (Normal tt, f s).

(** [if (b) { m }] *)
Definition when {S} (b : bool) (m : Block S unit) : Block S unit :=
  if b then m else block_ret tt.

(** [try { body } catch (e) { handler e }] *)
Definition try_catch {S} (body : Block S unit) (handler : string -> Block S unit)
  : Block S unit :=
  fun s =>
    match body s with
    | (Thrown e, s') => handler e s'
    | r => r
    end.

(** [try { body } catch (e) { handler e } finally { fin }]: [fin] runs
    whatever the completion of the first two blocks, and overrides it only
    when it returns or throws itself. *)
Definition try_catch_finally {S} (body : Block S unit)
    (handler : string -> Block S unit) (fin : Block S unit) : Block S unit :=
  fun s =>
    let '(c, s1) := try_catch body handler s in
    match fin s1 with
    | (Normal _, s2) => (c, s2)
    | r => r
    end.

(** The boundary of a function call: a [return] inside the callee ends the
    callee only. *)
Definition call {S} (m : Block S unit) : Block S unit :=
  fun s =>
    match m s with
    | (Returned, s') => (Normal tt, s')
    | r => r
    end.

(** The state a call leaves behind. *)
Definition exec {S A} (m : Block S A) (s : S) : S := snd (m s).

(** ** Environment: configuration, plugins and collaborators *)

(** Calls into collaborators that may throw or reject. *)
Inductive ExtOp :=
  | OpGetSession | OpSaveSession | OpDeleteSession
  | OpAddNumber | OpRemoveNumber | OpGetUserConfig | OpIncrementStats
  | OpFsRemove | OpFsWrite | OpAuthState | OpSaveCreds
  | OpMakeSocket | OpStoreBind | OpRequestPairingCode | OpWsClose
  | OpSendMessage | OpReadMessages | OpPresence | OpGroupMetadata | OpSms
  | OpDownload.

Global Instance ExtOp_eq_dec : EqDecision ExtOp.
Proof. solve_decision. Defined.

(** The fields of config.js the module reads. *)
Record Config := {
  PREFIX : string;
  WORK_TYPE : string;
  OWNER_NUMBER : string;
  REJECT_MSG : string;
  AUTO_STATUS_MSG : string
}.

(** config.js with an empty process.env *)
Definition defaultConfig : Config :=
  {| PREFIX := "."; WORK_TYPE := "public"; OWNER_NUMBER := "2547999635583";
     REJECT_MSG := "*📞 Call rejected automatically. No calls allowed.*";
     AUTO_STATUS_MSG := "Nice status! 🔥" |}.

(** The per-tenant flags the listeners read; each is compared with 'true'. *)
Record UserConfig := {
  READ_MESSAGE : string;
  AUTO_TYPING : string;
  AUTO_RECORDING : string;
  AUTO_VIEW_STATUS : string;
  AUTO_LIKE_STATUS : string;
  AUTO_STATUS_REPLY : string;
  USER_AUTO_STATUS_MSG : string
}.

(** What a plugin function is handed: those fields of the context object
    that both dispatch paths compute in the same way. *)
Record Ctx := {
  ctx_from : string;
  ctx_body : string;
  ctx_isCmd : bool;
  ctx_isGroup : bool;
  ctx_sender : string;
  ctx_senderNumber : string;
  ctx_isOwner : bool
}.

(** What a call of a plugin function does: it returns, it throws, or (an
    async function) it returns a promise that rejects. *)
Inductive Outcome := Returns | Throws (e : string) | Rejects (e : string).

(** An entry of events.commands. *)
Record Command := {
  cmd_pattern : option string;
  cmd_alias : option (list string);
  cmd_on : option string;
  cmd_react : option string;
  cmd_function : Path -> Ctx -> Outcome
}.

Record Env := {
  config : Config;
  commands : list Command;               (* events.commands *)
  fails : ExtOp -> option string;        (* the calls that throw, with the message *)
  userConfigOf : string -> UserConfig;   (* the stored per-tenant flags *)
  pairingCodeOf : string -> string;      (* the code the client hands out *)
  chosenEmoji : string;                  (* the emoji Math.random() selects *)
  jidNormalizedUser : string -> string   (* jidNormalizedUser of the client library *)
}.

(** ** The module, over an environment *)
Section Supervisor.

Variable env : Env.

(** A call into a collaborator: it throws when the environment says so. *)
Definition ext (op : ExtOp) : Block World unit :=
  match fails env op with
  | Some e => throw e
  | None => mret tt
  end.

(** [inconnuLog(message, type)] (the time stamp is left out) *)
Definition inconnuLog (message : string) (type : LogType) : Block World unit :=
  modify (with_logs (fun l => l ++ [(type, message)])).

(** *** Credential store adapter *)

(** Modelled from the spec: lib/database is not among the sources. Section 6
    of the spec gives [getCredential(tenantId) -> blob|absent]. *)
Definition getSessionFromMongoDB (number : string) : Block World (option Creds) :=
  ext OpGetSession ;; gets (fun w => mongoSessions w !! number).

(** Modelled from the spec: lib/database is not among the sources. Section 6
    of the spec gives [saveCredential(tenantId, blob)]. *)
Definition saveSessionToMongoDB (number : string) (creds : Creds) : Block World unit :=
  ext OpSaveSession ;; modify (with_mongoSessions <[number := creds]>).

(** Modelled from the spec: lib/database is not among the sources. Section 6
    of the spec gives [deleteCredential(tenantId)]. *)
Definition deleteSessionFromMongoDB (number : string) : Block World unit :=
  ext OpDeleteSession ;; modify (with_mongoSessions (delete number)).

(** Modelled from the spec: lib/database is not among the sources. Section 6
    of the spec gives [addTenant(tenantId)]. *)
Definition addNumberToMongoDB (number : string) : Block World unit :=
  ext OpAddNumber ;; modify (with_mongoNumbers (fun r => {[number]} ∪ r)).

(** Modelled from the spec: lib/database is not among the sources. Section 6
    of the spec gives [removeTenant(tenantId)]. *)
Definition removeNumberFromMongoDB (number : string) : Block World unit :=
  ext OpRemoveNumber ;; modify (with_mongoNumbers (fun r => r ∖ {[number]})).

(** Modelled from the spec: lib/database is not among the sources. Section 6
    of the spec gives [getConfig(tenantId) -> TenantConfig]. *)
Definition getUserConfigFromMongoDB (number : string) : Block World UserConfig :=
  ext OpGetUserConfig ;; mret (userConfigOf env number).

(** Modelled from the spec: lib/database is not among the sources. Section 6
    of the spec gives [incrementStat(tenantId, counterName)]. *)
Definition incrementStats (number counter : string) : Block World unit :=
  ext OpIncrementStats ;; modify (with_stats (fun l => l ++ [(number, counter)])).

(** *** Response objects *)

(** [res.json(body)] *)
Definition json (body : Body) (r : Res) : Res :=
  {| res_headersSent := if res_mock r then res_headersSent r else true;
     res_mock := res_mock r;
     res_statusCode := res_statusCode r;
     res_sent := res_sent r ++ [(res_statusCode r, body)] |}.

(** [res.status(code)] *)
Definition status (code : nat) (r : Res) : Res :=
  {| res_headersSent := res_headersSent r;
     res_mock := res_mock r;
     res_statusCode := if res_mock r then res_statusCode r else code;
     res_sent := res_sent r |}.

Definition res_json (i : nat) (body : Body) : Block World unit :=
  modify (with_responses (alter (json body) i)).

Definition res_status (i : nat) (code : nat) : Block World unit :=
  modify (with_responses (alter (status code) i)).

(** [res && !res.headersSent] *)
Definition canRespond (res : option nat) (w : World) : bool :=
  match res with
  | Some i =>
      match responses w !! i with
      | Some r => negb (res_headersSent r)
      | None => false
      end
  | None => false
  end.

(** [if (res && !res.headersSent) { return res.json(body); }] *)
Definition respondAndReturn (res : option nat) (body : Body) : Block World unit :=
  can ← gets (canRespond res);
  match res with
  | Some i => if can : bool then (res_json i body ;; return_) else mret tt
  | None => mret tt
  end.

(** *** Sockets *)

Definition with_socket (sid : nat) (f : Socket -> Socket) : Block World unit :=
  modify (with_sockets (alter f sid)).

Definition set_listeners (ls : list Listener) (s : Socket) : Socket :=
  {| sock_number := sock_number s; sock_usePairingCode := sock_usePairingCode s;
     sock_creds := sock_creds s; sock_listeners := ls;
     sock_restartAttempts := sock_restartAttempts s;
     sock_wsClosed := sock_wsClosed s |}.

Definition set_restartAttempts (n : nat) (s : Socket) : Socket :=
  {| sock_number := sock_number s; sock_usePairingCode := sock_usePairingCode s;
     sock_creds := sock_creds s; sock_listeners := sock_listeners s;
     sock_restartAttempts := n;
     sock_wsClosed := sock_wsClosed s |}.

Definition set_wsClosed (s : Socket) : Socket :=
  {| sock_number := sock_number s; sock_usePairingCode := sock_usePairingCode s;
     sock_creds := sock_creds s; sock_listeners := sock_listeners s;
     sock_restartAttempts := sock_restartAttempts s;
     sock_wsClosed := true |}.

(** [socket.ev.on(event, listener)] *)
Definition ev_on (sid : nat) (l : Listener) : Block World unit :=
  with_socket sid (fun s => set_listeners (sock_listeners s ++ [l]) s).

(** [socket.ev.removeAllListeners()] *)
Definition removeAllListeners (sid : nat) : Block World unit :=
  with_socket sid (set_listeners []).

(** [await socket.ws.close()] *)
Definition ws_close (sid : nat) : Block World unit :=
  ext OpWsClose ;; with_socket sid set_wsClosed.

Definition client_call (op : ExtOp) (sid : nat) (c : ClientCall) : Block World unit :=
  ext op ;; modify (with_outbox (fun l => l ++ [(sid, c)])).

(** [setTimeout(callback, ms)] and [await delay(ms)]: the rest of the
    work is left to the event loop. *)
Definition schedule (ms : Z) (t : Task) : Block World unit :=
  modify (fun w => with_timers (fun l => l ++ [{| due := (clock w + ms)%Z; task := t |}]) w).

(** [useMultiFileAuthState(sessionDir)]: creates the directory when it is
    missing and reads creds.json from it, initialising fresh credentials
    when there is none. *)
Definition useMultiFileAuthState (sessionDir : string) : Block World (option Creds) :=
  ext OpAuthState ;;
  dir ← gets (fun w => localFs w !! sessionDir);
  match dir : option (option Creds) with
  | Some creds => mret creds
  | None => modify (with_localFs <[sessionDir := None]>) ;; mret None
  end.

(** [makeWASocket({ auth, usePairingCode, ... })] *)
Definition makeWASocket (number : string) (creds : option Creds)
    (usePairingCode : bool) : Block World nat :=
  ext OpMakeSocket ;;
  sid ← gets (fun w => length (sockets w));
  modify (with_sockets (fun l => l ++
    [{| sock_number := number; sock_usePairingCode := usePairingCode;
        sock_creds := creds; sock_listeners := [];
        sock_restartAttempts := 0; sock_wsClosed := false |}])) ;;
  mret sid.

(** *** inconnuboyPair *)

(** The variables of one call that its [finally] block reads. *)
Record Frame := {
  world : World;
  connectionLockKey : option string
}.

Definition inWorld {A} (m : Block World A) : Block Frame A :=
  fun f =>
    let '(c, w) := m (world f) in
    (c, {| world := w; connectionLockKey := connectionLockKey f |}).

Definition set_connectionLockKey (k : string) : Block Frame unit :=
  modify (fun f => {| world := world f; connectionLockKey := Some k |}).

(** Truthiness of [global[key]]. *)
Definition global_truthy (key : string) (w : World) : bool :=
  match globals w !! key with
  | Some b => b
  | None => false
  end.

(** Lines 279-307: the two short circuits and the acquisition of the lock.
    Nothing is awaited here. *)
Definition pair_prologue (sanitizedNumber : string) (res : option nat) : Block Frame unit :=
  connected ← inWorld (gets (isNumberAlreadyConnected sanitizedNumber));
  (if connected : bool then
     inWorld (inconnuLog (sanitizedNumber +:+ " is already connected, skipping...") info) ;;
     st ← inWorld (gets (getConnectionStatus sanitizedNumber));
     inWorld (respondAndReturn res (BAlreadyConnected (connectionTime st) (uptime st))) ;;
     return_
   else mret tt) ;;
  set_connectionLockKey (connectionLockKeyOf sanitizedNumber) ;;
  held ← inWorld (gets (global_truthy (connectionLockKeyOf sanitizedNumber)));
  (if held : bool then
     inWorld (inconnuLog (sanitizedNumber +:+ " is already in connection process, skipping...") info) ;;
     inWorld (respondAndReturn res BConnectionInProgress) ;;
     return_
   else mret tt) ;;
  inWorld (modify (with_globals <[connectionLockKeyOf sanitizedNumber := true]>)).

(** Lines 309-697: from the look-up of the stored session to the last
    listener. *)
Definition pair_main (number sanitizedNumber : string) (res : option nat) : Block World unit :=
  let sessionDir := sessionDirOf sanitizedNumber in
  (* 1. *)
  existingSession ← getSessionFromMongoDB sanitizedNumber;
  match existingSession : option Creds with
  | None =>
      inconnuLog ("No MongoDB session found for " +:+ sanitizedNumber +:+ " - requiring NEW pairing") info ;;
      present ← gets (fun w => bool_decide (is_Some (localFs w !! sessionDir)));
      when present (
        ext OpFsRemove ;;
        modify (with_localFs (delete sessionDir)) ;;
        inconnuLog ("Cleaned leftover local session for " +:+ sanitizedNumber) info)
  | Some creds =>
      ext OpFsWrite ;;
      modify (with_localFs <[sessionDir := Some creds]>) ;;
      inconnuLog ("Restored existing session from MongoDB for " +:+ sanitizedNumber) success
  end ;;
  (* 2. *)
  state_creds ← useMultiFileAuthState sessionDir;
  conn ← makeWASocket number state_creds (negb (bool_decide (is_Some existingSession)));
  (* 3. *)
  modify (fun w => with_socketCreationTime <[sanitizedNumber := clock w]> w) ;;
  modify (with_activeSockets <[sanitizedNumber := conn]>) ;;
  ext OpStoreBind ;;
  (* 4. *)
  ev_on conn LPresence ;;
  ev_on conn LAntiCall ;;
  ev_on conn LAutoRestart ;;
  (* 6. *)
  match existingSession with
  | None => schedule 3000 (TPairingTimeout conn sanitizedNumber res)
  | Some _ =>
      can ← gets (canRespond res);
      match res with
      | Some i => when can (res_json i BReconnecting)
      | None => mret tt
      end
  end ;;
  (* 7. - 10. and the message handler *)
  ev_on conn LCredsUpdate ;;
  ev_on conn LConnection ;;
  ev_on conn LCall ;;
  ev_on conn LAntiDelete ;;
  ev_on conn LUpsert.

(** The [catch] block of inconnuboyPair *)
Definition pair_catch (res : option nat) (err : string) : Block World unit :=
  inconnuLog ("InconnuboyPair error: " +:+ err) error ;;
  respondAndReturn res (BInternalServerError err).

(** The [finally] block of inconnuboyPair *)
Definition pair_finally : Block Frame unit :=
  key ← gets connectionLockKey;
  match key : option string with
  | Some k => if Js.truthy k then inWorld (modify (with_globals <[k := false]>)) else mret tt
  | None => mret tt
  end.

Definition inconnuboyPair_block (number : string) (res : option nat) : Block Frame unit :=
  let sanitizedNumber := sanitizedNumber number in
  try_catch_finally
    (pair_prologue sanitizedNumber res ;; inWorld (pair_main number sanitizedNumber res))
    (fun err => inWorld (pair_catch res err))
    pair_finally.

(** [inconnuboyPair(number, res)] for a string [number], run from its call
    to its end. *)
Definition inconnuboyPair (number : string) (res : option nat) : Block World unit :=
  fun w =>
    let '(c, f) := call (inconnuboyPair_block number res)
                        {| world := w; connectionLockKey := None |} in
    (c, world f).

(** *** Timers of inconnuboyPair: the pairing code *)

(** The callback of [setTimeout(..., 3000)] up to its [await delay(1500)] *)
Definition pairing_timeout (conn : nat) (sanitizedNumber : string) (res : option nat)
  : Block World unit :=
  schedule 1500 (TPairingRequest conn sanitizedNumber res).

(** The rest of that callback *)
Definition pairing_request (conn : nat) (sanitizedNumber : string) (res : option nat)
  : Block World unit :=
  try_catch
    (client_call OpRequestPairingCode conn (CRequestPairingCode sanitizedNumber) ;;
     inconnuLog ("Pairing Code: " +:+ pairingCodeOf env sanitizedNumber) success ;;
     respondAndReturn res (BNewPairing (pairingCodeOf env sanitizedNumber)))
    (fun err =>
       inconnuLog ("Pairing Error: " +:+ err) error ;;
       respondAndReturn res (BPairingFailed err)).

(** *** setupAutoRestart *)

Inductive Connection := ConnOpen | ConnClose | ConnConnecting.

Global Instance Connection_eq_dec : EqDecision Connection.
Proof. solve_decision. Defined.

(** [lastDisconnect.error]: [output.statusCode] and [message] *)
Record LastDisconnect := {
  statusCode : option Z;
  errorMessage : option string
}.

Record Update := {
  connection : option Connection;
  lastDisconnect : option LastDisconnect
}.

(** [errorMessage?.includes(p)] *)
Definition message_includes (errorMessage : option string) (p : string) : bool :=
  match errorMessage with
  | Some m => Js.includes m p
  | None => false
  end.

Definition show_number (statusCode : option Z) : string :=
  match statusCode with
  | Some n => pretty n
  | None => "undefined"
  end.

Definition show_string (errorMessage : option string) : string :=
  match errorMessage with
  | Some m => m
  | None => "undefined"
  end.

Definition maxRestartAttempts : nat := 3.

Definition restartAttempts (sid : nat) (w : World) : nat :=
  match sockets w !! sid with
  | Some s => sock_restartAttempts s
  | None => 0
  end.

(** [statusCode === 401 || errorMessage?.includes('401')] *)
Definition isManualUnlink (statusCode : option Z) (errorMessage : option string) : bool :=
  bool_decide (statusCode = Some 401%Z) || message_includes errorMessage "401".

(** [statusCode === 408 || errorMessage?.includes('QR refs attempts ended')] *)
Definition isNormalError (statusCode : option Z) (errorMessage : option string) : bool :=
  bool_decide (statusCode = Some 408%Z) ||
  message_includes errorMessage "QR refs attempts ended".

(** The listener of 'connection.update' that [setupAutoRestart(socket,
    number)] installs. In the branch that reconnects, what follows
    [await delay(10000)] is left to the event loop as [TReconnect]. *)
Definition autoRestart_listener (socket : nat) (number : string) (update : Update)
  : Block World unit :=
  inconnuLog ("Connection update for " +:+ number) debug ;;
  (if bool_decide (connection update = Some ConnClose) then
     let statusCode := lastDisconnect update ≫= statusCode in
     let errorMessage := lastDisconnect update ≫= errorMessage in
     inconnuLog ("Connection closed for " +:+ number +:+ ": " +:+
                 show_number statusCode +:+ " - " +:+ show_string errorMessage) warning ;;
     (* Manual unlink detection *)
     (if isManualUnlink statusCode errorMessage then
        inconnuLog ("Manual unlink detected for " +:+ number +:+ ", cleaning up...") warning ;;
        let sanitizedNumber := sanitizedNumber number in
        modify (with_activeSockets (delete sanitizedNumber)) ;;
        modify (with_socketCreationTime (delete sanitizedNumber)) ;;
        deleteSessionFromMongoDB sanitizedNumber ;;
        removeNumberFromMongoDB sanitizedNumber ;;
        removeAllListeners socket ;;
        return_
      else mret tt) ;;
     (* Skip restart for normal/expected errors *)
     (if isNormalError statusCode errorMessage then
        inconnuLog ("Normal connection closure for " +:+ number +:+ " (" +:+
                    show_string errorMessage +:+ "), no restart needed.") info ;;
        return_
      else mret tt) ;;
     (* For other unexpected errors, attempt reconnect with limits *)
     attempts ← gets (restartAttempts socket);
     if (attempts <? maxRestartAttempts)%nat then
       with_socket socket (set_restartAttempts (S attempts)) ;;
       inconnuLog ("Unexpected connection lost for " +:+ number +:+
                   ", attempting to reconnect (" +:+ pretty (S attempts) +:+ "/" +:+
                   pretty maxRestartAttempts +:+ ") in 10 seconds...") warning ;;
       let sanitizedNumber := sanitizedNumber number in
       modify (with_activeSockets (delete sanitizedNumber)) ;;
       modify (with_socketCreationTime (delete sanitizedNumber)) ;;
       removeAllListeners socket ;;
       schedule 10000 (TReconnect number)
     else
       inconnuLog ("Max restart attempts reached for " +:+ number +:+
                   ". Manual intervention required.") error
   else mret tt) ;;
  (* Reset counter on successful connection *)
  when (bool_decide (connection update = Some ConnOpen)) (
    inconnuLog ("Connection established for " +:+ number) success ;;
    with_socket socket (set_restartAttempts 0)).

(** The rest of the reconnecting branch, after [await delay(10000)] *)
Definition reconnect (number : string) : Block World unit :=
  try_catch
    (res ← gets (fun w => length (responses w));
     modify (with_responses (fun l => l ++ [mockRes])) ;;
     inconnuboyPair number (Some res) ;;
     inconnuLog ("Reconnection initiated for " +:+ number) success)
    (fun reconnectError =>
       inconnuLog ("Reconnection failed for " +:+ number +:+ ": " +:+ reconnectError) error).

(** *** Listeners of inconnuboyPair on 'creds.update' and 'connection.update' *)

(** [user] is [conn.user?.id] when the listener runs. *)
Definition user_id (user : option string) : Block World string :=
  match user with
  | Some id => mret id
  | None => throw "Cannot read properties of undefined (reading 'id')"
  end.

Definition connection_listener (conn : nat) (sanitizedNumber : string)
    (existingSession : bool) (user : option string) (update : Update) : Block World unit :=
  when (bool_decide (connection update = Some ConnOpen)) (
    inconnuLog ("Connected: " +:+ sanitizedNumber) success ;;
    id ← user_id user;
    let userJid := jidNormalizedUser env id in
    addNumberToMongoDB sanitizedNumber ;;
    when (negb existingSession) (client_call OpSendMessage conn (CWelcome userJid)) ;;
    inconnuLog (sanitizedNumber +:+ " successfully connected!") success) ;;
  when (bool_decide (connection update = Some ConnClose)) (
    when (bool_decide (lastDisconnect update ≫= statusCode = Some 401%Z))
      (inconnuLog "Session closed: Logged Out." error)).

(** [creds] is what the client's [saveCreds] writes to creds.json. *)
Definition creds_listener (sanitizedNumber : string) (creds : Creds) : Block World unit :=
  ext OpSaveCreds ;;
  modify (with_localFs <[sessionDirOf sanitizedNumber := Some creds]>) ;;
  saveSessionToMongoDB sanitizedNumber creds ;;
  inconnuLog ("Session updated in MongoDB for " +:+ sanitizedNumber) success.

(** *** The /disconnect route *)

(** The route for a number that is absent or a string. *)
Definition disconnect (number : option string) (res : nat) : Block World unit :=
  match number with
  | None | Some "" =>
      res_status res 400 ;; res_json res BNumberRequired ;; return_
  | Some number =>
      let sanitizedNumber := sanitizedNumber number in
      entry ← gets (fun w => activeSockets w !! sanitizedNumber);
      match entry : option nat with
      | None => res_status res 404 ;; res_json res BNotFound ;; return_
      | Some socket =>
          try_catch
            (ws_close socket ;;
             removeAllListeners socket ;;
             modify (with_activeSockets (delete sanitizedNumber)) ;;
             modify (with_socketCreationTime (delete sanitizedNumber)) ;;
             removeNumberFromMongoDB sanitizedNumber ;;
             deleteSessionFromMongoDB sanitizedNumber ;;
             inconnuLog ("Manually disconnected " +:+ sanitizedNumber) success ;;
             res_json res BDisconnected)
            (fun error_ =>
               inconnuLog ("Error disconnecting " +:+ sanitizedNumber +:+ ": " +:+ error_) error ;;
               res_status res 500 ;;
               res_json res BDisconnectFailed)
      end
  end.


(** *** The 'messages.upsert' listeners *)

(** [mek.message], by its content type. *)
Inductive Content :=
  | Conversation (text : string)
  | ExtendedText (text : string) (quotedMessage : bool)
  | ImageMessage
  | StickerMessage
  | ViewOnceMessageV2
  | EphemeralMessage (inner : Content)
  | OtherMessage.

(** [msg.messages[0]]. [mek_type] and [mek_q] are the properties [type] and
    [q] of the object once [sms(conn, mek)] of lib/msg, which is not among
    the sources, has seen it. *)
Record Message := {
  message : option Content;
  remoteJid : string;
  fromMe : bool;
  participant : option string;
  newsletterServerId : option string;
  mek_type : option string;
  mek_q : bool
}.

(** [getContentType(m) === 'ephemeralMessage' ? m.ephemeralMessage.message : m] *)
Definition unwrapEphemeral (m : Content) : Content :=
  match m with
  | EphemeralMessage inner => inner
  | _ => m
  end.

Definition isViewOnceMessageV2 (m : Content) : bool :=
  match m with
  | ViewOnceMessageV2 => true
  | _ => false
  end.

(** The listener that [setupMessageHandlers(socket, number)] installs *)
Definition presence_listener (socket : nat) (number : string) (msg : Message)
  : Block World unit :=
  (if negb (bool_decide (is_Some (message msg))) ||
      bool_decide (remoteJid msg = "status@broadcast")
   then return_ else mret tt) ;;
  userConfig ← getUserConfigFromMongoDB number;
  when (bool_decide (AUTO_TYPING userConfig = "true")) (
    try_catch
      (client_call OpPresence socket (CPresence "composing" (remoteJid msg)))
      (fun e => inconnuLog ("Failed to set typing presence: " +:+ e) error)) ;;
  when (bool_decide (AUTO_RECORDING userConfig = "true")) (
    try_catch
      (client_call OpPresence socket (CPresence "recording" (remoteJid msg)))
      (fun e => inconnuLog ("Failed to set recording presence: " +:+ e) error)).

(** A promise nobody awaits: the caller goes on, a rejection is left
    unhandled. This is also what calling an async callback amounts to. What
    the process then does with the rejection (the listener of
    'uncaughtException', lines 1019-1026, which logs it and restarts the
    process under PM2) is not part of the model: [unhandled] records that the
    error left the code that raised it. *)
Definition unawaited (m : Block World unit) : Block World unit :=
  fun w =>
    match m w with
    | (Thrown e, w') => (Normal tt, with_unhandled (fun l => l ++ [e]) w')
    | (_, w') => (Normal tt, w')
    end.

(** A call [cmd.function(conn, mek, m, ctx)] of the plugin at index [i]. *)
Definition invoke (i : nat) (cmd : Command) (path : Path) (ctx : Ctx) : Block World unit :=
  modify (with_invoked (fun l => l ++ [(i, path)])) ;;
  match cmd_function cmd path ctx with
  | Returns => mret tt
  | Throws e => throw e
  | Rejects e => modify (with_unhandled (fun l => l ++ [e]))
  end.

(** [array.find(p)], with the index of what it found *)
Fixpoint find_from {A} (p : A -> bool) (i : nat) (l : list A) : option (nat * A) :=
  match l with
  | [] => None
  | x :: r => if p x then Some (i, x) else find_from p (S i) r
  end.

(** [cmd.pattern === cmdName] *)
Definition has_pattern (cmdName : string) (cmd : Command) : bool :=
  bool_decide (cmd_pattern cmd = Some cmdName).

(** [cmd.alias && cmd.alias.includes(cmdName)] *)
Definition has_alias (cmdName : string) (cmd : Command) : bool :=
  match cmd_alias cmd with
  | Some names => bool_decide (cmdName ∈ names)
  | None => false
  end.

(** [events.commands.find(pattern) || events.commands.find(alias)] *)
Definition find_command (cmdName : string) : option (nat * Command) :=
  match find_from (has_pattern cmdName) 0 (commands env) with
  | Some c => Some c
  | None => find_from (has_alias cmdName) 0 (commands env)
  end.

(** [body.slice(config.PREFIX.length).trim().split(" ")[0].toLowerCase()] *)
Definition commandName (body : string) : string :=
  Js.toLowerCase
    (Js.splitHead " " (Js.trim (Js.slice body (String.length (PREFIX (config env)))))).

(** [command.on === kind] *)
Definition on_is (command : Command) (kind : string) : bool :=
  bool_decide (cmd_on command = Some kind).

(** Status handling, lines 529-554 *)
Definition status_handling (conn : nat) (user : option string) (mek : Message)
    (userConfig : UserConfig) : Block World unit :=
  when (bool_decide (AUTO_VIEW_STATUS userConfig = "true"))
    (client_call OpReadMessages conn (CReadMessages (remoteJid mek))) ;;
  when (bool_decide (AUTO_LIKE_STATUS userConfig = "true")) (
    user_id user ;;
    client_call OpSendMessage conn (CReact (remoteJid mek) (chosenEmoji env))) ;;
  when (bool_decide (AUTO_STATUS_REPLY userConfig = "true")) (
    client_call OpSendMessage conn
      (CSendText (default "" (participant mek))
         (if Js.truthy (USER_AUTO_STATUS_MSG userConfig)
          then USER_AUTO_STATUS_MSG userConfig
          else AUTO_STATUS_MSG (config env)))) ;;
  return_.

(** The "send" command, lines 630-652 *)
Definition send_command (conn : nat) (from body : string) (m : Content) : Block World unit :=
  let cmdNoPrefix := Js.trim (Js.toLowerCase body) in
  when (bool_decide (cmdNoPrefix ∈ ["send"; "sendme"; "sand"])) (
    match m with
    | ExtendedText _ true =>
        try_catch
          (ext OpDownload ;;
           client_call OpSendMessage conn (CSendText from "(the quoted status)"))
          (fun e => inconnuLog ("Send command error: " +:+ e) error)
    | _ => client_call OpSendMessage conn (CSendText from "*Please reply to a status!*")
    end).

(** Execute Plugins, lines 654-676 *)
Definition execute_plugins (conn : nat) (sanitizedNumber from body : string)
    (isCmd isOwner : bool) (ctx : Ctx) : Block World unit :=
  let cmdName := commandName body in
  when isCmd (
    incrementStats sanitizedNumber "commandsUsed" ;;
    match find_command cmdName with
    | Some (i, cmd) =>
        (if bool_decide (WORK_TYPE (config env) = "private") && negb isOwner
         then return_ else mret tt) ;;
        match cmd_react cmd with
        | Some emoji =>
            when (Js.truthy emoji)
              (unawaited (client_call OpSendMessage conn (CReact from emoji)))
        | None => mret tt
        end ;;
        try_catch
          (invoke i cmd ByCommand ctx)
          (fun e => inconnuLog ("PLUGIN ERROR: " +:+ e) error)
    | None => mret tt
    end).

(** The callback of [events.commands.map(async (command) => ...)] *)
Definition event_callback (mek : Message) (body : string) (ctx : Ctx)
    (i : nat) (command : Command) : Block World unit :=
  if Js.truthy body && on_is command "body" then invoke i command ByEvent ctx
  else if mek_q mek && on_is command "text" then invoke i command ByEvent ctx
  else if (on_is command "image" || on_is command "photo") &&
          bool_decide (mek_type mek = Some "imageMessage")
       then invoke i command ByEvent ctx
  else if on_is command "sticker" && bool_decide (mek_type mek = Some "stickerMessage")
       then invoke i command ByEvent ctx
  else mret tt.

(** [array.map(callback)] for an async callback: every call is made, none is
    awaited. *)
Fixpoint map_async (callback : nat -> Command -> Block World unit) (i : nat)
    (l : list Command) : Block World unit :=
  match l with
  | [] => mret tt
  | c :: r => unawaited (callback i c) ;; map_async callback (S i) r
  end.

(** Execute Events, lines 684-692 *)
Definition execute_events (mek : Message) (body : string) (ctx : Ctx) : Block World unit :=
  map_async (event_callback mek body ctx) 0 (commands env).

(** Normalize Message, lines 500-509 *)
Definition normalizeMessage (m0 : Content) : Content :=
  let m1 := unwrapEphemeral m0 in
  if isViewOnceMessageV2 m1 then unwrapEphemeral m1 else m1.

(** [body], line 561 *)
Definition bodyOf (m : Content) : string :=
  match m with
  | Conversation text => text
  | ExtendedText text _ => text
  | _ => ""
  end.

(** [sender], line 570; [id] is [conn.user.id] *)
Definition senderOf (id : string) (mek : Message) : string :=
  if fromMe mek then Js.splitHead ":" id +:+ "@s.whatsapp.net"
  else match participant mek with
       | Some p => if Js.truthy p then p else remoteJid mek
       | None => remoteJid mek
       end.

(** [isOwner], lines 571-577 *)
Definition isOwnerOf (id : string) (mek : Message) : bool :=
  let senderNumber := Js.splitHead "@" (senderOf id mek) in
  let botNumber := Js.splitHead ":" id in
  let isMe := Js.includes botNumber senderNumber in
  Js.includes (OWNER_NUMBER (config env)) senderNumber || isMe.

(** The listener of 'messages.upsert' in inconnuboyPair, lines 492-697.
    [user] is [conn.user?.id] when the listener runs. *)
Definition upsert_listener (conn : nat) (number sanitizedNumber : string)
    (user : option string) (mek : Message) : Block World unit :=
  try_catch
    (m0 ← match message mek with
          | Some m => mret m
          | None => return_
          end;
     userConfig ← getUserConfigFromMongoDB number;
     (* Normalize Message *)
     let m := normalizeMessage m0 in
     (* Auto Read *)
     when (bool_decide (READ_MESSAGE userConfig = "true"))
       (client_call OpReadMessages conn (CReadMessages (remoteJid mek))) ;;
     (* Newsletter Reaction *)
     when (bool_decide (remoteJid mek = "120363421104812135@newsletter")) (
       try_catch
         (match newsletterServerId mek with
          | Some serverId =>
              when (Js.truthy serverId)
                (client_call OpSendMessage conn (CReact (remoteJid mek) (chosenEmoji env)))
          | None => mret tt
          end)
         (fun _ => mret tt)) ;;
     (* Status Handling *)
     (if bool_decide (remoteJid mek = "status@broadcast")
      then status_handling conn user mek userConfig else mret tt) ;;
     (* Message Serialization *)
     ext OpSms ;;
     let from := remoteJid mek in
     let body := bodyOf m in
     let isCmd := Js.startsWith body (PREFIX (config env)) in
     let isGroup := Js.endsWith from "@g.us" in
     id ← user_id user;
     let sender := senderOf id mek in
     let senderNumber := Js.splitHead "@" sender in
     let isOwner := isOwnerOf id mek in
     let ctx := {| ctx_from := from; ctx_body := body; ctx_isCmd := isCmd;
                   ctx_isGroup := isGroup; ctx_sender := sender;
                   ctx_senderNumber := senderNumber; ctx_isOwner := isOwner |} in
     (* Group Metadata *)
     when isGroup (
       try_catch (client_call OpGroupMetadata conn (CGroupMetadata from))
                 (fun _ => mret tt)) ;;
     (* Auto Presence *)
     when (bool_decide (AUTO_TYPING userConfig = "true"))
       (client_call OpPresence conn (CPresence "composing" from)) ;;
     when (bool_decide (AUTO_RECORDING userConfig = "true"))
       (client_call OpPresence conn (CPresence "recording" from)) ;;
     (* "Send" Command *)
     send_command conn from body m ;;
     (* Execute Plugins *)
     execute_plugins conn sanitizedNumber from body isCmd isOwner ctx ;;
     (* Statistiques messages *)
     incrementStats sanitizedNumber "messagesReceived" ;;
     when isGroup (incrementStats sanitizedNumber "groupsInteracted") ;;
     (* Execute Events *)
     execute_events mek body ctx)
    (fun e => inconnuLog ("Message handler error: " +:+ e) error).

(** *** The event loop *)

(** What a socket's emitter can emit. [user] is [conn.user?.id] at that
    moment. *)
Inductive Event :=
  | ConnectionUpdate (user : option string) (update : Update)
  | MessagesUpsert (user : option string) (mek : Message)
  | CredsUpdate (creds : Creds).

(** The body of listener [l] of socket [sid], if it listens to [ev]. The
    listeners of 'call' and of 'messages.update' are attached but their
    bodies are not modelled. *)
Definition listener_block (sid : nat) (s : Socket) (ev : Event) (l : Listener)
  : option (Block World unit) :=
  let number := sock_number s in
  match ev, l with
  | ConnectionUpdate _ update, LAutoRestart =>
      Some (autoRestart_listener sid number update)
  | ConnectionUpdate user update, LConnection =>
      Some (connection_listener sid (sanitizedNumber number)
              (negb (sock_usePairingCode s)) user update)
  | MessagesUpsert _ mek, LPresence => Some (presence_listener sid number mek)
  | MessagesUpsert user mek, LUpsert =>
      Some (upsert_listener sid number (sanitizedNumber number) user mek)
  | CredsUpdate creds, LCredsUpdate => Some (creds_listener (sanitizedNumber number) creds)
  | _, _ => None
  end.

(** A callback the event loop starts: nobody awaits it. *)
Definition detached (m : Block World unit) (w : World) : World :=
  exec (unawaited m) w.

(** [socket.ev.emit(event, data)]: the listeners attached when the event is
    emitted are called in the order in which they were attached. *)
Definition emit (sid : nat) (ev : Event) (w : World) : World :=
  match sockets w !! sid with
  | None => w
  | Some s =>
      foldl (fun w l =>
               match listener_block sid s ev l with
               | Some m => detached m w
               | None => w
               end)
            w (sock_listeners s)
  end.

Definition run_task (t : Task) : Block World unit :=
  match t with
  | TPairingTimeout conn sanitizedNumber res => pairing_timeout conn sanitizedNumber res
  | TPairingRequest conn sanitizedNumber res => pairing_request conn sanitizedNumber res
  | TReconnect number => reconnect number
  end.

(** The [i]-th pending timer expires: no earlier than it is due. *)
Definition fire (i : nat) (w : World) : World :=
  match timers w !! i with
  | None => w
  | Some t =>
      detached (run_task (task t))
               (with_timers (delete i) (with_clock (Z.max (due t)) w))
  end.

(** The /code route, for a number that is absent or a string *)
Definition code_route (number : option string) (res : nat) : Block World unit :=
  match number with
  | None | Some "" => res_json res BNumberRequired ;; return_
  | Some number => inconnuboyPair number (Some res)
  end.

(** One turn of the loop of autoReconnectFromMongoDB and of /connect-all,
    for a number of the roster that was read when the loop started: the
    registry is asked for the number as stored, and the supervisor is called
    with a mock response. The log lines and the summary of the loops are
    left out. *)
Definition roster_connect (number : string) : Block World unit :=
  active ← gets (fun w => bool_decide (is_Some (activeSockets w !! number)));
  if active : bool then mret tt
  else
    res ← gets (fun w => length (responses w));
    modify (with_responses (fun l => l ++ [mockRes])) ;;
    inconnuboyPair number (Some res).

(** What can happen to the process. [TimePasses ms] moves what [Date.now()]
    returns by [ms]: the wall clock, which is set back when [ms] is
    negative. *)
Inductive Request :=
  | GetCode (number : option string)
  | GetDisconnect (number : option string)
  | RosterConnect (number : string)
  | SocketEvent (sid : nat) (ev : Event)
  | TimerExpires (i : nat)
  | TimePasses (ms : Z).

(** A request arrives with a response object of its own. *)
Definition with_fresh_res (route : nat -> Block World unit) (w : World) : World :=
  detached (route (length (responses w)))
           (with_responses (fun l => l ++ [freshRes]) w).

Definition step (r : Request) (w : World) : World :=
  match r with
  | GetCode number => with_fresh_res (code_route number) w
  | GetDisconnect number => with_fresh_res (disconnect number) w
  | RosterConnect number => detached (roster_connect number) w
  | SocketEvent sid ev => emit sid ev w
  | TimerExpires i => fire i w
  | TimePasses ms => with_clock (fun c => (c + ms)%Z) w
  end.

Definition run (rs : list Request) (w : World) : World :=
  foldl (fun w r => step r w) w rs.

End Supervisor.

(** The listeners of a socket that inconnuboyPair has set up to its end, in
    the order of their calls. *)
Definition pair_listeners : list Listener :=
  [LPresence; LAntiCall; LAutoRestart; LCredsUpdate; LConnection; LCall;
   LAntiDelete; LUpsert].

(** ** Sample environments and events *)

Definition quietUser : UserConfig :=
  {| READ_MESSAGE := "false"; AUTO_TYPING := "false"; AUTO_RECORDING := "false";
     AUTO_VIEW_STATUS := "false"; AUTO_LIKE_STATUS := "false";
     AUTO_STATUS_REPLY := "false"; USER_AUTO_STATUS_MSG := "" |}.

(** The text after the first [sep] of [s], empty when there is none. *)
Fixpoint afterFirst (sep : ascii) (s : string) : string :=
  match s with
  | EmptyString => EmptyString
  | String c r => if Ascii.eqb c sep then r else afterFirst sep r
  end.

(** What the samples take for jidNormalizedUser: the user of the JID without
    agent and device, at its server; the empty string when the JID has no
    '@'. *)
Definition normalizedUser (jid : string) : string :=
  if Js.includes jid "@" then
    let server := afterFirst "@" jid in
    Js.splitHead "_" (Js.splitHead ":" (Js.splitHead "@" jid)) +:+ "@" +:+
    (if String.eqb server "c.us" then "s.whatsapp.net" else server)
  else "".

(** No plugin, no failing collaborator, the configuration of config.js. *)
Definition calm : Env :=
  {| config := defaultConfig; commands := []; fails := fun _ => None;
     userConfigOf := fun _ => quietUser; pairingCodeOf := fun _ => "ABCD1234";
     chosenEmoji := "+"; jidNormalizedUser := normalizedUser |}.

Definition closeWith (code : Z) (msg : string) : Event :=
  ConnectionUpdate None
    {| connection := Some ConnClose;
       lastDisconnect := Some {| statusCode := Some code; errorMessage := Some msg |} |}.

(** A store that holds a credential blob and a roster entry for 123. *)
Definition known123 : World :=
  with_mongoNumbers (fun _ => {["123"]})
    (with_mongoSessions <["123" := "blob"]> emptyWorld).

(** The world after [if (res && !res.headersSent) return res.json(body)]. *)
Definition responded (res : option nat) (body : Body) (w : World) : World :=
  match res with
  | Some i => if canRespond res w then with_responses (alter (json body) i) w else w
  | None => w
  end.

(** ** What the dispatch is expected to call *)

(** The test that the callback of "Execute Events" applies to an entry of
    events.commands. *)
Definition event_trigger (mek : Message) (body : string) (command : Command) : bool :=
  (Js.truthy body && on_is command "body") ||
  (mek_q mek && on_is command "text") ||
  ((on_is command "image" || on_is command "photo") &&
   bool_decide (mek_type mek = Some "imageMessage")) ||
  (on_is command "sticker" && bool_decide (mek_type mek = Some "stickerMessage")).

(** The entries whose trigger matches, in the order of events.commands,
    counted from [i]. *)
Fixpoint events_fired (mek : Message) (body : string) (i : nat) (l : list Command)
  : list (nat * Path) :=
  match l with
  | [] => []
  | command :: r =>
      (if event_trigger mek body command then [(i, ByEvent)] else []) ++
      events_fired mek body (S i) r
  end.


(** Text of ASCII characters only. On such text JavaScript's [trim] and
    [toLowerCase] are the functions of module Js; elsewhere they strip and
    lower more than those do. *)
Fixpoint asciiText (s : string) : bool :=
  match s with
  | EmptyString => true
  | String c r => (nat_of_ascii c <? 128)%nat && asciiText r
  end.


(** ** Triples *)

(** [m], started in a state that satisfies [P], ends with a completion and a
    state that satisfy [Q]. *)
Definition triple {S A} (P : S -> Prop) (m : Block S A)
    (Q : Completion A -> S -> Prop) : Prop :=
  forall s, P s -> Q (fst (m s)) (snd (m s)).

(** [m], started in a state that satisfies [P], runs to its end and keeps
    [P]. *)
Definition runs {S A} (P : S -> Prop) (m : Block S A) : Prop :=
  forall s, P s -> exists a, fst (m s) = Normal a /\ P (snd (m s)).

(** A plugin that answers the command menu, alias help. *)
Definition cmdMenu : Command :=
  {| cmd_pattern := Some "menu"; cmd_alias := Some ["help"]; cmd_on := None;
     cmd_react := None; cmd_function := fun _ _ => Returns |}.

(** A plugin that looks at the text of every message. *)
Definition cmdWatch : Command :=
  {| cmd_pattern := None; cmd_alias := None; cmd_on := Some "body";
     cmd_react := None; cmd_function := fun _ _ => Returns |}.

(** A command whose function throws. *)
Definition cmdBroken : Command :=
  {| cmd_pattern := Some "broken"; cmd_alias := None; cmd_on := None;
     cmd_react := None; cmd_function := fun _ _ => Throws "boom" |}.

(** A command whose function is async and rejects. *)
Definition cmdAsyncBroken : Command :=
  {| cmd_pattern := Some "later"; cmd_alias := None; cmd_on := None;
     cmd_react := None; cmd_function := fun _ _ => Rejects "boom" |}.

(** A plugin that looks at the text of every message, and throws. *)
Definition cmdWatchBroken : Command :=
  {| cmd_pattern := None; cmd_alias := None; cmd_on := Some "body";
     cmd_react := None; cmd_function := fun _ _ => Throws "boom" |}.

Definition withCommands (l : list Command) (workType : string) : Env :=
  {| config := {| PREFIX := "."; WORK_TYPE := workType; OWNER_NUMBER := "2547999635583";
                  REJECT_MSG := REJECT_MSG defaultConfig;
                  AUTO_STATUS_MSG := AUTO_STATUS_MSG defaultConfig |};
     commands := l; fails := fun _ => None;
     userConfigOf := fun _ => quietUser; pairingCodeOf := fun _ => "ABCD1234";
     chosenEmoji := "+"; jidNormalizedUser := normalizedUser |}.

(** A text message from 254700000001, who is not the owner. *)
Definition textFrom254700000001 (text : string) : Message :=
  {| message := Some (Conversation text);
     remoteJid := "254700000001@s.whatsapp.net"; fromMe := false;
     participant := None; newsletterServerId := None;
     mek_type := Some "conversation"; mek_q := false |}.

(** ** Invariants *)

(** [m] keeps [P]: whatever its completion, the state it leaves satisfies
    [P] when the state it started from does. *)
Definition preserves {S A} (P : S -> Prop) (m : Block S A) : Prop :=
  forall s, P s -> P (snd (m s)).

(** The two tables of the registry have the same keys. *)
Definition registry_consistent (w : World) : Prop :=
  dom (socketCreationTime w) =@{gset string} dom (activeSockets w).

(** * Utilities, the end of the process, calls and configuration *)

(** ** Utilities of the module *)

(** [buffer.toString('hex')] *)
Module Hex.

Definition digit (n : nat) : ascii :=
  match n with
  | 0 => "0" | 1 => "1" | 2 => "2" | 3 => "3" | 4 => "4" | 5 => "5" | 6 => "6" | 7 => "7"
  | 8 => "8" | 9 => "9" | 10 => "a" | 11 => "b" | 12 => "c" | 13 => "d" | 14 => "e"
  | _ => "f"
  end%char.

Fixpoint encode (bytes : list Byte.byte) : string :=
  match bytes with
  | [] => EmptyString
  | b :: r =>
      let n := Byte.to_nat b in
      String (digit (n / 16)) (String (digit (n mod 16)) (encode r))
  end.

Definition is_digit (c : ascii) : bool :=
  let n := nat_of_ascii c in
  ((48 <=? n)%nat && (n <=? 57)%nat) || ((97 <=? n)%nat && (n <=? 102)%nat).

End Hex.

(** [s.slice(0, n)] for [0 <= n] *)
Fixpoint slice_to (s : string) (n : nat) {struct n} : string :=
  match n with
  | O => EmptyString
  | S k =>
      match s with
      | EmptyString => EmptyString
      | String c r => String c (slice_to r k)
      end
  end.

(** [createSerial(size)]; [randomBytes] is what [crypto.randomBytes(size)]
    returned. *)
Definition createSerial (size : nat) (randomBytes : list Byte.byte) : string :=
  slice_to (Hex.encode randomBytes) size.

(** A participant of a group: [admin] is the role, [None] when the property
    is null or missing. *)
Record Participant := {
  participant_id : string;
  participant_admin : option string
}.

(** The loop of [getGroupAdmins], from the participants left to visit and the
    array [admins] built so far. *)
Fixpoint getGroupAdmins_from (participants : list Participant) (admins : list string)
  : list string :=
  match participants with
  | [] => admins
  | i :: r =>
      match participant_admin i with
      | None => getGroupAdmins_from r admins
      | Some _ => getGroupAdmins_from r (admins ++ [participant_id i])
      end
  end.

(** [getGroupAdmins(participants)] *)
Definition getGroupAdmins (participants : list Participant) : list string :=
  getGroupAdmins_from participants [].

(** [\d+@] at the start of [s]; [seen] tells that a digit has been read. *)
Fixpoint digits_then_at (seen : bool) (s : string) : bool :=
  match s with
  | EmptyString => false
  | String c r =>
      if Js.is_digit c then digits_then_at true r
      else seen && Ascii.eqb c "@"
  end.

(** [/:\d+@/gi.test(jid)] on a fresh regular expression *)
Fixpoint has_device (jid : string) : bool :=
  match jid with
  | EmptyString => false
  | String c r => (Ascii.eqb c ":" && digits_then_at false r) || has_device r
  end.

(** What [jidDecode] of the protocol library returns, as far as [decodeJid]
    reads it. *)
Record FullJid := {
  jid_user : option string;
  jid_server : option string
}.

Section DecodeJid.

(** [jidDecode] of the protocol library; [None] is undefined. *)
Variable jidDecode : string -> option FullJid.

(** [conn.decodeJid(jid)] for a string; the empty string is the falsy one. *)
Definition decodeJid (jid : string) : string :=
  if negb (Js.truthy jid) then jid
  else if has_device jid then
    let decode := default {| jid_user := None; jid_server := None |} (jidDecode jid) in
    match jid_user decode, jid_server decode with
    | Some user, Some server =>
        if Js.truthy user && Js.truthy server then user +:+ "@" +:+ server else jid
    | _, _ => jid
    end
  else jid.

End DecodeJid.

(** ** The listener of the process event 'exit' *)

(** [for (const x of l) { body x }] *)
Fixpoint for_each {S A} (l : list A) (body : A -> Block S unit) : Block S unit :=
  match l with
  | [] => mret tt
  | x :: r => body x ;; for_each r body
  end.

Section Exit.

Variable env : Env.

(** The listener of the process event 'exit'. The entries of activeSockets
    are visited in the order of [map_to_list]; emptying the directory
    'session' removes every session directory. *)
Definition on_exit : Block World unit :=
  entries ← gets (fun w => map_to_list (activeSockets w));
  for_each entries (fun entry =>
    ws_close env entry.2 ;;
    modify (with_activeSockets (delete entry.1)) ;;
    modify (with_socketCreationTime (delete entry.1))) ;;
  modify (with_localFs (fun _ => ∅)).

End Exit.

(** The world after the loop of the 'exit' listener has visited [l]. *)
Definition closed_all (l : list (string * nat)) (w : World) : World :=
  foldl (fun w entry =>
           with_socketCreationTime (delete entry.1)
             (with_activeSockets (delete entry.1)
                (with_sockets (alter set_wsClosed entry.2) w)))
        w l.

(** ** Query parameters as the routes receive them *)

(** [req.query.number]: absent, a string, or what the query parser builds
    from [number[]=1] or [number[a]=1]: an array or an object, which is
    truthy and has no method [replace]. *)
Inductive Query := Absent | Text (s : string) | Parsed.

(** What [number.replace(...)] throws when [number] is not a string. *)
Definition notAString (number : Query) : string :=
  match number with
  | Absent => "Cannot read properties of undefined (reading 'replace')"
  | _ => "number.replace is not a function"
  end.

Section Queries.

Variable env : Env.

(** inconnuboyPair with its argument as a route passes it: line 274
    sanitizes the number before the [try], so what it throws there rejects
    the call. *)
Definition inconnuboyPair_query (number : Query) (res : option nat) : Block World unit :=
  match number with
  | Text s => inconnuboyPair env s res
  | _ => throw (notAString number)
  end.

(** The /code route, lines 721-725 *)
Definition code_query (number : Query) (res : nat) : Block World unit :=
  match number with
  | Absent | Text "" => res_json res BNumberRequired ;; return_
  | _ => inconnuboyPair_query number (Some res)
  end.

(** The /disconnect route, lines 763-803: line 769 sanitizes the number
    before the [try] of line 777. *)
Definition disconnect_query (number : Query) (res : nat) : Block World unit :=
  match number with
  | Absent => disconnect env None res
  | Text s => disconnect env (Some s) res
  | Parsed => throw (notAString number)
  end.

End Queries.

(** ** The /status route *)

(** An entry of [connections] in the answer of /status. *)
Record ActiveConnection := {
  ac_number : string;
  ac_connectionTime : option Z;
  ac_uptime : Z
}.

(** What /status passes to [res.json]. *)
Inductive StatusBody :=
  | StatusAll (totalActive : nat) (connections : list ActiveConnection)
  | StatusOne (number : string) (isConnected : bool) (connectionTime : option Z)
      (uptime : Z) (message : string).

(** The /status route. The keys of activeSockets are listed in the order of
    [map_to_list]. *)
Definition status_route (number : option string) (w : World) : StatusBody :=
  match number with
  | None | Some "" =>
      let activeConnections :=
        (fun num =>
           let status := getConnectionStatus num w in
           {| ac_number := num; ac_connectionTime := connectionTime status;
              ac_uptime := uptime status |})
        <$> (map_to_list (activeSockets w)).*1 in
      StatusAll (size (activeSockets w)) activeConnections
  | Some number =>
      let connectionStatus := getConnectionStatus number w in
      StatusOne number (isConnected connectionStatus) (connectionTime connectionStatus)
        (uptime connectionStatus)
        (if isConnected connectionStatus
         then "Number is actively connected" else "Number is not connected")
  end.

(** ** Calls and the configuration routes *)

(** An entry of the array that the event 'call' carries. *)
Record CallInfo := {
  call_status : string;
  call_id : string;
  call_from : string
}.

(** The fields of the stored configuration that the listeners of 'call'
    read; a missing REJECT_MSG is the empty string. *)
Record CallConfig := {
  ANTI_CALL : string;
  USER_REJECT_MSG : string
}.

(** Calls into the collaborators of this part that may throw or reject. *)
Inductive AdminOp := OpRejectCall | OpSaveOTP | OpVerifyOTP | OpUpdateUserConfig.

Global Instance AdminOp_eq_dec : EqDecision AdminOp.
Proof. solve_decision. Defined.

(** What [verifyOTPFromMongoDB] returns: [{valid: true, config}] or
    [{valid: false, error}]. *)
Inductive Verification := Valid (config : string) | Invalid (error : string).

Record AdminEnv := {
  callConfigOf : string -> CallConfig;       (* the stored ANTI_CALL and REJECT_MSG *)
  admin_fails : AdminOp -> option string;    (* the calls that throw, with the message *)
  parseConfig : string -> option string;     (* JSON.parse; None: it throws *)
  chosenOtp : string;                        (* the code Math.random() leads to *)
  verificationOf : string -> string -> Verification
}.

(** The calls that this part makes and the world does not record. *)
Inductive AdminCall :=
  | RejectCall (conn : nat) (id from : string)
  | SaveOTP (number otp newConfig : string)
  | UpdateUserConfig (number config : string).

Record Process := {
  core : World;
  adminCalls : list AdminCall
}.

(** Bodies that the configuration routes pass to [res.json]. *)
Inductive AdminBody :=
  | BNumberAndConfigRequired
  | BInvalidConfigFormat
  | BNoActiveSession
  | BOtpSent
  | BOtpSendFailed
  | BNumberAndOtpRequired
  | BVerificationError (error : string)
  | BConfigUpdated
  | BConfigUpdateFailed.

(** [try { body } catch (e) { handler e }] around statements that end with
    the answer of a route. *)
Definition try_catch_answer {S A} (body : Block S A) (handler : string -> Block S A)
  : Block S A :=
  fun s =>
    match body s with
    | (Thrown e, s') => handler e s'
    | r => r
    end.

Definition newline : string := String (ascii_of_nat 10) EmptyString.

(** The calls with status 'offer'. *)
Definition offers (calls : list CallInfo) : list CallInfo :=
  filter (fun call => call_status call = "offer") calls.

Section Admin.

Variable env : Env.
Variable aenv : AdminEnv.

Definition inCore {A} (m : Block World A) : Block Process A :=
  fun p =>
    let '(c, w) := m (core p) in
    (c, {| core := w; adminCalls := adminCalls p |}).

Definition admin_ext (op : AdminOp) : Block Process unit :=
  match admin_fails aenv op with
  | Some e => throw e
  | None => mret tt
  end.

Definition admin_call (op : AdminOp) (c : AdminCall) : Block Process unit :=
  admin_ext op ;;
  modify (fun p => {| core := core p; adminCalls := adminCalls p ++ [c] |}).

(** Modelled from the spec: lib/database is not among the sources. Section 6
    of the spec gives [getConfig(tenantId) -> TenantConfig]; this is the same
    call as [getUserConfigFromMongoDB], read for its other fields. *)
Definition getCallConfigFromMongoDB (number : string) : Block Process CallConfig :=
  inCore (getUserConfigFromMongoDB env number) ;; mret (callConfigOf aenv number).

(** Modelled from the spec: lib/database is not among the sources. Section 6
    of the spec gives [saveOTP(tenantId, code, delta)]. *)
Definition saveOTPToMongoDB (number otp newConfig : string) : Block Process unit :=
  admin_call OpSaveOTP (SaveOTP number otp newConfig).

(** Modelled from the spec: lib/database is not among the sources. Section 6
    of the spec gives [verifyOTP(tenantId, code) -> {valid, delta|error}]. *)
Definition verifyOTPFromMongoDB (number otp : string) : Block Process Verification :=
  admin_ext OpVerifyOTP ;; mret (verificationOf aenv number otp).

(** Modelled from the spec: lib/database is not among the sources. Section 6
    of the spec gives [updateConfig(tenantId, delta)]. *)
Definition updateUserConfigInMongoDB (number config : string) : Block Process unit :=
  admin_call OpUpdateUserConfig (UpdateUserConfig number config).

(** [text || fallback] *)
Definition or_else (text fallback : string) : string :=
  if Js.truthy text then text else fallback.

(** The listener of 'call' that [setupCallHandlers(socket, number)]
    installs *)
Definition antiCall_listener (socket : nat) (number : string) (calls : list CallInfo)
  : Block Process unit :=
  try_catch
    (userConfig ← getCallConfigFromMongoDB number;
     (if negb (bool_decide (ANTI_CALL userConfig = "true")) then return_ else mret tt) ;;
     for_each calls (fun call =>
       if negb (bool_decide (call_status call = "offer")) then mret tt
       else
         let id := call_id call in
         let from := call_from call in
         admin_call OpRejectCall (RejectCall socket id from) ;;
         inCore (client_call env OpSendMessage socket
                   (CSendText from
                      (or_else (USER_REJECT_MSG userConfig)
                         "*🔕 ʏᴏᴜʀ ᴄᴀʟʟ ᴡᴀs ᴀᴜᴛᴏᴍᴀᴛɪᴄᴀʟʟʏ ʀᴇᴊᴇᴄᴛᴇᴅ..!*"))) ;;
         inCore (inconnuLog ("Auto-rejected call for user " +:+ number +:+ " from " +:+ from)
                   info)))
    (fun err => inCore (inconnuLog ("Anti-call error for " +:+ number +:+ ": " +:+ err) error)).

(** The listener of 'call' that inconnuboyPair installs, lines 468-486 *)
Definition call_listener (conn : nat) (number : string) (calls : list CallInfo)
  : Block Process unit :=
  try_catch
    (userConfig ← getCallConfigFromMongoDB number;
     (if negb (bool_decide (ANTI_CALL userConfig = "true")) then return_ else mret tt) ;;
     for_each calls (fun call =>
       if negb (bool_decide (call_status call = "offer")) then mret tt
       else
         let id := call_id call in
         let from := call_from call in
         admin_call OpRejectCall (RejectCall conn id from) ;;
         inCore (client_call env OpSendMessage conn
                   (CSendText from
                      (or_else (USER_REJECT_MSG userConfig) (REJECT_MSG (config env)))))))
    (fun err => inCore (inconnuLog ("Anti-call error: " +:+ err) error)).

(** The body of listener [l] of socket [sid], if it listens to 'call'. *)
Definition call_listener_block (sid : nat) (s : Socket) (calls : list CallInfo)
    (l : Listener) : option (Block Process unit) :=
  match l with
  | LAntiCall => Some (antiCall_listener sid (sock_number s) calls)
  | LCall => Some (call_listener sid (sock_number s) calls)
  | _ => None
  end.

(** A callback the event loop starts: nobody awaits it. *)
Definition detached_admin (m : Block Process unit) (p : Process) : Process :=
  match m p with
  | (Thrown e, p') =>
      {| core := with_unhandled (fun l => l ++ [e]) (core p'); adminCalls := adminCalls p' |}
  | (_, p') => p'
  end.

(** [socket.ev.emit('call', calls)] *)
Definition emit_call (sid : nat) (calls : list CallInfo) (p : Process) : Process :=
  match sockets (core p) !! sid with
  | None => p
  | Some s =>
      foldl (fun p l =>
               match call_listener_block sid s calls l with
               | Some m => detached_admin m p
               | None => p
               end)
            p (sock_listeners s)
  end.

(** The text of the message that carries the code. *)
Definition otpText (otp : string) : string :=
  "*🔐 TEDDY TECH- CONFIGURATION UPDATE*" +:+ newline +:+ newline +:+
  "Your OTP: *" +:+ otp +:+ "*" +:+ newline +:+ "Valid for 5 minutes" +:+
  newline +:+ newline +:+ "Use: /verify-otp " +:+ otp.

Definition configUpdatedText : string :=
  "*CONFIG UPDATED*" +:+ newline +:+ newline +:+
  "Your configuration has been successfully updated!" +:+ newline +:+ newline +:+
  "Changes saved in MongoDB.".

(** The /update-config route: the status code and the body of its answer.
    [user] is [socket.user?.id] when the route runs. *)
Definition update_config_route (number configString : option string) (user : option string)
  : Block Process (nat * AdminBody) :=
  match number, configString with
  | Some number, Some configString =>
      if Js.truthy number && Js.truthy configString then
        match parseConfig aenv configString with
        | None => mret (400, BInvalidConfigFormat)
        | Some newConfig =>
            let sanitizedNumber := sanitizedNumber number in
            socket ← inCore (gets (fun w => activeSockets w !! sanitizedNumber));
            match socket : option nat with
            | None => mret (404, BNoActiveSession)
            | Some socket =>
                let otp := chosenOtp aenv in
                saveOTPToMongoDB sanitizedNumber otp newConfig ;;
                try_catch_answer
                  (id ← inCore (user_id user);
                   let userJid := jidNormalizedUser env id in
                   inCore (client_call env OpSendMessage socket
                             (CSendText userJid (otpText otp))) ;;
                   mret (200, BOtpSent))
                  (fun error_ =>
                     inCore (inconnuLog ("Failed to send OTP: " +:+ error_) error) ;;
                     mret (500, BOtpSendFailed))
            end
        end
      else mret (400, BNumberAndConfigRequired)
  | _, _ => mret (400, BNumberAndConfigRequired)
  end.

(** The /verify-otp route. [user] is [socket.user?.id] when the route
    runs. *)
Definition verify_otp_route (number otp : option string) (user : option string)
  : Block Process (nat * AdminBody) :=
  match number, otp with
  | Some number, Some otp =>
      if Js.truthy number && Js.truthy otp then
        let sanitizedNumber := sanitizedNumber number in
        verification ← verifyOTPFromMongoDB sanitizedNumber otp;
        match verification : Verification with
        | Invalid error_ => mret (400, BVerificationError error_)
        | Valid config =>
            try_catch_answer
              (updateUserConfigInMongoDB sanitizedNumber config ;;
               socket ← inCore (gets (fun w => activeSockets w !! sanitizedNumber));
               match socket : option nat with
               | Some socket =>
                   id ← inCore (user_id user);
                   let userJid := jidNormalizedUser env id in
                   inCore (client_call env OpSendMessage socket
                             (CSendText userJid configUpdatedText))
               | None => mret tt
               end ;;
               mret (200, BConfigUpdated))
              (fun error_ =>
                 inCore (inconnuLog ("Failed to update config in MongoDB: " +:+ error_) error) ;;
                 mret (500, BConfigUpdateFailed))
        end
      else mret (400, BNumberAndOtpRequired)
  | _, _ => mret (400, BNumberAndOtpRequired)
  end.

End Admin.

(** ** More sample environments *)

(** The environment [calm] but for one collaborator, which throws [e]. *)
Definition failing (op : ExtOp) (e : string) : Env :=
  {| config := defaultConfig; commands := [];
     fails := fun o => if decide (o = op) then Some e else None;
     userConfigOf := fun _ => quietUser; pairingCodeOf := fun _ => "ABCD1234";
     chosenEmoji := "+"; jidNormalizedUser := normalizedUser |}.

(** Every tenant has ANTI_CALL set to [antiCall] and no text of its own;
    every configuration text is taken for JSON; the code is 123456. *)
Definition adminWith (antiCall : string) : AdminEnv :=
  {| callConfigOf := fun _ => {| ANTI_CALL := antiCall; USER_REJECT_MSG := "" |};
     admin_fails := fun _ => None;
     parseConfig := fun s => Some s;
     chosenOtp := "123456";
     verificationOf := fun _ otp =>
       if String.eqb otp "123456" then Valid "{}" else Invalid "Invalid OTP" |}.

(** 123, which has a blob in the store, is connected: socket 0. *)
Definition connected123 : World := run calm [GetCode (Some "123")] known123.

Definition socket123 : Socket :=
  {| sock_number := "123"; sock_usePairingCode := false;
     sock_creds := Some "blob"; sock_listeners := pair_listeners;
     sock_restartAttempts := 0; sock_wsClosed := false |}.

Definition offerFrom555 : CallInfo :=
  {| call_status := "offer"; call_id := "c1"; call_from := "555@s.whatsapp.net" |}.

(** ** What a message is expected to count *)

(** The calls of incrementStats that one message is expected to cause.
    [n] is the sanitized number of the socket, [id] is [conn.user.id]. *)
Definition counted (env : Env) (n id : string) (mek : Message) (body : string)
  : list (string * string) :=
  let isCmd := Js.startsWith body (PREFIX (config env)) in
  let refused :=
    isCmd && bool_decide (is_Some (find_command env (commandName env body))) &&
    (bool_decide (WORK_TYPE (config env) = "private") && negb (isOwnerOf env id mek)) in
  (if isCmd then [(n, "commandsUsed")] else []) ++
  (if refused then []
   else (n, "messagesReceived") ::
        (if Js.endsWith (remoteJid mek) "@g.us" then [(n, "groupsInteracted")] else [])).

(** A name made of characters that [toLowerCase] leaves alone and without a
    space. *)
Fixpoint lowered (p : string) : bool :=
  match p with
  | EmptyString => true
  | String c r =>
      negb (Ascii.eqb c " ") && Ascii.eqb (Js.lower_char c) c && lowered r
  end.

(** ** More invariants *)

(** Every key of the registry is the sanitized form of the number its socket
    was created for. *)
Definition registry_sound (w : World) : Prop :=
  forall n conn, activeSockets w !! n = Some conn ->
    exists s, sockets w !! conn = Some s /\ sanitizedNumber (sock_number s) = n.

(** The same, while [conn] is a socket created for [number]. *)
Definition registry_sound_with (number : string) (conn : nat) (w : World) : Prop :=
  registry_sound w /\ exists s, sockets w !! conn = Some s /\ sock_number s = number.

(** A response object of a request is either not answered, or answered once
    with [headersSent] set. *)
Definition answered_once (r : Res) : Prop :=
  res_mock r = false ->
  (res_headersSent r = false /\ res_sent r = []) \/
  (res_headersSent r = true /\ length (res_sent r) = 1).

Definition responses_sound (w : World) : Prop :=
  forall i r, responses w !! i = Some r -> answered_once r.

(** Every socket carries the eight listeners of inconnuboyPair, in the order
    in which they were attached, or none. *)
Definition sockets_whole (w : World) : Prop :=
  forall sid s, sockets w !! sid = Some s ->
    sock_listeners s = pair_listeners \/ sock_listeners s = [].

(** Every registered socket carries them. *)
Definition registry_live (w : World) : Prop :=
  forall n conn, activeSockets w !! n = Some conn ->
    exists s, sockets w !! conn = Some s /\ sock_listeners s = pair_listeners.

(** [at_], when given, is a socket and the number it was created for. *)
Definition socket_of (at_ : option (nat * string)) (w : World) : Prop :=
  match at_ with
  | Some (sid, number) => exists s, sockets w !! sid = Some s /\ sock_number s = number
  | None => True
  end.

(** What holds of the sockets between two callbacks; the registered ones
    carry their listeners when store.bind cannot throw. *)
Definition listening (env : Env) (at_ : option (nat * string)) (w : World) : Prop :=
  registry_sound w /\ sockets_whole w /\ socket_of at_ w /\
  (fails env OpStoreBind = None -> registry_live w).

(** The same, once the number of the socket [sid] has left the registry. *)
Definition listening_off (env : Env) (sid : nat) (number : string) (w : World) : Prop :=
  listening env (Some (sid, number)) w /\
  activeSockets w !! sanitizedNumber number = None.

(** * Properties *)

(** ** Running blocks *)

Lemma run_bind {S A B} (m : Block S A) (k : A -> Block S B) (s : S) :
  (m ≫= k) s =
  match m s with
  | (Normal a, s') => k a s'
  | (Returned, s') => (Returned, s')
  | (Thrown e, s') => (Thrown e, s')
  end.
Proof. reflexivity. Qed.

Lemma run_modify {S B} (f : S -> S) (k : unit -> Block S B) (s : S) :
  (modify f ≫= k) s = k tt (f s).
Proof. reflexivity. Qed.

Lemma run_gets {S A B} (f : S -> A) (k : A -> Block S B) (s : S) :
  (gets f ≫= k) s = k (f s) s.
Proof. reflexivity. Qed.

Lemma run_ret {S A B} (a : A) (k : A -> Block S B) (s : S) :
  (mret a ≫= k) s = k a s.
Proof. reflexivity. Qed.

Lemma run_assoc {S A B C} (m : Block S A) (f : A -> Block S B) (g : B -> Block S C) (s : S) :
  ((m ≫= f) ≫= g) s = (m ≫= (fun a => f a ≫= g)) s.
Proof. rewrite !run_bind. destruct (m s) as [[a| |e] s']; reflexivity. Qed.

Lemma run_ext_ok {B} env op (k : unit -> Block World B) (w : World) :
  fails env op = None -> (ext env op ≫= k) w = k tt w.
Proof. intros H. rewrite run_bind. unfold ext. rewrite H. reflexivity. Qed.

Lemma run_ext_fail {B} env op e (k : unit -> Block World B) (w : World) :
  fails env op = Some e -> (ext env op ≫= k) w = (Thrown e, w).
Proof. intros H. rewrite run_bind. unfold ext. rewrite H. reflexivity. Qed.

Lemma run_log {B} msg type (k : unit -> Block World B) (w : World) :
  (inconnuLog msg type ≫= k) w = k tt (with_logs (fun l => l ++ [(type, msg)]) w).
Proof. reflexivity. Qed.

(** ** Invariants of blocks *)

Section Preserves.

Context {S : Type} (P : S -> Prop).

Lemma preserves_ret {A} (a : A) : preserves P (mret a : Block S A).
Proof. intros s H. exact H. Qed.

Lemma preserves_return {A} : preserves P (return_ : Block S A).
Proof. intros s H. exact H. Qed.

Lemma preserves_throw {A} e : preserves P (throw e : Block S A).
Proof. intros s H. exact H. Qed.

Lemma preserves_gets {A} (f : S -> A) : preserves P (gets f).
Proof. intros s H. exact H. Qed.

Lemma preserves_modify (f : S -> S) :
  (forall s, P s -> P (f s)) -> preserves P (modify f).
Proof. intros Hf s H. apply Hf, H. Qed.

Lemma preserves_bind {A B} (m : Block S A) (k : A -> Block S B) :
  preserves P m -> (forall a, preserves P (k a)) -> preserves P (m ≫= k).
Proof.
  intros Hm Hk s H. rewrite run_bind.
  specialize (Hm s H). destruct (m s) as [[a| |e] s']; cbn in *; auto.
  apply Hk, Hm.
Qed.

Lemma preserves_when (b : bool) (m : Block S unit) :
  preserves P m -> preserves P (when b m).
Proof. intros Hm. destruct b; [exact Hm | apply preserves_ret]. Qed.

Lemma preserves_try_catch (body : Block S unit) (handler : string -> Block S unit) :
  preserves P body -> (forall e, preserves P (handler e)) ->
  preserves P (try_catch body handler).
Proof.
  intros Hb Hh s H. unfold try_catch.
  specialize (Hb s H). destruct (body s) as [[a| |e] s']; cbn in *; auto.
  apply Hh, Hb.
Qed.

Lemma preserves_try_catch_finally (body : Block S unit)
    (handler : string -> Block S unit) (fin : Block S unit) :
  preserves P body -> (forall e, preserves P (handler e)) -> preserves P fin ->
  preserves P (try_catch_finally body handler fin).
Proof.
  intros Hb Hh Hf s H. unfold try_catch_finally.
  pose proof (preserves_try_catch body handler Hb Hh s H) as H1.
  destruct (try_catch body handler s) as [c s1]; cbn in H1.
  specialize (Hf s1 H1). destruct (fin s1) as [[a| |e] s2]; cbn in *; auto.
Qed.

Lemma preserves_call (m : Block S unit) : preserves P m -> preserves P (call m).
Proof.
  intros Hm s H. unfold call. specialize (Hm s H).
  destruct (m s) as [[a| |e] s']; cbn in *; auto.
Qed.

End Preserves.

Lemma preserves_inWorld {A} (P : World -> Prop) (m : Block World A) :
  preserves P m -> preserves (fun f => P (world f)) (inWorld m).
Proof.
  intros Hm f H. unfold inWorld. specialize (Hm (world f) H).
  destruct (m (world f)) as [c w]; cbn in *; auto.
Qed.

Lemma preserves_unawaited (P : World -> Prop) (m : Block World unit) :
  (forall f w, P w -> P (with_unhandled f w)) ->
  preserves P m -> preserves P (unawaited m).
Proof.
  intros Hu Hm w H. unfold unawaited. specialize (Hm w H).
  destruct (m w) as [[a| |e] w']; cbn in *; auto.
Qed.

Lemma preserves_ext (P : World -> Prop) env op : preserves P (ext env op).
Proof. intros w H. unfold ext. destruct (fails env op); exact H. Qed.

(** ** The registry stays consistent *)

Lemma registry_consistent_frame (f : World -> World) :
  (forall w, activeSockets (f w) = activeSockets w) ->
  (forall w, socketCreationTime (f w) = socketCreationTime w) ->
  forall w, registry_consistent w -> registry_consistent (f w).
Proof. intros Ha Ht w H. unfold registry_consistent. rewrite Ha, Ht. exact H. Qed.

Lemma registry_consistent_delete n (k : Block World unit) :
  preserves registry_consistent k ->
  preserves registry_consistent
    (modify (with_activeSockets (delete n)) ;;
     modify (with_socketCreationTime (delete n)) ;; k).
Proof.
  intros Hk w H. rewrite !run_modify. apply Hk.
  unfold registry_consistent in *. cbn. rewrite !dom_delete_L, H. reflexivity.
Qed.

Lemma registry_consistent_set n conn (k : Block World unit) :
  preserves registry_consistent k ->
  preserves registry_consistent
    (modify (fun w => with_socketCreationTime <[n := clock w]> w) ;;
     modify (with_activeSockets <[n := conn]>) ;; k).
Proof.
  intros Hk w H. rewrite !run_modify. apply Hk.
  unfold registry_consistent in *. cbn. rewrite !dom_insert_L, H. reflexivity.
Qed.

(** Splits a block into its statements; what is left are the statements that
    write to the world. *)
Ltac keep_step :=
  match goal with
  | |- forall _, _ => intro
  | |- preserves registry_consistent
         (modify (with_activeSockets (delete _)) ≫= _) =>
      apply registry_consistent_delete
  | |- preserves registry_consistent (modify (fun w => with_socketCreationTime _ w) ≫= _) =>
      apply registry_consistent_set
  | |- preserves _ (_ ≫= _) => apply preserves_bind
  | |- preserves _ (mret _) => apply preserves_ret
  | |- preserves _ return_ => apply preserves_return
  | |- preserves _ (throw _) => apply preserves_throw
  | |- preserves _ (gets _) => apply preserves_gets
  | |- preserves _ (ext _ _) => apply preserves_ext
  | |- preserves _ (when _ _) => apply preserves_when
  | |- preserves _ (try_catch _ _) => apply preserves_try_catch
  | |- preserves _ (call _) => apply preserves_call
  | |- preserves _ (unawaited _) =>
      apply preserves_unawaited; [intros ? ?; apply registry_consistent_frame; reflexivity|]
  | |- preserves _ (inWorld _) => apply preserves_inWorld
  | |- preserves registry_consistent (modify _) =>
      apply preserves_modify; apply registry_consistent_frame; reflexivity
  | |- preserves _ (if ?b then _ else _) => destruct b
  | |- preserves _ (match ?x with _ => _ end) => destruct x
  end.

Ltac keep := repeat keep_step.

Section RegistryConsistent.

Variable env : Env.

Lemma registry_consistent_log msg type : preserves registry_consistent (inconnuLog msg type).
Proof. unfold inconnuLog. keep. Qed.

Lemma registry_consistent_client_call op sid c :
  preserves registry_consistent (client_call env op sid c).
Proof. unfold client_call. keep. Qed.

Lemma registry_consistent_respond res body :
  preserves registry_consistent (respondAndReturn res body).
Proof. unfold respondAndReturn, res_json. keep. Qed.

Lemma registry_consistent_pair number res :
  preserves registry_consistent (inconnuboyPair env number res).
Proof.
  intros w H. unfold inconnuboyPair.
  pose proof (preserves_call (fun f => registry_consistent (world f))
                (inconnuboyPair_block env number res)) as Hc.
  destruct (call (inconnuboyPair_block env number res)
                 {| world := w; connectionLockKey := None |}) as [c f] eqn:E.
  cbn. change f with (snd (c, f)). rewrite <- E. apply Hc; [|exact H].
  unfold inconnuboyPair_block. apply preserves_try_catch_finally.
  - unfold pair_prologue, pair_main, set_connectionLockKey, useMultiFileAuthState,
      makeWASocket, getSessionFromMongoDB, ev_on, with_socket, schedule, res_json,
      respondAndReturn, inconnuLog.
    cbv zeta. keep.
    all: try (apply preserves_modify; intros [w0 k0] H0; exact H0).
  - intros e. unfold pair_catch, respondAndReturn, res_json, inconnuLog. keep.
  - unfold pair_finally. keep.
Qed.

Lemma registry_consistent_autoRestart socket number update :
  preserves registry_consistent (autoRestart_listener env socket number update).
Proof.
  unfold autoRestart_listener, deleteSessionFromMongoDB, removeNumberFromMongoDB,
    removeAllListeners, with_socket, schedule, inconnuLog.
  cbv zeta. keep.
Qed.

Lemma registry_consistent_reconnect number :
  preserves registry_consistent (reconnect env number).
Proof.
  unfold reconnect. keep; try apply registry_consistent_log.
  apply registry_consistent_pair.
Qed.

Lemma registry_consistent_connection conn n existing user update :
  preserves registry_consistent (connection_listener env conn n existing user update).
Proof.
  unfold connection_listener, user_id, addNumberToMongoDB, client_call, inconnuLog.
  keep.
Qed.

Lemma registry_consistent_creds n creds :
  preserves registry_consistent (creds_listener env n creds).
Proof. unfold creds_listener, saveSessionToMongoDB, inconnuLog. keep. Qed.

Lemma registry_consistent_disconnect number res :
  preserves registry_consistent (disconnect env number res).
Proof.
  unfold disconnect, ws_close, removeAllListeners, with_socket, res_status, res_json,
    removeNumberFromMongoDB, deleteSessionFromMongoDB, inconnuLog.
  cbv zeta. keep.
Qed.

Lemma registry_consistent_invoke i cmd path ctx :
  preserves registry_consistent (invoke i cmd path ctx).
Proof. unfold invoke. keep. Qed.

Lemma registry_consistent_presence socket number msg :
  preserves registry_consistent (presence_listener env socket number msg).
Proof.
  unfold presence_listener, getUserConfigFromMongoDB, client_call, inconnuLog. keep.
Qed.

Lemma registry_consistent_events mek body ctx :
  preserves registry_consistent (execute_events env mek body ctx).
Proof.
  unfold execute_events. generalize 0. induction (commands env) as [|c r IH]; intros i.
  - apply preserves_ret.
  - cbn [map_async]. keep; [|apply IH].
    unfold event_callback. keep; apply registry_consistent_invoke.
Qed.

Lemma registry_consistent_plugins conn n from body isCmd isOwner ctx :
  preserves registry_consistent (execute_plugins env conn n from body isCmd isOwner ctx).
Proof.
  unfold execute_plugins, incrementStats, client_call, inconnuLog. cbv zeta.
  keep; apply registry_consistent_invoke.
Qed.

Lemma registry_consistent_upsert conn number n user mek :
  preserves registry_consistent (upsert_listener env conn number n user mek).
Proof.
  unfold upsert_listener, status_handling, send_command, getUserConfigFromMongoDB,
    incrementStats, user_id, client_call, inconnuLog.
  cbv zeta. keep.
  all: first [apply registry_consistent_plugins | apply registry_consistent_events].
Qed.

Lemma registry_consistent_detached (m : Block World unit) w :
  preserves registry_consistent m ->
  registry_consistent w -> registry_consistent (detached m w).
Proof.
  intros Hm H. unfold detached, exec.
  apply (preserves_unawaited registry_consistent m); auto.
Qed.

Lemma registry_consistent_emit sid ev w :
  registry_consistent w -> registry_consistent (emit env sid ev w).
Proof.
  unfold emit. destruct (sockets w !! sid) as [s|]; [|auto].
  revert w. induction (sock_listeners s) as [|l ls IH]; intros w H; [exact H|].
  cbn [foldl]. apply IH.
  destruct (listener_block env sid s ev l) as [m|] eqn:E; [|exact H].
  apply registry_consistent_detached; [|exact H].
  unfold listener_block in E.
  destruct ev, l; inversion E; subst;
    auto using registry_consistent_autoRestart, registry_consistent_connection,
      registry_consistent_presence, registry_consistent_upsert, registry_consistent_creds.
Qed.

Lemma registry_consistent_fire i w :
  registry_consistent w -> registry_consistent (fire env i w).
Proof.
  intros H. unfold fire. destruct (timers w !! i) as [t|]; [|exact H].
  apply registry_consistent_detached; [|exact H].
  destruct (task t); cbn [run_task].
  - unfold pairing_timeout, schedule. keep.
  - unfold pairing_request, respondAndReturn, res_json, client_call, inconnuLog. keep.
  - apply registry_consistent_reconnect.
Qed.

Lemma registry_consistent_step r w :
  registry_consistent w -> registry_consistent (step env r w).
Proof.
  intros H. destruct r; cbn [step].
  - apply registry_consistent_detached; [|exact H].
    unfold code_route, res_json. keep. apply registry_consistent_pair.
  - apply registry_consistent_detached; [|exact H].
    apply registry_consistent_disconnect.
  - apply registry_consistent_detached; [|exact H].
    unfold roster_connect. keep. apply registry_consistent_pair.
  - apply registry_consistent_emit, H.
  - apply registry_consistent_fire, H.
  - exact H.
Qed.

(** The registry is consistent at every point the process can reach. *)
Lemma registry_consistent_run rs w :
  registry_consistent w -> registry_consistent (run env rs w).
Proof.
  revert w. induction rs as [|r rs IH]; intros w H; [exact H|].
  apply IH, registry_consistent_step, H.
Qed.

End RegistryConsistent.

(** ** Connection-close events *)

Section CloseEvents.

Variable env : Env.

(** What the listener of setupAutoRestart does on a manual unlink. *)
Lemma autoRestart_unlink socket number update w :
  connection update = Some ConnClose ->
  isManualUnlink (lastDisconnect update ≫= statusCode)
                 (lastDisconnect update ≫= errorMessage) = true ->
  fails env OpDeleteSession = None ->
  fails env OpRemoveNumber = None ->
  autoRestart_listener env socket number update w =
    (Returned,
     with_sockets (alter (set_listeners []) socket)
       (with_mongoNumbers (fun r => r ∖ {[sanitizedNumber number]})
          (with_mongoSessions (delete (sanitizedNumber number))
             (with_socketCreationTime (delete (sanitizedNumber number))
                (with_activeSockets (delete (sanitizedNumber number))
                   (with_logs (fun l =>
                      ((l ++ [(debug, "Connection update for " +:+ number)]) ++
                       [(warning, "Connection closed for " +:+ number +:+ ": " +:+
                          show_number (lastDisconnect update ≫= statusCode) +:+ " - " +:+
                          show_string (lastDisconnect update ≫= errorMessage))]) ++
                      [(warning, "Manual unlink detected for " +:+ number +:+
                          ", cleaning up...")]) w)))))).
Proof.
  intros Hc Hu Hd Hr.
  unfold autoRestart_listener, deleteSessionFromMongoDB, removeNumberFromMongoDB, ext.
  rewrite Hc, Hu, Hd, Hr. reflexivity.
Qed.

(** On a close event the listener of inconnuboyPair writes to the log at
    most. *)
Lemma connection_listener_close conn n existing user update w :
  connection update = Some ConnClose ->
  exists entries,
    connection_listener env conn n existing user update w =
      (Normal tt, with_logs (fun l => l ++ entries) w).
Proof.
  intros Hc. unfold connection_listener. rewrite Hc.
  destruct (bool_decide (lastDisconnect update ≫= statusCode = Some 401%Z)) eqn:E.
  - exists [(error, "Session closed: Logged Out.")]. reflexivity.
  - exists []. cbv [mbind Block_bind block_bind when mret Block_ret block_ret].
    cbn [bool_decide decide_rel]. unfold with_logs. rewrite app_nil_r.
    destruct w; reflexivity.
Qed.

(** The two listeners of 'connection.update' of a socket that was set up to
    the end. *)
Lemma emit_connection_update sid s user update w :
  sockets w !! sid = Some s ->
  sock_listeners s = pair_listeners ->
  emit env sid (ConnectionUpdate user update) w =
    detached (connection_listener env sid (sanitizedNumber (sock_number s))
                (negb (sock_usePairingCode s)) user update)
      (detached (autoRestart_listener env sid (sock_number s) update) w).
Proof. intros Hs Hl. unfold emit. rewrite Hs, Hl. reflexivity. Qed.

(** A socket without listeners ignores every event. *)
Lemma emit_no_listeners sid s ev w :
  sockets w !! sid = Some s -> sock_listeners s = [] -> emit env sid ev w = w.
Proof. intros Hs Hl. unfold emit. rewrite Hs, Hl. reflexivity. Qed.

(** The world after the two listeners have seen a manual unlink. *)
Lemma emit_unlink sid s user update w :
  sockets w !! sid = Some s ->
  sock_listeners s = pair_listeners ->
  connection update = Some ConnClose ->
  isManualUnlink (lastDisconnect update ≫= statusCode)
                 (lastDisconnect update ≫= errorMessage) = true ->
  fails env OpDeleteSession = None ->
  fails env OpRemoveNumber = None ->
  exists f,
    emit env sid (ConnectionUpdate user update) w =
      with_logs f
        (with_sockets (alter (set_listeners []) sid)
           (with_mongoNumbers (fun r => r ∖ {[sanitizedNumber (sock_number s)]})
              (with_mongoSessions (delete (sanitizedNumber (sock_number s)))
                 (with_socketCreationTime (delete (sanitizedNumber (sock_number s)))
                    (with_activeSockets (delete (sanitizedNumber (sock_number s))) w))))).
Proof.
  intros Hs Hl Hc Hu Hd Hr.
  exists (fun _ => logs (emit env sid (ConnectionUpdate user update) w)).
  rewrite (emit_connection_update sid s user update w Hs Hl).
  unfold detached, exec, unawaited.
  rewrite (autoRestart_unlink sid (sock_number s) update w Hc Hu Hd Hr).
  cbn [snd].
  match goal with |- context [connection_listener _ _ _ _ _ _ ?w0] =>
    destruct (connection_listener_close sid (sanitizedNumber (sock_number s))
                (negb (sock_usePairingCode s)) user update w0 Hc) as [entries He];
    rewrite He
  end.
  reflexivity.
Qed.

(** C4: on a close event that carries status code 401, or a message that
    contains "401", the socket's tenant is removed from activeSockets and
    socketCreationTime, its credential blob and its roster entry are deleted
    from the store, the socket loses all its listeners, and nothing is
    scheduled: no timer is added, no socket is created, and the socket ignores
    every later event. The two store calls are assumed not to throw. *)
Theorem manual_unlink_on_401 sid s user update w :
  sockets w !! sid = Some s ->
  sock_listeners s = pair_listeners ->
  connection update = Some ConnClose ->
  isManualUnlink (lastDisconnect update ≫= statusCode)
                 (lastDisconnect update ≫= errorMessage) = true ->
  fails env OpDeleteSession = None ->
  fails env OpRemoveNumber = None ->
  let n := sanitizedNumber (sock_number s) in
  let w' := emit env sid (ConnectionUpdate user update) w in
  activeSockets w' !! n = None /\
  socketCreationTime w' !! n = None /\
  mongoSessions w' !! n = None /\
  (n ∉ mongoNumbers w') /\
  (sock_listeners <$> (sockets w' !! sid)) = Some [] /\
  timers w' = timers w /\
  length (sockets w') = length (sockets w) /\
  (forall ev, emit env sid ev w' = w').
Proof.
  intros Hs Hl Hc Hu Hd Hr. cbv zeta.
  destruct (emit_unlink sid s user update w Hs Hl Hc Hu Hd Hr) as [f ->].
  assert (Hsock : (sock_listeners <$> (alter (set_listeners []) sid (sockets w) !! sid))
                  = Some []).
  { rewrite list_lookup_alter_eq, Hs. reflexivity. }
  repeat split.
  - cbn. apply lookup_delete_eq.
  - cbn. apply lookup_delete_eq.
  - cbn. apply lookup_delete_eq.
  - cbn. rewrite elem_of_difference, elem_of_singleton. intros [_ Hn]. apply Hn. reflexivity.
  - cbn. exact Hsock.
  - cbn. rewrite length_alter. reflexivity.
  - intros ev.
    match goal with |- emit _ _ _ ?w0 = _ =>
      destruct (sockets w0 !! sid) as [s'|] eqn:E
    end.
    + apply (emit_no_listeners sid s' ev _ E).
      cbn in E. rewrite E in Hsock. inversion Hsock. reflexivity.
    + unfold emit. rewrite E. reflexivity.
Qed.

(** What the listener of setupAutoRestart does on an expected closure. *)
Lemma autoRestart_expected socket number update w :
  connection update = Some ConnClose ->
  isManualUnlink (lastDisconnect update ≫= statusCode)
                 (lastDisconnect update ≫= errorMessage) = false ->
  isNormalError (lastDisconnect update ≫= statusCode)
                (lastDisconnect update ≫= errorMessage) = true ->
  autoRestart_listener env socket number update w =
    (Returned,
     with_logs (fun l =>
       ((l ++ [(debug, "Connection update for " +:+ number)]) ++
        [(warning, "Connection closed for " +:+ number +:+ ": " +:+
           show_number (lastDisconnect update ≫= statusCode) +:+ " - " +:+
           show_string (lastDisconnect update ≫= errorMessage))]) ++
       [(info, "Normal connection closure for " +:+ number +:+ " (" +:+
           show_string (lastDisconnect update ≫= errorMessage) +:+
           "), no restart needed.")]) w).
Proof.
  intros Hc Hu Hn. unfold autoRestart_listener. rewrite Hc, Hu, Hn. reflexivity.
Qed.

(** What it does on any other closure: the counter decides. *)
Lemma autoRestart_unexpected socket number update w :
  connection update = Some ConnClose ->
  isManualUnlink (lastDisconnect update ≫= statusCode)
                 (lastDisconnect update ≫= errorMessage) = false ->
  isNormalError (lastDisconnect update ≫= statusCode)
                (lastDisconnect update ≫= errorMessage) = false ->
  autoRestart_listener env socket number update w =
    if (restartAttempts socket w <? maxRestartAttempts)%nat then
      (Normal tt,
       with_timers (fun l => l ++ [{| due := (clock w + 10000)%Z; task := TReconnect number |}])
         (with_sockets (alter (set_listeners []) socket)
            (with_socketCreationTime (delete (sanitizedNumber number))
               (with_activeSockets (delete (sanitizedNumber number))
                  (with_logs (fun l => l ++
                     [(warning, "Unexpected connection lost for " +:+ number +:+
                        ", attempting to reconnect (" +:+
                        pretty (S (restartAttempts socket w)) +:+ "/" +:+
                        pretty maxRestartAttempts +:+ ") in 10 seconds...")])
                     (with_sockets
                        (alter (set_restartAttempts (S (restartAttempts socket w))) socket)
                        (with_logs (fun l =>
                           (l ++ [(debug, "Connection update for " +:+ number)]) ++
                           [(warning, "Connection closed for " +:+ number +:+ ": " +:+
                              show_number (lastDisconnect update ≫= statusCode) +:+ " - " +:+
                              show_string (lastDisconnect update ≫= errorMessage))]) w)))))))
    else
      (Normal tt,
       with_logs (fun l =>
         ((l ++ [(debug, "Connection update for " +:+ number)]) ++
          [(warning, "Connection closed for " +:+ number +:+ ": " +:+
             show_number (lastDisconnect update ≫= statusCode) +:+ " - " +:+
             show_string (lastDisconnect update ≫= errorMessage))]) ++
         [(error, "Max restart attempts reached for " +:+ number +:+
             ". Manual intervention required.")]) w).
Proof.
  intros Hc Hu Hn. unfold autoRestart_listener. rewrite Hc, Hu, Hn.
  rewrite run_log, (bool_decide_eq_true_2 (Some ConnClose = Some ConnClose)) by reflexivity.
  rewrite run_assoc, run_log, run_assoc, run_ret, run_assoc, run_ret, run_assoc, run_gets.
  change (restartAttempts socket (with_logs _ (with_logs _ w)))
    with (restartAttempts socket w).
  destruct (restartAttempts socket w <? maxRestartAttempts)%nat; reflexivity.
Qed.

(** The world after the two listeners have seen an expected closure. *)
Lemma emit_expected sid s user update w :
  sockets w !! sid = Some s ->
  sock_listeners s = pair_listeners ->
  connection update = Some ConnClose ->
  isManualUnlink (lastDisconnect update ≫= statusCode)
                 (lastDisconnect update ≫= errorMessage) = false ->
  isNormalError (lastDisconnect update ≫= statusCode)
                (lastDisconnect update ≫= errorMessage) = true ->
  exists f, emit env sid (ConnectionUpdate user update) w = with_logs f w.
Proof.
  intros Hs Hl Hc Hu Hn.
  exists (fun _ => logs (emit env sid (ConnectionUpdate user update) w)).
  rewrite (emit_connection_update sid s user update w Hs Hl).
  unfold detached, exec, unawaited.
  rewrite (autoRestart_expected sid (sock_number s) update w Hc Hu Hn).
  cbn [snd].
  match goal with |- context [connection_listener _ _ _ _ _ _ ?w0] =>
    destruct (connection_listener_close sid (sanitizedNumber (sock_number s))
                (negb (sock_usePairingCode s)) user update w0 Hc) as [entries He];
    rewrite He
  end.
  cbn [snd]. unfold with_logs at 1 5. cbn. destruct w; reflexivity.
Qed.

(** C9, amended: on a close event with status code 408, or with a message
    that contains "QR refs attempts ended", and which the test for a manual
    unlink has let through (the status code is not 401 and the message does
    not contain "401"), nothing but the log changes: the retry counter, the
    timers, the credential store, the roster, the registry and the socket
    with its listeners are what they were. *)
Theorem expected_closure_no_action sid s user update w :
  sockets w !! sid = Some s ->
  sock_listeners s = pair_listeners ->
  connection update = Some ConnClose ->
  isManualUnlink (lastDisconnect update ≫= statusCode)
                 (lastDisconnect update ≫= errorMessage) = false ->
  isNormalError (lastDisconnect update ≫= statusCode)
                (lastDisconnect update ≫= errorMessage) = true ->
  let w' := emit env sid (ConnectionUpdate user update) w in
  restartAttempts sid w' = restartAttempts sid w /\
  timers w' = timers w /\
  mongoSessions w' = mongoSessions w /\
  mongoNumbers w' = mongoNumbers w /\
  activeSockets w' = activeSockets w /\
  socketCreationTime w' = socketCreationTime w /\
  sockets w' = sockets w.
Proof.
  intros Hs Hl Hc Hu Hn. cbv zeta.
  destruct (emit_expected sid s user update w Hs Hl Hc Hu Hn) as [f ->].
  repeat split.
Qed.

End CloseEvents.

(** ** Instances on a concrete process *)

(** The manual unlink at work: 123 has a blob and a roster entry, is
    connected, and its socket closes with status code 401. *)
Lemma manual_unlink_on_401_witness :
  let w := run calm [GetCode (Some "123")] known123 in
  let s := {| sock_number := "123"; sock_usePairingCode := false;
              sock_creds := Some "blob"; sock_listeners := pair_listeners;
              sock_restartAttempts := 0; sock_wsClosed := false |} in
  let w' := emit calm 0 (closeWith 401 "Connection Failure") w in
  sockets w !! 0 = Some s /\
  activeSockets w' !! "123" = None /\
  socketCreationTime w' !! "123" = None /\
  mongoSessions w' !! "123" = None /\
  ("123" ∉ mongoNumbers w') /\
  (sock_listeners <$> (sockets w' !! 0)) = Some [] /\
  timers w' = timers w /\
  length (sockets w') = length (sockets w) /\
  (forall ev, emit calm 0 ev w' = w').
Proof.
  cbv zeta. split; [reflexivity|].
  apply (manual_unlink_on_401 calm 0
           {| sock_number := "123"; sock_usePairingCode := false;
              sock_creds := Some "blob"; sock_listeners := pair_listeners;
              sock_restartAttempts := 0; sock_wsClosed := false |}
           None
           {| connection := Some ConnClose;
              lastDisconnect := Some {| statusCode := Some 401%Z;
                                        errorMessage := Some "Connection Failure" |} |}
           (run calm [GetCode (Some "123")] known123));
    reflexivity.
Defined.

(** C9 as first stated fails here: status code 408 with a message that
    contains "401". The listener unlinks the tenant, so the store and the
    roster do not stay untouched. *)
Lemma expected_closure_counterexample :
  let w := run calm [GetCode (Some "123")] known123 in
  let w' := emit calm 0 (closeWith 408 "Request timed out (401)") w in
  mongoSessions w !! "123" = Some "blob" /\
  mongoNumbers w = {["123"]} /\
  mongoSessions w' !! "123" = None /\
  mongoNumbers w' = ∅.
Proof. vm_compute. repeat split. Qed.

(** An expected closure at work: status code 408, "QR refs attempts ended". *)
Lemma expected_closure_no_action_witness :
  let w := run calm [GetCode (Some "123")] known123 in
  let w' := emit calm 0 (closeWith 408 "QR refs attempts ended") w in
  restartAttempts 0 w' = restartAttempts 0 w /\
  timers w' = timers w /\
  mongoSessions w' = mongoSessions w /\
  mongoNumbers w' = mongoNumbers w /\
  activeSockets w' = activeSockets w /\
  socketCreationTime w' = socketCreationTime w /\
  sockets w' = sockets w.
Proof.
  apply (expected_closure_no_action calm 0
           {| sock_number := "123"; sock_usePairingCode := false;
              sock_creds := Some "blob"; sock_listeners := pair_listeners;
              sock_restartAttempts := 0; sock_wsClosed := false |}
           None
           {| connection := Some ConnClose;
              lastDisconnect := Some {| statusCode := Some 408%Z;
                                        errorMessage := Some "QR refs attempts ended" |} |}
           (run calm [GetCode (Some "123")] known123));
    reflexivity.
Defined.

(** ** Running inconnuboyPair *)

Lemma run_return {S A B} (k : A -> Block S B) (s : S) :
  ((return_ : Block S A) ≫= k) s = (Returned, s).
Proof. reflexivity. Qed.

Lemma run_throw {S A B} e (k : A -> Block S B) (s : S) :
  ((throw e : Block S A) ≫= k) s = (Thrown e, s).
Proof. reflexivity. Qed.

Lemma run_when_true {S B} (m : Block S unit) (k : unit -> Block S B) (s : S) :
  (when true m ≫= k) s = (m ≫= k) s.
Proof. reflexivity. Qed.

Lemma run_when_false {S B} (m : Block S unit) (k : unit -> Block S B) (s : S) :
  (when false m ≫= k) s = k tt s.
Proof. reflexivity. Qed.

(** Reads of a field through the updates of other fields. *)
Ltac fields :=
  cbn [activeSockets socketCreationTime globals mongoSessions mongoNumbers localFs
       sockets responses timers logs unhandled outbox invoked stats clock
       with_activeSockets with_socketCreationTime with_globals with_mongoSessions
       with_mongoNumbers with_localFs with_sockets with_responses with_timers
       with_logs with_unhandled with_outbox with_invoked with_stats with_clock
       world connectionLockKey fst snd].

Ltac fields_in H :=
  cbn [activeSockets socketCreationTime globals mongoSessions mongoNumbers localFs
       sockets responses timers logs unhandled outbox invoked stats clock
       with_activeSockets with_socketCreationTime with_globals with_mongoSessions
       with_mongoNumbers with_localFs with_sockets with_responses with_timers
       with_logs with_unhandled with_outbox with_invoked with_stats with_clock
       world connectionLockKey fst snd] in H.

(** One statement of a block. *)
Ltac run_step :=
  first
    [ rewrite run_assoc
    | rewrite run_log
    | rewrite run_modify
    | rewrite run_gets
    | rewrite run_ret
    | rewrite run_return
    | rewrite run_throw
    | rewrite run_when_true
    | rewrite run_when_false
    | rewrite run_ext_ok by assumption ].

Ltac run_block := repeat (run_step; fields).

Lemma filter_chars_idem keep s :
  Js.filter_chars keep (Js.filter_chars keep s) = Js.filter_chars keep s.
Proof.
  induction s as [|c r IH]; [reflexivity|]. cbn.
  destruct (keep c) eqn:E; cbn; rewrite ?E, IH; reflexivity.
Qed.

Lemma sanitizedNumber_idem number :
  sanitizedNumber (sanitizedNumber number) = sanitizedNumber number.
Proof. apply filter_chars_idem. Qed.

Lemma inWorld_run {A} (m : Block World A) (f : Frame) :
  inWorld m f =
    (fst (m (world f)),
     {| world := snd (m (world f)); connectionLockKey := connectionLockKey f |}).
Proof. unfold inWorld. destruct (m (world f)); reflexivity. Qed.

Lemma respondAndReturn_run res body w :
  respondAndReturn res body w =
    (if canRespond res w then Returned else Normal tt, responded res body w).
Proof.
  unfold respondAndReturn, responded. rewrite run_gets.
  destruct res as [i|]; [|reflexivity].
  destruct (canRespond (Some i) w); reflexivity.
Qed.

Lemma ev_on_run {B} sid l (k : unit -> Block World B) w :
  (ev_on sid l ≫= k) w =
    k tt (with_sockets (alter (fun s => set_listeners (sock_listeners s ++ [l]) s) sid) w).
Proof. reflexivity. Qed.

Lemma run_inWorld {A B} (m : Block World A) (k : A -> Block Frame B) (f : Frame) :
  (inWorld m ≫= k) f =
    match m (world f) with
    | (Normal a, w) => k a {| world := w; connectionLockKey := connectionLockKey f |}
    | (Returned, w) => (Returned, {| world := w; connectionLockKey := connectionLockKey f |})
    | (Thrown e, w) => (Thrown e, {| world := w; connectionLockKey := connectionLockKey f |})
    end.
Proof.
  rewrite run_bind, inWorld_run. destruct (m (world f)) as [[a| |e] w]; reflexivity.
Qed.

(** One statement of a block that runs on the world of a frame. *)
Ltac frame_step :=
  rewrite ?run_assoc;
  first
    [ match goal with
      | |- (inWorld ?m ≫= ?kk) ?f = _ => rewrite (run_inWorld m kk f)
      end
    | rewrite run_ret
    | rewrite run_modify ];
  cbn [gets modify inconnuLog world connectionLockKey].

(** Splits a block into its statements to show that it leaves a field of
    the world alone. *)
Ltac unchanged_step :=
  match goal with
  | |- forall _, _ => intro
  | |- preserves _ (_ ≫= _) => apply preserves_bind
  | |- preserves _ (mret _) => apply preserves_ret
  | |- preserves _ return_ => apply preserves_return
  | |- preserves _ (throw _) => apply preserves_throw
  | |- preserves _ (gets _) => apply preserves_gets
  | |- preserves _ (ext _ _) => apply preserves_ext
  | |- preserves _ (when _ _) => apply preserves_when
  | |- preserves _ (try_catch _ _) => apply preserves_try_catch
  | |- preserves _ (call _) => apply preserves_call
  | |- preserves _ (unawaited _) =>
      apply preserves_unawaited; [intros ? ? H; exact H|]
  | |- preserves _ (modify _) => apply preserves_modify; intros ? H; exact H
  | |- preserves _ (if ?b then _ else _) => destruct b
  | |- preserves _ (match ?x with _ => _ end) => destruct x
  end.

Ltac unchanged := repeat unchanged_step.

Section Pairing.

Variable env : Env.

(** The start of inconnuboyPair when the number is registered. *)
Lemma pair_prologue_connected n res w k :
  is_Some (activeSockets w !! sanitizedNumber n) ->
  pair_prologue n res {| world := w; connectionLockKey := k |} =
    (Returned,
     {| world :=
          responded res
            (BAlreadyConnected (connectionTime (getConnectionStatus n w))
                               (uptime (getConnectionStatus n w)))
            (with_logs (fun l => l ++ [(info, n +:+ " is already connected, skipping...")]) w);
        connectionLockKey := k |}).
Proof.
  intros Hc. unfold pair_prologue. frame_step.
  unfold isNumberAlreadyConnected at 1. rewrite (bool_decide_eq_true_2 _ Hc).
  do 3 frame_step. rewrite respondAndReturn_run.
  destruct (canRespond _ _); reflexivity.
Qed.

(** The start of inconnuboyPair when the number is not registered and the
    lock is taken. *)
Lemma pair_prologue_contention n res w k :
  activeSockets w !! sanitizedNumber n = None ->
  global_truthy (connectionLockKeyOf n) w = true ->
  pair_prologue n res {| world := w; connectionLockKey := k |} =
    (Returned,
     {| world :=
          responded res BConnectionInProgress
            (with_logs (fun l => l ++
               [(info, n +:+ " is already in connection process, skipping...")]) w);
        connectionLockKey := Some (connectionLockKeyOf n) |}).
Proof.
  intros Hc Hh. unfold pair_prologue. frame_step.
  unfold isNumberAlreadyConnected at 1. rewrite Hc.
  rewrite bool_decide_eq_false_2 by (intros [? ?]; discriminate).
  frame_step. unfold set_connectionLockKey. do 2 frame_step. rewrite Hh.
  do 2 frame_step. rewrite respondAndReturn_run.
  destruct (canRespond _ _); reflexivity.
Qed.

(** The start of inconnuboyPair when the number is not registered and the
    lock is free: the lock is taken. *)
Lemma pair_prologue_acquires n res w k :
  activeSockets w !! sanitizedNumber n = None ->
  global_truthy (connectionLockKeyOf n) w = false ->
  pair_prologue n res {| world := w; connectionLockKey := k |} =
    (Normal tt,
     {| world := with_globals <[connectionLockKeyOf n := true]> w;
        connectionLockKey := Some (connectionLockKeyOf n) |}).
Proof.
  intros Hc Hh. unfold pair_prologue. frame_step.
  unfold isNumberAlreadyConnected at 1. rewrite Hc.
  rewrite bool_decide_eq_false_2 by (intros [? ?]; discriminate).
  frame_step. unfold set_connectionLockKey. do 2 frame_step. rewrite Hh.
  frame_step. rewrite inWorld_run. reflexivity.
Qed.

Lemma lock_key_truthy n : Js.truthy (connectionLockKeyOf n) = true.
Proof. reflexivity. Qed.

(** A call for a registered number: the first short circuit. *)
Lemma inconnuboyPair_connected number res w :
  is_Some (activeSockets w !! sanitizedNumber number) ->
  inconnuboyPair env number res w =
    (Normal tt,
     responded res
       (BAlreadyConnected
          (connectionTime (getConnectionStatus (sanitizedNumber number) w))
          (uptime (getConnectionStatus (sanitizedNumber number) w)))
       (with_logs (fun l => l ++
          [(info, sanitizedNumber number +:+ " is already connected, skipping...")]) w)).
Proof.
  intros Hc. rewrite <- sanitizedNumber_idem in Hc.
  unfold inconnuboyPair, inconnuboyPair_block, call, try_catch_finally, try_catch.
  rewrite run_bind, (pair_prologue_connected _ res w None Hc).
  reflexivity.
Qed.

(** A call that finds the lock taken: the second short circuit, after which
    the [finally] block sets the lock to false. *)
Lemma inconnuboyPair_contention number res w :
  activeSockets w !! sanitizedNumber number = None ->
  global_truthy (connectionLockKeyOf (sanitizedNumber number)) w = true ->
  inconnuboyPair env number res w =
    (Normal tt,
     with_globals <[connectionLockKeyOf (sanitizedNumber number) := false]>
       (responded res BConnectionInProgress
          (with_logs (fun l => l ++
             [(info, sanitizedNumber number +:+
                     " is already in connection process, skipping...")]) w))).
Proof.
  intros Hc Hh. rewrite <- sanitizedNumber_idem in Hc.
  unfold inconnuboyPair, inconnuboyPair_block, call, try_catch_finally, try_catch.
  rewrite run_bind, (pair_prologue_contention _ res w None Hc Hh).
  reflexivity.
Qed.

(** A call that takes the lock: whatever happens between the look-up of the
    stored session and the last listener, the [finally] block sets the lock
    to false. *)
Lemma inconnuboyPair_acquired number res w :
  activeSockets w !! sanitizedNumber number = None ->
  global_truthy (connectionLockKeyOf (sanitizedNumber number)) w = false ->
  inconnuboyPair env number res w =
    let '(c, w1) :=
      call (try_catch (pair_main env number (sanitizedNumber number) res) (pair_catch res))
        (with_globals <[connectionLockKeyOf (sanitizedNumber number) := true]> w) in
    (c, with_globals <[connectionLockKeyOf (sanitizedNumber number) := false]> w1).
Proof.
  intros Hc Hh. rewrite <- sanitizedNumber_idem in Hc.
  unfold inconnuboyPair, inconnuboyPair_block, call, try_catch_finally, try_catch.
  rewrite run_bind, (pair_prologue_acquires _ res w None Hc Hh).
  rewrite inWorld_run. cbn [world connectionLockKey fst snd].
  destruct (pair_main env number (sanitizedNumber number) res _) as [[[]| |e] w1];
    cbn [fst snd]; try reflexivity.
  rewrite inWorld_run. cbn [world connectionLockKey fst snd].
  destruct (pair_catch res e w1) as [[[]| |e'] w2]; reflexivity.
Qed.

Lemma alter_last {A} (f : A -> A) (l : list A) (x : A) :
  alter f (length l) (l ++ [x]) = l ++ [f x].
Proof.
  induction l as [|y l IH]; [reflexivity|]. cbn. f_equal. exact IH.
Qed.

(** [if (res && !res.headersSent) res.json(body)], not followed by a
    return. *)
Lemma run_maybe_json {B} res body (k : unit -> Block World B) w :
  (match res with
   | Some i => when (canRespond res w) (res_json i body)
   | None => mret tt
   end ≫= k) w = k tt (responded res body w).
Proof.
  unfold responded. destruct res as [i|]; [|reflexivity].
  destruct (canRespond (Some i) w); reflexivity.
Qed.

(** [responded] writes to the response objects only. *)
Lemma responded_else res body w :
  activeSockets (responded res body w) = activeSockets w /\
  socketCreationTime (responded res body w) = socketCreationTime w /\
  globals (responded res body w) = globals w /\
  mongoSessions (responded res body w) = mongoSessions w /\
  mongoNumbers (responded res body w) = mongoNumbers w /\
  localFs (responded res body w) = localFs w /\
  sockets (responded res body w) = sockets w /\
  timers (responded res body w) = timers w /\
  clock (responded res body w) = clock w.
Proof.
  unfold responded. destruct res as [i|]; [destruct (canRespond _ _)|]; repeat split.
Qed.

(** The main part of inconnuboyPair when the store holds a blob and no
    collaborator fails. *)
Lemma pair_main_restore number res w creds :
  let n := sanitizedNumber number in
  mongoSessions w !! n = Some creds ->
  fails env OpGetSession = None ->
  fails env OpFsWrite = None ->
  fails env OpAuthState = None ->
  fails env OpMakeSocket = None ->
  fails env OpStoreBind = None ->
  exists W,
    pair_main env number n res w = (Normal tt, W) /\
    localFs W !! sessionDirOf n = Some (Some creds) /\
    sockets W = sockets w ++
      [{| sock_number := number; sock_usePairingCode := false;
          sock_creds := Some creds; sock_listeners := pair_listeners;
          sock_restartAttempts := 0; sock_wsClosed := false |}] /\
    activeSockets W = <[n := length (sockets w)]> (activeSockets w) /\
    socketCreationTime W = <[n := clock w]> (socketCreationTime w) /\
    timers W = timers w /\
    responses W = responses (responded res BReconnecting w) /\
    globals W = globals w /\
    mongoSessions W = mongoSessions w /\
    clock W = clock w.
Proof.
  intros n Hm H1 H2 H3 H4 H5. eexists. split.
  - unfold pair_main, getSessionFromMongoDB, useMultiFileAuthState, makeWASocket.
    cbv zeta. run_block. fold n. rewrite Hm. run_block.
    rewrite lookup_insert_eq. run_block.
    rewrite !ev_on_run. run_block.
    match goal with |- context [canRespond res ?w0] =>
      change (canRespond res w0) with (canRespond res w0)
    end.
    rewrite run_maybe_json. rewrite !ev_on_run. reflexivity.
  - match goal with |- context [responded res ?b ?w0] =>
      destruct (responded_else res b w0) as (Ra & Rt & Rg & Rm & Rn & Rl & Rs & Rti & Rc)
    end.
    fields. rewrite Ra, Rt, Rg, Rm, Rl, Rs, Rti, Rc. fields.
    rewrite !alter_last, (bool_decide_eq_true_2 (is_Some (Some creds))) by eauto.
    repeat split.
    + apply lookup_insert_eq.
    + unfold responded. destruct res as [i|]; [|reflexivity].
      fields. unfold canRespond. fields.
      destruct (responses w !! i) as [r|]; [destruct (negb (res_headersSent r))|]; reflexivity.
Qed.

(** The main part of inconnuboyPair when the store holds no blob and no
    collaborator fails. *)
Lemma pair_main_new number res w :
  let n := sanitizedNumber number in
  mongoSessions w !! n = None ->
  fails env OpGetSession = None ->
  fails env OpFsRemove = None ->
  fails env OpAuthState = None ->
  fails env OpMakeSocket = None ->
  fails env OpStoreBind = None ->
  exists W,
    pair_main env number n res w = (Normal tt, W) /\
    localFs W !! sessionDirOf n = Some None /\
    sockets W = sockets w ++
      [{| sock_number := number; sock_usePairingCode := true;
          sock_creds := None; sock_listeners := pair_listeners;
          sock_restartAttempts := 0; sock_wsClosed := false |}] /\
    activeSockets W = <[n := length (sockets w)]> (activeSockets w) /\
    socketCreationTime W = <[n := clock w]> (socketCreationTime w) /\
    timers W = timers w ++
      [{| due := (clock w + 3000)%Z;
          task := TPairingTimeout (length (sockets w)) n res |}] /\
    responses W = responses w /\
    globals W = globals w /\
    mongoSessions W = mongoSessions w /\
    clock W = clock w.
Proof.
  intros n Hm H1 H2 H3 H4 H5.
  destruct (localFs w !! sessionDirOf n) as [stale|] eqn:El; eexists; split.
  - unfold pair_main, getSessionFromMongoDB, useMultiFileAuthState, makeWASocket, schedule.
    cbv zeta. run_block. fold n. rewrite Hm. run_block.
    rewrite El, (bool_decide_eq_true_2 (is_Some (Some stale))) by eauto. run_block.
    rewrite lookup_delete_eq. run_block.
    rewrite !ev_on_run. run_block. rewrite !ev_on_run. reflexivity.
  - fields. rewrite !alter_last. repeat split. apply lookup_insert_eq.
  - unfold pair_main, getSessionFromMongoDB, useMultiFileAuthState, makeWASocket, schedule.
    cbv zeta. run_block. fold n. rewrite Hm. run_block.
    rewrite El, (bool_decide_eq_false_2 (is_Some None)) by (intros [? ?]; discriminate).
    run_block. rewrite El. run_block.
    rewrite !ev_on_run. run_block. rewrite !ev_on_run. reflexivity.
  - fields. rewrite !alter_last. repeat split. apply lookup_insert_eq.
Qed.

(** Between the look-up of the stored session and the last listener, and in
    the catch block, no property of [global] is written. *)
Lemma pair_main_globals number n res G :
  preserves (fun w => globals w = G) (pair_main env number n res).
Proof.
  unfold pair_main, getSessionFromMongoDB, useMultiFileAuthState, makeWASocket,
    ev_on, with_socket, schedule, res_json, inconnuLog.
  cbv zeta. unchanged.
Qed.

Lemma pair_catch_globals res err G :
  preserves (fun w => globals w = G) (pair_catch res err).
Proof. unfold pair_catch, respondAndReturn, res_json, inconnuLog. unchanged. Qed.

(** An invocation that acquires the lock leaves it released, on every path
    out of the function: the properties of [global] are as before the call,
    but for the lock, which is false. *)
Lemma lock_released_after_acquisition number res w :
  activeSockets w !! sanitizedNumber number = None ->
  global_truthy (connectionLockKeyOf (sanitizedNumber number)) w = false ->
  globals (exec (inconnuboyPair env number res) w) =
    <[connectionLockKeyOf (sanitizedNumber number) := false]> (globals w).
Proof.
  intros Hc Hh. unfold exec. rewrite (inconnuboyPair_acquired number res w Hc Hh).
  pose proof (preserves_call _ _
    (preserves_try_catch _ _ _
       (pair_main_globals number (sanitizedNumber number) res _)
       (fun e => pair_catch_globals res e _))
    (with_globals <[connectionLockKeyOf (sanitizedNumber number) := true]> w) eq_refl) as Hg.
  destruct (call _ _) as [c w1]. cbn in Hg |- *. rewrite Hg. cbn.
  apply insert_insert_eq.
Qed.

(** An invocation that finds the number registered does not touch the
    lock. *)
Lemma lock_untouched_when_connected number res w :
  is_Some (activeSockets w !! sanitizedNumber number) ->
  globals (exec (inconnuboyPair env number res) w) = globals w.
Proof.
  intros Hc. unfold exec. rewrite (inconnuboyPair_connected number res w Hc). cbn [snd].
  match goal with |- context [responded res ?b ?w0] =>
    destruct (responded_else res b w0) as (_ & _ & Rg & _)
  end.
  rewrite Rg. reflexivity.
Qed.

(** An invocation that finds the lock taken by another one sets it to
    false on its way out. *)
Lemma lock_released_on_contention number res w :
  activeSockets w !! sanitizedNumber number = None ->
  global_truthy (connectionLockKeyOf (sanitizedNumber number)) w = true ->
  globals (exec (inconnuboyPair env number res) w) =
    <[connectionLockKeyOf (sanitizedNumber number) := false]> (globals w) /\
  global_truthy (connectionLockKeyOf (sanitizedNumber number))
    (exec (inconnuboyPair env number res) w) = false.
Proof.
  intros Hc Hh. unfold exec. rewrite (inconnuboyPair_contention number res w Hc Hh).
  cbn [snd].
  match goal with |- context [responded res ?b ?w0] =>
    destruct (responded_else res b w0) as (_ & _ & Rg & _)
  end.
  unfold global_truthy. cbn. rewrite Rg. cbn. rewrite lookup_insert_eq. split; reflexivity.
Qed.

(** The call as a whole, when it takes the lock and its main part runs to
    its end. *)
Lemma inconnuboyPair_completes number res w W :
  activeSockets w !! sanitizedNumber number = None ->
  global_truthy (connectionLockKeyOf (sanitizedNumber number)) w = false ->
  pair_main env number (sanitizedNumber number) res
    (with_globals <[connectionLockKeyOf (sanitizedNumber number) := true]> w) = (Normal tt, W) ->
  inconnuboyPair env number res w =
    (Normal tt, with_globals <[connectionLockKeyOf (sanitizedNumber number) := false]> W).
Proof.
  intros Hc Hh Hm. rewrite (inconnuboyPair_acquired number res w Hc Hh).
  unfold call, try_catch. rewrite Hm. reflexivity.
Qed.

(** C6: a call of inconnuboyPair that gets past the two short circuits, and
    whose collaborators do not throw, does the following. If the store holds
    a blob for the tenant, the blob is written to creds.json in the session
    directory, the client is created from it with usePairingCode false, no
    timer for a pairing code is set, and a response object that has not been
    answered receives 'reconnecting' before the call returns. If the store
    holds no blob, the session directory holds no creds.json afterwards,
    whatever it held before, and the client is created from fresh credentials
    with usePairingCode true. *)
Theorem connect_restores_or_pairs number res w :
  let n := sanitizedNumber number in
  let conn := length (sockets w) in
  let w' := exec (inconnuboyPair env number res) w in
  activeSockets w !! n = None ->
  global_truthy (connectionLockKeyOf n) w = false ->
  fails env OpGetSession = None ->
  fails env OpFsWrite = None ->
  fails env OpFsRemove = None ->
  fails env OpAuthState = None ->
  fails env OpMakeSocket = None ->
  fails env OpStoreBind = None ->
  (forall blob, mongoSessions w !! n = Some blob ->
     localFs w' !! sessionDirOf n = Some (Some blob) /\
     sockets w' !! conn =
       Some {| sock_number := number; sock_usePairingCode := false;
               sock_creds := Some blob; sock_listeners := pair_listeners;
               sock_restartAttempts := 0; sock_wsClosed := false |} /\
     activeSockets w' !! n = Some conn /\
     timers w' = timers w /\
     (forall i r, res = Some i -> responses w !! i = Some r ->
                  res_headersSent r = false ->
                  responses w' !! i = Some (json BReconnecting r))) /\
  (mongoSessions w !! n = None ->
     localFs w' !! sessionDirOf n = Some None /\
     sockets w' !! conn =
       Some {| sock_number := number; sock_usePairingCode := true;
               sock_creds := None; sock_listeners := pair_listeners;
               sock_restartAttempts := 0; sock_wsClosed := false |} /\
     activeSockets w' !! n = Some conn).
Proof.
  cbv zeta. intros Hc Hh H1 H2 H3 H4 H5 H6. split.
  - intros blob Hm.
    destruct (pair_main_restore number res
                (with_globals <[connectionLockKeyOf (sanitizedNumber number) := true]> w)
                blob Hm H1 H2 H4 H5 H6)
      as (W & Hrun & Hfs & Hs & Ha & _ & Ht & Hr & _).
    unfold exec. rewrite (inconnuboyPair_completes number res w W Hc Hh Hrun).
    cbn [snd]. fields. rewrite Hfs, Hs, Ha, Ht, Hr. fields.
    repeat split.
    + rewrite lookup_app_r, Nat.sub_diag by reflexivity. reflexivity.
    + apply lookup_insert_eq.
    + intros i r -> Hi Hsent. unfold responded, canRespond. fields.
      rewrite Hi, Hsent. cbn [negb]. fields.
      rewrite list_lookup_alter_eq, Hi. reflexivity.
  - intros Hm.
    destruct (pair_main_new number res
                (with_globals <[connectionLockKeyOf (sanitizedNumber number) := true]> w)
                Hm H1 H3 H4 H5 H6)
      as (W & Hrun & Hfs & Hs & Ha & _).
    unfold exec. rewrite (inconnuboyPair_completes number res w W Hc Hh Hrun).
    cbn [snd]. fields. rewrite Hfs, Hs, Ha. fields.
    repeat split.
    + rewrite lookup_app_r, Nat.sub_diag by reflexivity. reflexivity.
    + apply lookup_insert_eq.
Qed.

Lemma delete_last {A} (l : list A) (x : A) : delete (length l) (l ++ [x]) = l.
Proof.
  induction l as [|y l IH]; [reflexivity|]. cbn. f_equal. exact IH.
Qed.

Lemma lookup_last {A} (l : list A) (x : A) : (l ++ [x]) !! length l = Some x.
Proof. rewrite lookup_app_r, Nat.sub_diag by reflexivity. reflexivity. Qed.

(** The callback of the 3000 ms timer: it sleeps for another 1500 ms. *)
Lemma fire_pairing_timeout w l conn n res :
  timers w = l ++ [{| due := (clock w + 3000)%Z; task := TPairingTimeout conn n res |}] ->
  fire env (length l) w =
    with_timers (fun _ => l ++ [{| due := (clock w + 3000 + 1500)%Z;
                                   task := TPairingRequest conn n res |}])
      (with_clock (fun _ => (clock w + 3000)%Z) w).
Proof.
  intros Ht. unfold fire. rewrite Ht, lookup_last. cbn [task due run_task].
  unfold pairing_timeout, schedule, detached, exec, unawaited, modify. cbn [snd].
  unfold with_timers, with_clock. cbn. rewrite Ht, delete_last.
  replace (Z.max (clock w + 3000) (clock w)) with (clock w + 3000)%Z by lia.
  reflexivity.
Qed.

(** The rest of the callback: the pairing code is requested and handed to
    a response object that has not been answered. *)
Lemma fire_pairing_request w l t conn n res :
  timers w = l ++ [{| due := t; task := TPairingRequest conn n res |}] ->
  fails env OpRequestPairingCode = None ->
  (clock w <= t)%Z ->
  clock (fire env (length l) w) = t /\
  timers (fire env (length l) w) = l /\
  forall i r, res = Some i -> responses w !! i = Some r -> res_headersSent r = false ->
    responses (fire env (length l) w) !! i =
      Some (json (BNewPairing (pairingCodeOf env n)) r).
Proof.
  intros Ht Hf Hle. unfold fire. rewrite Ht, lookup_last. cbn [task due run_task].
  unfold pairing_request, client_call, detached, exec, unawaited, try_catch.
  run_block. rewrite respondAndReturn_run.
  match goal with |- context [responded res ?b ?w0] =>
    destruct (responded_else res b w0) as (_ & _ & _ & _ & _ & _ & _ & Rti & Rc)
  end.
  destruct (canRespond res _) eqn:Ec; cbn [snd]; rewrite Rti, Rc; fields;
    rewrite Ht, delete_last.
  all: repeat split; try lia.
  - intros i r -> Hi Hs. unfold responded. rewrite Ec. fields.
    rewrite list_lookup_alter_eq, Hi. reflexivity.
  - intros i r -> Hi Hs. unfold canRespond in Ec. fields_in Ec.
    rewrite Hi, Hs in Ec. discriminate.
Qed.

(** C2, amended: a call of inconnuboyPair for a tenant without a stored
    blob, which gets past the two short circuits and whose collaborators do
    not throw, registers the new socket in activeSockets and
    socketCreationTime before it returns, that is before any event of the
    socket, answers nothing yet, and sets a timer of 3000 ms. When that timer
    expires the callback sleeps for 1500 ms more; when that time has passed,
    4500 ms after the call at the earliest, the pairing code is requested and
    passed to the response object if it has not been answered. *)
Theorem new_pairing_registers_then_codes number res w :
  let n := sanitizedNumber number in
  let conn := length (sockets w) in
  let w' := exec (inconnuboyPair env number res) w in
  let w1 := fire env (length (timers w)) w' in
  let w2 := fire env (length (timers w)) w1 in
  activeSockets w !! n = None ->
  global_truthy (connectionLockKeyOf n) w = false ->
  mongoSessions w !! n = None ->
  fails env OpGetSession = None ->
  fails env OpFsRemove = None ->
  fails env OpAuthState = None ->
  fails env OpMakeSocket = None ->
  fails env OpStoreBind = None ->
  fails env OpRequestPairingCode = None ->
  (activeSockets w' !! n = Some conn /\
   socketCreationTime w' !! n = Some (clock w) /\
   responses w' = responses w /\
   timers w' = timers w ++
     [{| due := (clock w + 3000)%Z; task := TPairingTimeout conn n res |}]) /\
  (timers w1 = timers w ++
     [{| due := (clock w + 3000 + 1500)%Z; task := TPairingRequest conn n res |}] /\
   responses w1 = responses w) /\
  (clock w2 = (clock w + 3000 + 1500)%Z /\
   timers w2 = timers w /\
   forall i r, res = Some i -> responses w !! i = Some r -> res_headersSent r = false ->
     responses w2 !! i = Some (json (BNewPairing (pairingCodeOf env n)) r)).
Proof.
  cbv zeta. intros Hc Hh Hm H1 H2 H3 H4 H5 H6.
  destruct (pair_main_new number res
              (with_globals <[connectionLockKeyOf (sanitizedNumber number) := true]> w)
              Hm H1 H2 H3 H4 H5)
    as (W & Hrun & _ & _ & Ha & Hct & Ht & Hr & _ & _ & Hclock).
  unfold exec. rewrite (inconnuboyPair_completes number res w W Hc Hh Hrun).
  cbn [snd]. fields_in Ha. fields_in Hct. fields_in Ht. fields_in Hr. fields_in Hclock.
  set (w' := with_globals _ W).
  assert (Ht' : timers w' = timers w ++
            [{| due := (clock w' + 3000)%Z;
                task := TPairingTimeout (length (sockets w)) (sanitizedNumber number) res |}]).
  { subst w'. fields. rewrite Ht, Hclock. reflexivity. }
  rewrite (fire_pairing_timeout w' (timers w) _ _ _ Ht').
  set (w1 := with_timers _ _).
  assert (Ht1 : timers w1 = timers w ++
            [{| due := (clock w + 3000 + 1500)%Z;
                task := TPairingRequest (length (sockets w)) (sanitizedNumber number) res |}]).
  { subst w1 w'. fields. rewrite Hclock. reflexivity. }
  assert (Hc1 : (clock w1 <= clock w + 3000 + 1500)%Z).
  { subst w1 w'. fields. rewrite Hclock. lia. }
  destruct (fire_pairing_request w1 (timers w) _ _ _ _ Ht1 H6 Hc1) as (Hk & Hti & Hres).
  split; [|split].
  - subst w'. fields. rewrite Ha, Hct, Hr, Ht. repeat split; apply lookup_insert_eq.
  - split; [exact Ht1|]. subst w1 w'. fields. exact Hr.
  - split; [exact Hk|]. split; [exact Hti|].
    intros i r Hi Hl Hs. apply (Hres i r Hi); [|exact Hs].
    subst w1 w'. fields. rewrite Hr. exact Hl.
Qed.

End Pairing.

(** ** The /disconnect route *)

Section Disconnect.

Variable env : Env.

Lemma disconnect_not_found number res w :
  number <> "" ->
  activeSockets w !! sanitizedNumber number = None ->
  disconnect env (Some number) res w =
    (Returned,
     with_responses (alter (json BNotFound) res)
       (with_responses (alter (status 404) res) w)).
Proof.
  intros Hn Ha. destruct number as [|c r]; [congruence|].
  unfold disconnect. cbv zeta. rewrite run_gets, Ha. reflexivity.
Qed.

Lemma disconnect_registered number res w socket :
  number <> "" ->
  activeSockets w !! sanitizedNumber number = Some socket ->
  fails env OpWsClose = None ->
  fails env OpRemoveNumber = None ->
  fails env OpDeleteSession = None ->
  disconnect env (Some number) res w =
    (Normal tt,
     with_responses (alter (json BDisconnected) res)
       (with_logs (fun l => l ++
          [(success, "Manually disconnected " +:+ sanitizedNumber number)])
          (with_mongoSessions (delete (sanitizedNumber number))
             (with_mongoNumbers (fun r => r ∖ {[sanitizedNumber number]})
                (with_socketCreationTime (delete (sanitizedNumber number))
                   (with_activeSockets (delete (sanitizedNumber number))
                      (with_sockets (alter (set_listeners []) socket)
                         (with_sockets (alter set_wsClosed socket) w)))))))).
Proof.
  intros Hn Ha H1 H2 H3. destruct number as [|c r]; [congruence|].
  unfold disconnect. cbv zeta. rewrite run_gets, Ha.
  unfold try_catch, ws_close, removeAllListeners, with_socket, removeNumberFromMongoDB,
    deleteSessionFromMongoDB, res_json.
  run_block. reflexivity.
Qed.

(** The response object of a request that arrives in [w]. *)
Lemma with_fresh_res_run (route : nat -> Block World unit) w :
  with_fresh_res route w =
    detached (route (length (responses w))) (with_responses (fun l => l ++ [freshRes]) w).
Proof. reflexivity. Qed.

(** C7: for a number that is given, /disconnect answers 404 when the
    sanitized number is not a key of activeSockets, and changes nothing else.
    When it is a key and neither the transport nor the store throws, the
    transport of the socket is closed, its listeners are removed, the number
    is deleted from activeSockets and socketCreationTime, its roster entry and
    its credential blob are deleted from the store, the answer is a success,
    and a second request right after it is answered 404. *)
Theorem disconnect_then_not_found number w :
  let n := sanitizedNumber number in
  let w' := step env (GetDisconnect (Some number)) w in
  let w'' := step env (GetDisconnect (Some number)) w' in
  number <> "" ->
  (activeSockets w !! n = None ->
     (res_sent <$> (responses w' !! length (responses w))) = Some [(404, BNotFound)] /\
     activeSockets w' = activeSockets w /\ sockets w' = sockets w /\
     mongoSessions w' = mongoSessions w /\ mongoNumbers w' = mongoNumbers w) /\
  (forall socket, activeSockets w !! n = Some socket ->
     fails env OpWsClose = None ->
     fails env OpRemoveNumber = None ->
     fails env OpDeleteSession = None ->
     (forall s, sockets w !! socket = Some s ->
                sockets w' !! socket = Some (set_listeners [] (set_wsClosed s))) /\
     activeSockets w' !! n = None /\
     socketCreationTime w' !! n = None /\
     (n ∉ mongoNumbers w') /\
     mongoSessions w' !! n = None /\
     (res_sent <$> (responses w' !! length (responses w))) = Some [(200, BDisconnected)] /\
     (res_sent <$> (responses w'' !! length (responses w'))) = Some [(404, BNotFound)]).
Proof.
  cbv zeta. intros Hn. cbn [step]. split.
  - intros Ha. rewrite with_fresh_res_run. unfold detached, exec, unawaited.
    rewrite (disconnect_not_found number _ _ Hn) by exact Ha.
    cbn [snd]. fields. rewrite !list_lookup_alter_eq, lookup_last. repeat split.
  - intros socket Ha H1 H2 H3.
    assert (E : exists w', with_fresh_res (disconnect env (Some number)) w = w' /\
              w' = with_responses (alter (json BDisconnected) (length (responses w)))
                     (with_logs (fun l => l ++
                        [(success, "Manually disconnected " +:+ sanitizedNumber number)])
                        (with_mongoSessions (delete (sanitizedNumber number))
                           (with_mongoNumbers (fun r => r ∖ {[sanitizedNumber number]})
                              (with_socketCreationTime (delete (sanitizedNumber number))
                                 (with_activeSockets (delete (sanitizedNumber number))
                                    (with_sockets (alter (set_listeners []) socket)
                                       (with_sockets (alter set_wsClosed socket)
                                          (with_responses (fun l => l ++ [freshRes]) w))))))))).
    { eexists. split; [|reflexivity].
      rewrite with_fresh_res_run. unfold detached, exec, unawaited.
      rewrite (disconnect_registered number _ _ socket Hn) by assumption.
      reflexivity. }
    destruct E as (w' & -> & Ew).
    assert (Ha' : activeSockets w' !! sanitizedNumber number = None).
    { subst w'. fields. apply lookup_delete_eq. }
    repeat split.
    + intros s Hs. subst w'. fields.
      rewrite !list_lookup_alter_eq, Hs. reflexivity.
    + exact Ha'.
    + subst w'. fields. apply lookup_delete_eq.
    + subst w'. fields. rewrite elem_of_difference, elem_of_singleton.
      intros [_ Hne]. apply Hne. reflexivity.
    + subst w'. fields. apply lookup_delete_eq.
    + subst w'. fields. rewrite !list_lookup_alter_eq, lookup_last. reflexivity.
    + rewrite with_fresh_res_run. unfold detached, exec, unawaited.
      rewrite (disconnect_not_found number _ _ Hn) by exact Ha'.
      cbn [snd]. fields. rewrite !list_lookup_alter_eq, lookup_last. reflexivity.
Qed.

End Disconnect.

(** ** Status queries *)

(** The status of a number that neither table knows. *)
Lemma getConnectionStatus_absent number w :
  activeSockets w !! sanitizedNumber number = None ->
  socketCreationTime w !! sanitizedNumber number = None ->
  getConnectionStatus number w =
    {| isConnected := false; connectionTime := None; uptime := 0 |}.
Proof.
  intros Ha Ht. unfold getConnectionStatus. rewrite Ha, Ht.
  rewrite bool_decide_eq_false_2 by (intros [? ?]; discriminate). reflexivity.
Qed.

(** C10: at every point the process can reach, for every number whose
    sanitized form is not a key of activeSockets, getConnectionStatus returns
    [{isConnected: false, connectionTime: null, uptime: 0}]. *)
Theorem getConnectionStatus_not_registered env rs number :
  activeSockets (run env rs emptyWorld) !! sanitizedNumber number = None ->
  getConnectionStatus number (run env rs emptyWorld) =
    {| isConnected := false; connectionTime := None; uptime := 0 |}.
Proof.
  intros Ha. apply getConnectionStatus_absent; [exact Ha|].
  assert (H : registry_consistent (run env rs emptyWorld)).
  { apply registry_consistent_run. reflexivity. }
  apply not_elem_of_dom. rewrite H. apply not_elem_of_dom. exact Ha.
Qed.

(** After a connection and a disconnection of 123, and for a number nobody
    connected. *)
Lemma getConnectionStatus_not_registered_witness :
  getConnectionStatus "+1 (23)"
    (run calm [GetCode (Some "123"); GetDisconnect (Some "123")] emptyWorld) =
    {| isConnected := false; connectionTime := None; uptime := 0 |} /\
  getConnectionStatus "999" (run calm [GetCode (Some "123")] emptyWorld) =
    {| isConnected := false; connectionTime := None; uptime := 0 |}.
Proof.
  split.
  - apply (getConnectionStatus_not_registered calm
             [GetCode (Some "123"); GetDisconnect (Some "123")] "+1 (23)").
    vm_compute. reflexivity.
  - apply (getConnectionStatus_not_registered calm [GetCode (Some "123")] "999").
    vm_compute. reflexivity.
Defined.

(** ** The dispatch of a message *)

Section Triples.

Context {S : Type} (P : S -> Prop).

Lemma runs_ret {A} (a : A) : runs P (mret a : Block S A).
Proof. intros s H. exists a. split; [reflexivity | exact H]. Qed.

Lemma runs_gets {A} (f : S -> A) : runs P (gets f).
Proof. intros s H. exists (f s). split; [reflexivity | exact H]. Qed.

Lemma runs_modify (f : S -> S) : (forall s, P s -> P (f s)) -> runs P (modify f).
Proof. intros Hf s H. exists tt. split; [reflexivity | apply Hf, H]. Qed.

Lemma runs_bind {A B} (m : Block S A) (k : A -> Block S B) :
  runs P m -> (forall a, runs P (k a)) -> runs P (m ≫= k).
Proof.
  intros Hm Hk s H. rewrite run_bind.
  destruct (Hm s H) as (a & Ea & Ha). destruct (m s) as [c s']. cbn in Ea, Ha. subst c.
  apply Hk, Ha.
Qed.

Lemma runs_when (b : bool) (m : Block S unit) : runs P m -> runs P (when b m).
Proof. intros Hm. destruct b; [exact Hm | apply runs_ret]. Qed.

Lemma runs_try_catch (body : Block S unit) (handler : string -> Block S unit) :
  runs P body -> runs P (try_catch body handler).
Proof.
  intros Hb s H. unfold try_catch.
  destruct (Hb s H) as (a & Ea & Ha). destruct (body s) as [c s']. cbn in Ea, Ha. subst c.
  exists a. split; [reflexivity | exact Ha].
Qed.

(** A statement that runs to its end, followed by the rest. *)
Lemma seq_runs {A B} (m : Block S A) (k : A -> Block S B) Q :
  runs P m -> (forall a, triple P (k a) Q) -> triple P (m ≫= k) Q.
Proof.
  intros Hm Hk s H. rewrite run_bind.
  destruct (Hm s H) as (a & Ea & Ha). destruct (m s) as [c s']. cbn in Ea, Ha. subst c.
  apply Hk, Ha.
Qed.

Lemma seq_ret {A B} (a : A) (k : A -> Block S B) Q :
  triple P (k a) Q -> triple P (mret a ≫= k) Q.
Proof. intros Hk s H. apply Hk, H. Qed.

(** A statement with a postcondition of its own, followed by the rest. *)
Lemma seq_triple {A B} (m : Block S A) (k : A -> Block S B) R Q :
  triple P m R ->
  (forall a, triple (R (Normal a)) (k a) Q) ->
  (forall s, R Returned s -> Q Returned s) ->
  (forall e s, R (Thrown e) s -> Q (Thrown e) s) ->
  triple P (m ≫= k) Q.
Proof.
  intros Hm Hk Hr Ht s H. rewrite run_bind. specialize (Hm s H).
  destruct (m s) as [[a| |e] s']; cbn in *; auto. apply Hk, Hm.
Qed.

Lemma triple_pre {A} (P' : S -> Prop) (m : Block S A) Q :
  (forall s, P s -> P' s) -> triple P' m Q -> triple P m Q.
Proof. intros Hp Hm s H. apply Hm, Hp, H. Qed.

(** A block that does not throw, inside [try]. *)
Lemma triple_try_catch (body : Block S unit) handler Q :
  triple P body (fun c s => (forall e, c <> Thrown e) /\ Q c s) ->
  triple P (try_catch body handler) Q.
Proof.
  intros Hb s H. unfold try_catch. specialize (Hb s H).
  destruct (body s) as [[a| |e] s']; cbn in *; try apply Hb.
  destruct Hb as [Hne _]. exfalso. apply (Hne e). reflexivity.
Qed.

End Triples.

Lemma runs_ext (P : World -> Prop) env op :
  fails env op = None -> runs P (ext env op).
Proof.
  intros Hf w H. unfold ext. rewrite Hf. exists tt. split; [reflexivity | exact H].
Qed.

Lemma runs_unawaited (P : World -> Prop) (m : Block World unit) :
  (forall f w, P w -> P (with_unhandled f w)) ->
  preserves P m -> runs P (unawaited m).
Proof.
  intros Hu Hm w H. exists tt. unfold unawaited. specialize (Hm w H).
  destruct (m w) as [[a| |e] w']; cbn in *; auto.
Qed.

(** Splits a block that cannot fail into its statements. *)
Ltac runs_step nofail :=
  match goal with
  | |- forall _, _ => intro
  | |- runs _ (_ ≫= _) => apply runs_bind
  | |- runs _ (mret _) => apply runs_ret
  | |- runs _ (gets _) => apply runs_gets
  | |- runs _ (ext _ _) => apply runs_ext; apply nofail
  | |- runs _ (when _ _) => apply runs_when
  | |- runs _ (try_catch _ _) => apply runs_try_catch
  | |- runs _ (modify _) => apply runs_modify; intros ? H; exact H
  | |- runs _ (if ?b then _ else _) => destruct b
  | |- runs _ (match ?x with _ => _ end) => destruct x
  end.

Ltac runs_block nofail := repeat (runs_step nofail).

Section Dispatch.

Variable env : Env.
Hypothesis noFault : forall op, fails env op = None.




(** A call of a plugin function: it is recorded, and it returns, throws or
    leaves a rejection behind. *)
Lemma invoke_run i cmd path ctx w :
  invoke i cmd path ctx w =
    match cmd_function cmd path ctx with
    | Returns => (Normal tt, with_invoked (fun l => l ++ [(i, path)]) w)
    | Throws e => (Thrown e, with_invoked (fun l => l ++ [(i, path)]) w)
    | Rejects e =>
        (Normal tt,
         with_unhandled (fun l => l ++ [e]) (with_invoked (fun l => l ++ [(i, path)]) w))
    end.
Proof. unfold invoke. rewrite run_modify. destruct (cmd_function cmd path ctx); reflexivity. Qed.

(** "Execute Events": every entry whose trigger matches is called, whatever
    the calls before it did. *)
Lemma execute_events_invoked mek body ctx l i w :
  fst (map_async (event_callback mek body ctx) i l w) = Normal tt /\
  invoked (snd (map_async (event_callback mek body ctx) i l w)) =
    invoked w ++ events_fired mek body i l.
Proof.
  revert i w. induction l as [|c r IH]; intros i w.
  - cbn. rewrite app_nil_r. split; reflexivity.
  - cbn [map_async events_fired]. rewrite run_bind.
    assert (E : exists w1, unawaited (event_callback mek body ctx i c) w = (Normal tt, w1) /\
                  invoked w1 = invoked w ++
                    (if event_trigger mek body c then [(i, ByEvent)] else [])).
    { unfold unawaited, event_callback, event_trigger.
      destruct (Js.truthy body && on_is c "body"); cbn [orb].
      { rewrite invoke_run. destruct (cmd_function c ByEvent ctx); eexists; split; reflexivity. }
      destruct (mek_q mek && on_is c "text"); cbn [orb].
      { rewrite invoke_run. destruct (cmd_function c ByEvent ctx); eexists; split; reflexivity. }
      destruct ((on_is c "image" || on_is c "photo") &&
                bool_decide (mek_type mek = Some "imageMessage")); cbn [orb].
      { rewrite invoke_run. destruct (cmd_function c ByEvent ctx); eexists; split; reflexivity. }
      destruct (on_is c "sticker" && bool_decide (mek_type mek = Some "stickerMessage")).
      { rewrite invoke_run. destruct (cmd_function c ByEvent ctx); eexists; split; reflexivity. }
      eexists. split; [reflexivity|]. cbn. rewrite app_nil_r. reflexivity. }
    destruct E as (w1 & -> & E1).
    destruct (IH (Datatypes.S i) w1) as (Hc & Hi). split; [exact Hc|].
    rewrite Hi, E1, app_assoc. reflexivity.
Qed.




End Dispatch.

(** ** Command names *)











(** ** What one message causes *)



Section Messages.

Variable env : Env.

(** The two listeners of 'messages.upsert' of a socket that was set up to
    the end. *)
Lemma emit_messages_upsert sid s user mek w :
  sockets w !! sid = Some s ->
  sock_listeners s = pair_listeners ->
  emit env sid (MessagesUpsert user mek) w =
    detached (upsert_listener env sid (sock_number s) (sanitizedNumber (sock_number s)) user mek)
      (detached (presence_listener env sid (sock_number s) mek) w).
Proof. intros Hs Hl. unfold emit. rewrite Hs, Hl. reflexivity. Qed.





End Messages.

(** ** More instances on a concrete process *)

(** C1, at the input where the code departs from it: a first call of
    inconnuboyPair for 123 has taken the lock and waits for the store. A
    second call comes: it is told that a connection is in progress, creates
    nothing, and leaves the lock released although it never acquired it and
    the first call is still under way. *)
Lemma contention_releases_foreign_lock :
  let held := world (snd (pair_prologue "123" None
                            {| world := emptyWorld; connectionLockKey := None |})) in
  let after := step calm (GetCode (Some "123")) held in
  global_truthy "connecting_123" held = true /\
  (res_sent <$> (responses after !! 0)) = Some [(200, BConnectionInProgress)] /\
  sockets after = [] /\
  global_truthy "connecting_123" after = false.
Proof. vm_compute. repeat split. Qed.

(** What the lost lock allows: a third call connects 123 while the first is
    still waiting, and when the first goes on, it creates a second socket for
    the same number. *)
Lemma duplicate_socket_after_contention :
  let held := world (snd (pair_prologue "123" None
                            {| world := emptyWorld; connectionLockKey := None |})) in
  let second := step calm (GetCode (Some "123")) held in
  let third := step calm (GetCode (Some "123")) second in
  let first := exec (pair_main calm "123" "123" None) third in
  sock_listeners <$> sockets third = [pair_listeners] /\
  sock_listeners <$> sockets first = [pair_listeners; pair_listeners] /\
  sock_number <$> sockets first = ["123"; "123"].
Proof. vm_compute. repeat split. Qed.

(** C5, at the input where the code departs from it: three closures with
    status code 428, each followed by the reconnection ten seconds later, and
    no 'open' in between. The fourth socket starts with a counter of 0, and
    when it closes in the same way a fourth reconnection is scheduled. *)
Lemma fourth_closure_schedules_retry :
  let close := closeWith 428 "Connection Closed" in
  let w3 := run calm [GetCode (Some "123");
                      SocketEvent 0 close; TimerExpires 0;
                      SocketEvent 1 close; TimerExpires 0;
                      SocketEvent 2 close; TimerExpires 0] known123 in
  let w4 := step calm (SocketEvent 3 close) w3 in
  length (sockets w3) = 4 /\
  activeSockets w3 !! "123" = Some 3 /\
  timers w3 = [] /\
  restartAttempts 3 w3 = 0 /\
  timers w4 = [{| due := 40000; task := TReconnect "123" |}].
Proof. vm_compute. repeat split. Qed.

(** C8, at the input where the code departs from it: a plugin triggered by
    the text of a message throws. Its function is called, and the exception
    is not caught by the listener: it leaves the dispatch as an unhandled
    rejection. *)
Lemma event_handler_throw_escapes :
  let env := withCommands [cmdWatchBroken] "public" in
  let w := run env [GetCode (Some "123")] known123 in
  let w' := emit env 0 (MessagesUpsert (Some "123:1@s.whatsapp.net")
                          (textFrom254700000001 "hello")) w in
  invoked w' = [(0, ByEvent)] /\
  unhandled w = [] /\
  unhandled w' = ["boom"].
Proof. vm_compute. repeat split. Qed.

(** The same exception thrown by a command: it is caught and logged. *)
Lemma command_handler_throw_logged :
  let env := withCommands [cmdBroken; cmdWatch] "public" in
  let w := run env [GetCode (Some "123")] known123 in
  let w' := emit env 0 (MessagesUpsert (Some "123:1@s.whatsapp.net")
                          (textFrom254700000001 ".broken")) w in
  invoked w' = [(0, ByCommand); (1, ByEvent)] /\
  logs w' = logs w ++ [(error, "PLUGIN ERROR: boom")] /\
  unhandled w' = [].
Proof. vm_compute. repeat split. Qed.

(** A command whose function is async and rejects: the [try] around the call
    has nothing to catch, and the rejection leaves the dispatch unhandled. *)
Lemma async_command_rejection_escapes :
  let env := withCommands [cmdAsyncBroken] "public" in
  let w := run env [GetCode (Some "123")] known123 in
  let w' := emit env 0 (MessagesUpsert (Some "123:1@s.whatsapp.net")
                          (textFrom254700000001 ".later")) w in
  invoked w' = [(0, ByCommand)] /\
  unhandled w = [] /\
  unhandled w' = ["boom"].
Proof. vm_compute. repeat split. Qed.



(** C2 as first stated fails here: 123 has no stored blob and asks for a
    code. When the call returns, and so before its socket has emitted
    anything, 123 is a key of activeSockets, and the request has not been
    answered. *)
Lemma registered_before_open :
  let w := step calm (GetCode (Some "123")) emptyWorld in
  mongoSessions emptyWorld !! "123" = None /\
  activeSockets w !! "123" = Some 0 /\
  (res_sent <$> (responses w !! 0)) = Some [] /\
  timers w = [{| due := 3000; task := TPairingTimeout 0 "123" (Some 0) |}].
Proof. vm_compute. repeat split. Qed.

(** The same call, followed by the two expiries that lead to the code. *)
Lemma new_pairing_registers_then_codes_witness :
  let w := with_responses (fun _ => [freshRes]) emptyWorld in
  let w' := exec (inconnuboyPair calm "123" (Some 0)) w in
  let w2 := fire calm 0 (fire calm 0 w') in
  activeSockets w' !! "123" = Some 0 /\
  responses w' = [freshRes] /\
  clock w2 = 4500%Z /\
  responses w2 !! 0 = Some (json (BNewPairing "ABCD1234") freshRes).
Proof.
  cbv zeta.
  destruct (new_pairing_registers_then_codes calm "123" (Some 0)
              (with_responses (fun _ => [freshRes]) emptyWorld)
              eq_refl eq_refl eq_refl eq_refl eq_refl eq_refl eq_refl eq_refl eq_refl)
    as ((Ha & _ & Hr & _) & _ & (Hc & _ & Hres)).
  split; [exact Ha|]. split; [exact Hr|]. split; [exact Hc|].
  apply (Hres 0 freshRes); reflexivity.
Defined.

(** 123 with a stored blob, and 456 with none but with a stale session
    directory. *)
Lemma connect_restores_or_pairs_witness :
  let w := with_responses (fun _ => [freshRes]) known123 in
  let w' := exec (inconnuboyPair calm "123" (Some 0)) w in
  let v := with_localFs <[sessionDirOf "456" := Some "stale"]> emptyWorld in
  let v' := exec (inconnuboyPair calm "456" None) v in
  (localFs w' !! sessionDirOf "123" = Some (Some "blob") /\
   (sock_usePairingCode <$> (sockets w' !! 0)) = Some false /\
   timers w' = [] /\
   responses w' !! 0 = Some (json BReconnecting freshRes)) /\
  (localFs v' !! sessionDirOf "456" = Some None /\
   (sock_usePairingCode <$> (sockets v' !! 0)) = Some true /\
   (sock_creds <$> (sockets v' !! 0)) = Some None).
Proof.
  cbv zeta. split.
  - destruct (connect_restores_or_pairs calm "123" (Some 0)
                (with_responses (fun _ => [freshRes]) known123)
                eq_refl eq_refl eq_refl eq_refl eq_refl eq_refl eq_refl eq_refl)
      as [Hrestore _].
    destruct (Hrestore "blob" eq_refl) as (Hfs & Hs & _ & Ht & Hres).
    split; [exact Hfs|]. split; [exact (f_equal (fmap sock_usePairingCode) Hs)|].
    split; [exact Ht|].
    apply (Hres 0 freshRes); reflexivity.
  - destruct (connect_restores_or_pairs calm "456" None
                (with_localFs <[sessionDirOf "456" := Some "stale"]> emptyWorld)
                eq_refl eq_refl eq_refl eq_refl eq_refl eq_refl eq_refl eq_refl)
      as [_ Hpair].
    destruct (Hpair eq_refl) as (Hfs & Hs & _).
    split; [exact Hfs|].
    split; [exact (f_equal (fmap sock_usePairingCode) Hs) | exact (f_equal (fmap sock_creds) Hs)].
Defined.

(** 123 is connected and is disconnected twice in a row; 999 never was
    connected. *)
Lemma disconnect_then_not_found_witness :
  let w := run calm [GetCode (Some "123")] known123 in
  let w' := step calm (GetDisconnect (Some "123")) w in
  let w'' := step calm (GetDisconnect (Some "123")) w' in
  let v' := step calm (GetDisconnect (Some "999")) w in
  ((res_sent <$> (responses v' !! 1)) = Some [(404, BNotFound)]) /\
  ((sock_wsClosed <$> (sockets w' !! 0)) = Some true /\
   (sock_listeners <$> (sockets w' !! 0)) = Some [] /\
   activeSockets w' !! "123" = None /\
   mongoSessions w' !! "123" = None /\
   (res_sent <$> (responses w' !! 1)) = Some [(200, BDisconnected)] /\
   (res_sent <$> (responses w'' !! 2)) = Some [(404, BNotFound)]).
Proof.
  cbv zeta. split.
  - assert (Hn : "999" <> "") by discriminate.
    destruct (disconnect_then_not_found calm "999"
                (run calm [GetCode (Some "123")] known123) Hn) as [Habsent _].
    destruct (Habsent eq_refl) as (Hres & _). exact Hres.
  - assert (Hn : "123" <> "") by discriminate.
    destruct (disconnect_then_not_found calm "123"
                (run calm [GetCode (Some "123")] known123) Hn) as [_ Hpresent].
    destruct (Hpresent 0 eq_refl eq_refl eq_refl eq_refl)
      as (Hs & Ha & _ & _ & Hm & Hr1 & Hr2).
    split; [exact (f_equal (fmap sock_wsClosed) (Hs _ eq_refl))|].
    split; [exact (f_equal (fmap sock_listeners) (Hs _ eq_refl))|].
    split; [exact Ha|]. split; [exact Hm|]. split; [exact Hr1 | exact Hr2].
Defined.

(** * Further properties *)

(** ** The registry stays sound *)

Lemma sound_frame (f : World -> World) w :
  activeSockets (f w) = activeSockets w ->
  sockets (f w) = sockets w ->
  registry_sound w -> registry_sound (f w).
Proof. intros Ha Hs H n conn. rewrite Ha, Hs. apply H. Qed.

Lemma sound_alter g sid w :
  (forall s, sock_number (g s) = sock_number s) ->
  registry_sound w -> registry_sound (with_sockets (alter g sid) w).
Proof.
  intros Hg H n conn Ha. destruct (H n conn Ha) as (s & Hs & Hn). cbn.
  destruct (decide (sid = conn)) as [->|Hne].
  - exists (g s). rewrite list_lookup_alter_eq, Hs, Hg. split; [reflexivity | exact Hn].
  - exists s. rewrite list_lookup_alter_ne by exact Hne. split; assumption.
Qed.

Lemma sound_append x w :
  registry_sound w -> registry_sound (with_sockets (fun l => l ++ [x]) w).
Proof.
  intros H n conn Ha. destruct (H n conn Ha) as (s & Hs & Hn). cbn.
  exists s. split; [|exact Hn]. apply lookup_app_l_Some. exact Hs.
Qed.

Lemma sound_active_delete n w :
  registry_sound w -> registry_sound (with_activeSockets (delete n) w).
Proof.
  intros H m conn Ha. cbn in Ha. apply lookup_delete_Some in Ha as [_ Ha]. apply (H m conn Ha).
Qed.

Lemma sound_with_frame number conn (f : World -> World) w :
  (registry_sound w -> registry_sound (f w)) ->
  (forall s, sockets w !! conn = Some s ->
     exists s', sockets (f w) !! conn = Some s' /\ sock_number s' = sock_number s) ->
  registry_sound_with number conn w -> registry_sound_with number conn (f w).
Proof.
  intros Hf Hs [H (s & Hc & Hn)]. split; [apply Hf, H|].
  destruct (Hs s Hc) as (s' & Hc' & Hn'). exists s'. split; [exact Hc' | congruence].
Qed.

Lemma sound_with_register number conn w :
  registry_sound_with number conn w ->
  registry_sound_with number conn
    (with_activeSockets <[sanitizedNumber number := conn]> w).
Proof.
  intros [H (s & Hc & Hn)]. split; [|exists s; split; assumption].
  intros m conn' Ha. cbn in Ha. apply lookup_insert_Some in Ha as [[<- <-]|[_ Ha]].
  - exists s. cbn. split; [exact Hc|]. rewrite Hn. reflexivity.
  - apply (H m conn' Ha).
Qed.

(** Splits a block into its statements; what is left is shown by the
    lemmas above. *)
Ltac sound_modify :=
  first
    [ apply sound_frame; [reflexivity | reflexivity | assumption]
    | apply sound_alter; [intros []; reflexivity | assumption]
    | apply sound_append; assumption
    | apply sound_active_delete; assumption ].

Ltac sound_step :=
  match goal with
  | |- forall _, _ => intro
  | |- preserves _ (_ ≫= _) => apply preserves_bind
  | |- preserves _ (mret _) => apply preserves_ret
  | |- preserves _ return_ => apply preserves_return
  | |- preserves _ (throw _) => apply preserves_throw
  | |- preserves _ (gets _) => apply preserves_gets
  | |- preserves _ (ext _ _) => apply preserves_ext
  | |- preserves _ (when _ _) => apply preserves_when
  | |- preserves _ (try_catch _ _) => apply preserves_try_catch
  | |- preserves _ (call _) => apply preserves_call
  | |- preserves _ (inWorld _) => apply preserves_inWorld
  | |- preserves registry_sound (unawaited _) =>
      apply preserves_unawaited; [intros ? ? ?; sound_modify|]
  | |- preserves registry_sound (modify _) =>
      apply preserves_modify; intros ? ?; sound_modify
  | |- preserves _ (if ?b then _ else _) => destruct b
  | |- preserves _ (match ?x with _ => _ end) => destruct x
  end.

Ltac sound := repeat sound_step.

Section RegistrySound.

Variable env : Env.

Lemma sound_log msg type : preserves registry_sound (inconnuLog msg type).
Proof. unfold inconnuLog. sound. Qed.

Lemma sound_respond res body : preserves registry_sound (respondAndReturn res body).
Proof. unfold respondAndReturn, res_json. sound. Qed.

Lemma sound_with_keep number conn (f : World -> World) w :
  sockets (f w) = sockets w ->
  (registry_sound w -> registry_sound (f w)) ->
  registry_sound_with number conn w -> registry_sound_with number conn (f w).
Proof.
  intros Hs Hf. apply sound_with_frame; [exact Hf|].
  intros s Hc. exists s. rewrite Hs. split; [exact Hc | reflexivity].
Qed.

Lemma sound_with_alter number conn g sid w :
  (forall s, sock_number (g s) = sock_number s) ->
  registry_sound_with number conn w ->
  registry_sound_with number conn (with_sockets (alter g sid) w).
Proof.
  intros Hg. apply sound_with_frame; [apply sound_alter, Hg|].
  intros s Hc. cbn. destruct (decide (sid = conn)) as [->|Hne].
  - exists (g s). rewrite list_lookup_alter_eq, Hc. split; [reflexivity | apply Hg].
  - exists s. rewrite list_lookup_alter_ne by exact Hne. split; [exact Hc | reflexivity].
Qed.

Ltac sound_with_modify :=
  first
    [ apply sound_with_register; assumption
    | apply sound_with_alter; [intros []; reflexivity | assumption]
    | apply sound_with_keep; [reflexivity | intros ?; sound_modify | assumption] ].

Ltac sound_with_step :=
  match goal with
  | |- forall _, _ => intro
  | |- preserves _ (_ ≫= _) => apply preserves_bind
  | |- preserves _ (mret _) => apply preserves_ret
  | |- preserves _ return_ => apply preserves_return
  | |- preserves _ (throw _) => apply preserves_throw
  | |- preserves _ (gets _) => apply preserves_gets
  | |- preserves _ (ext _ _) => apply preserves_ext
  | |- preserves _ (when _ _) => apply preserves_when
  | |- preserves _ (try_catch _ _) => apply preserves_try_catch
  | |- preserves (registry_sound_with _ _) (modify _) =>
      apply preserves_modify; intros ? ?; sound_with_modify
  | |- preserves _ (if ?b then _ else _) => destruct b
  | |- preserves _ (match ?x with _ => _ end) => destruct x
  end.

Ltac sound_with := repeat sound_with_step.

Lemma sound_makeWASocket number creds usePairingCode (k : nat -> Block World unit) :
  (forall conn, preserves (registry_sound_with number conn) (k conn)) ->
  preserves registry_sound (makeWASocket env number creds usePairingCode ≫= k).
Proof.
  intros Hk w H. unfold makeWASocket. rewrite run_assoc. unfold ext.
  destruct (fails env OpMakeSocket) as [e|]; [exact H|].
  rewrite run_ret, run_assoc, run_gets, run_assoc, run_modify, run_ret.
  apply Hk. split; [apply sound_append, H|].
  eexists. cbn. rewrite lookup_last. split; reflexivity.
Qed.

Lemma sound_pair_main number res :
  preserves registry_sound (pair_main env number (sanitizedNumber number) res).
Proof.
  unfold pair_main, getSessionFromMongoDB. cbv zeta.
  apply preserves_bind; [sound|]. intros existingSession.
  apply preserves_bind; [unfold inconnuLog; sound|]. intros [].
  apply preserves_bind; [unfold useMultiFileAuthState; sound|]. intros state_creds.
  apply sound_makeWASocket. intros conn.
  unfold ev_on, with_socket, schedule, res_json. sound_with.
Qed.

Lemma sound_pair number res : preserves registry_sound (inconnuboyPair env number res).
Proof.
  intros w H. unfold inconnuboyPair.
  pose proof (preserves_call (fun f => registry_sound (world f))
                (inconnuboyPair_block env number res)) as Hc.
  destruct (call (inconnuboyPair_block env number res)
                 {| world := w; connectionLockKey := None |}) as [c f] eqn:E.
  cbn. change f with (snd (c, f)). rewrite <- E. apply Hc; [|exact H].
  unfold inconnuboyPair_block. apply preserves_try_catch_finally.
  - apply preserves_bind; [|intros []; apply preserves_inWorld, sound_pair_main].
    unfold pair_prologue, set_connectionLockKey, respondAndReturn, res_json, inconnuLog.
    sound.
    all: try (apply preserves_modify; intros [w0 k0] H0; exact H0).
  - intros e. unfold pair_catch, respondAndReturn, res_json, inconnuLog. sound.
  - unfold pair_finally. sound.
Qed.

Lemma sound_autoRestart socket number update :
  preserves registry_sound (autoRestart_listener env socket number update).
Proof.
  unfold autoRestart_listener, deleteSessionFromMongoDB, removeNumberFromMongoDB,
    removeAllListeners, with_socket, schedule, inconnuLog.
  cbv zeta. sound.
Qed.

Lemma sound_reconnect number : preserves registry_sound (reconnect env number).
Proof.
  unfold reconnect. sound; try apply sound_log. apply sound_pair.
Qed.

Lemma sound_connection conn n existing user update :
  preserves registry_sound (connection_listener env conn n existing user update).
Proof.
  unfold connection_listener, user_id, addNumberToMongoDB, client_call, inconnuLog. sound.
Qed.

Lemma sound_creds n creds : preserves registry_sound (creds_listener env n creds).
Proof. unfold creds_listener, saveSessionToMongoDB, inconnuLog. sound. Qed.

Lemma sound_disconnect number res : preserves registry_sound (disconnect env number res).
Proof.
  unfold disconnect, ws_close, removeAllListeners, with_socket, res_status, res_json,
    removeNumberFromMongoDB, deleteSessionFromMongoDB, inconnuLog.
  cbv zeta. sound.
Qed.

Lemma sound_invoke i cmd path ctx : preserves registry_sound (invoke i cmd path ctx).
Proof. unfold invoke. sound. Qed.

Lemma sound_presence socket number msg :
  preserves registry_sound (presence_listener env socket number msg).
Proof.
  unfold presence_listener, getUserConfigFromMongoDB, client_call, inconnuLog. sound.
Qed.

Lemma sound_events mek body ctx :
  preserves registry_sound (execute_events env mek body ctx).
Proof.
  unfold execute_events. generalize 0. induction (commands env) as [|c r IH]; intros i.
  - apply preserves_ret.
  - cbn [map_async]. sound; [|apply IH].
    unfold event_callback. sound; apply sound_invoke.
Qed.

Lemma sound_plugins conn n from body isCmd isOwner ctx :
  preserves registry_sound (execute_plugins env conn n from body isCmd isOwner ctx).
Proof.
  unfold execute_plugins, incrementStats, client_call, inconnuLog. cbv zeta.
  sound; apply sound_invoke.
Qed.

Lemma sound_upsert conn number n user mek :
  preserves registry_sound (upsert_listener env conn number n user mek).
Proof.
  unfold upsert_listener, status_handling, send_command, getUserConfigFromMongoDB,
    incrementStats, user_id, client_call, inconnuLog.
  cbv zeta. sound.
  all: first [apply sound_plugins | apply sound_events].
Qed.

Lemma sound_detached (m : Block World unit) w :
  preserves registry_sound m -> registry_sound w -> registry_sound (detached m w).
Proof.
  intros Hm H. unfold detached, exec.
  apply (preserves_unawaited registry_sound m);
    [intros f w0 H0; sound_modify | exact Hm | exact H].
Qed.

Lemma sound_emit sid ev w : registry_sound w -> registry_sound (emit env sid ev w).
Proof.
  unfold emit. destruct (sockets w !! sid) as [s|]; [|auto].
  revert w. induction (sock_listeners s) as [|l ls IH]; intros w H; [exact H|].
  cbn [foldl]. apply IH.
  destruct (listener_block env sid s ev l) as [m|] eqn:E; [|exact H].
  apply sound_detached; [|exact H].
  unfold listener_block in E.
  destruct ev, l; inversion E; subst;
    auto using sound_autoRestart, sound_connection, sound_presence, sound_upsert, sound_creds.
Qed.

Lemma sound_fire i w : registry_sound w -> registry_sound (fire env i w).
Proof.
  intros H. unfold fire. destruct (timers w !! i) as [t|]; [|exact H].
  apply sound_detached.
  - destruct (task t); cbn [run_task].
    + unfold pairing_timeout, schedule. sound.
    + unfold pairing_request, respondAndReturn, res_json, client_call, inconnuLog. sound.
    + apply sound_reconnect.
  - apply sound_frame; [reflexivity | reflexivity | exact H].
Qed.

Lemma sound_step r w : registry_sound w -> registry_sound (step env r w).
Proof.
  intros H. destruct r; cbn [step].
  - apply sound_detached; [|sound_modify].
    unfold code_route, res_json. sound. apply sound_pair.
  - apply sound_detached; [|sound_modify]. apply sound_disconnect.
  - apply sound_detached; [|exact H].
    unfold roster_connect. sound. apply sound_pair.
  - apply sound_emit, H.
  - apply sound_fire, H.
  - apply sound_frame; [reflexivity | reflexivity | exact H].
Qed.

Lemma sound_run rs w : registry_sound w -> registry_sound (run env rs w).
Proof.
  revert w. induction rs as [|r rs IH]; intros w H; [exact H|].
  apply IH, sound_step, H.
Qed.

Lemma sound_empty : registry_sound emptyWorld.
Proof. intros n x H. cbn in H. rewrite lookup_empty in H. discriminate. Qed.

End RegistrySound.

(** ** Status of a registered number *)

Lemma getConnectionStatus_registered w number conn :
  registry_consistent w ->
  activeSockets w !! sanitizedNumber number = Some conn ->
  isConnected (getConnectionStatus number w) = true /\
  exists t,
    socketCreationTime w !! sanitizedNumber number = Some t /\
    (t <> 0%Z ->
       connectionTime (getConnectionStatus number w) = Some t /\
       uptime (getConnectionStatus number w) = ((clock w - t) / 1000)%Z /\
       (0 <= uptime (getConnectionStatus number w) <-> t <= clock w)%Z) /\
    (t = 0%Z ->
       connectionTime (getConnectionStatus number w) = None /\
       uptime (getConnectionStatus number w) = 0%Z).
Proof.
  intros Hc Ha.
  assert (Ht : is_Some (socketCreationTime w !! sanitizedNumber number)).
  { apply elem_of_dom. rewrite Hc. apply elem_of_dom. eauto. }
  destruct Ht as [t Ht].
  unfold getConnectionStatus. rewrite Ha, Ht. cbn [isConnected uptime connectionTime].
  split; [apply bool_decide_eq_true_2; eauto|].
  exists t. split; [reflexivity|].
  destruct (t =? 0)%Z eqn:E; cbn [negb].
  - apply Z.eqb_eq in E. split; [intros Hne; contradiction | intros _; split; reflexivity].
  - apply Z.eqb_neq in E. split; [|intros H0; contradiction].
    intros _. split; [reflexivity|]. split; [reflexivity|].
    pose proof (Z.div_mod (clock w - t) 1000 ltac:(lia)) as Hd.
    pose proof (Z.mod_pos_bound (clock w - t) 1000 ltac:(lia)) as Hm.
    lia.
Qed.

(** X2: at every point the process can reach, the status of a registered number
    says that it is connected; unless the socket was created at instant 0,
    the connection time is the instant at which the socket was created and
    the uptime is the number of whole seconds from then to now, rounded down,
    which is negative when the clock has been set back behind that instant.
    For a socket created at instant 0 the connection time is null and the
    uptime 0. *)
Theorem getConnectionStatus_registered_uptime env rs number conn :
  let W := run env rs emptyWorld in
  activeSockets W !! sanitizedNumber number = Some conn ->
  isConnected (getConnectionStatus number W) = true /\
  exists t,
    socketCreationTime W !! sanitizedNumber number = Some t /\
    (t <> 0%Z ->
       connectionTime (getConnectionStatus number W) = Some t /\
       uptime (getConnectionStatus number W) = ((clock W - t) / 1000)%Z /\
       (0 <= uptime (getConnectionStatus number W) <-> t <= clock W)%Z) /\
    (t = 0%Z ->
       connectionTime (getConnectionStatus number W) = None /\
       uptime (getConnectionStatus number W) = 0%Z).
Proof.
  cbv zeta. intros Ha. apply (getConnectionStatus_registered _ number conn).
  - apply registry_consistent_run. reflexivity.
  - exact Ha.
Qed.

Lemma getConnectionStatus_registered_uptime_witness :
  let W := run calm [TimePasses 1000; GetCode (Some "+1 23"); TimePasses 5500] emptyWorld in
  let V := run calm [TimePasses 1000; GetCode (Some "+1 23"); TimePasses (-500)] emptyWorld in
  (isConnected (getConnectionStatus "+1 23" W) = true /\
   uptime (getConnectionStatus "+1 23" W) = 5%Z) /\
  (isConnected (getConnectionStatus "+1 23" V) = true /\
   uptime (getConnectionStatus "+1 23" V) = (-1)%Z).
Proof.
  cbv zeta. split.
  - destruct (getConnectionStatus_registered_uptime calm
                [TimePasses 1000; GetCode (Some "+1 23"); TimePasses 5500] "+1 23" 0 eq_refl)
      as (Hc & t & Ht & Hu & _).
    split; [exact Hc | reflexivity].
  - destruct (getConnectionStatus_registered_uptime calm
                [TimePasses 1000; GetCode (Some "+1 23"); TimePasses (-500)] "+1 23" 0 eq_refl)
      as (Hc & t & Ht & Hu & _).
    split; [exact Hc | reflexivity].
Defined.

(** X1: at every point the process can reach, every key of activeSockets is a
    string of digits: the sanitized form of itself and of the number for which
    the socket it maps to was created; and it has a creation time. *)
Theorem registry_keys_sound env rs n conn :
  let W := run env rs emptyWorld in
  activeSockets W !! n = Some conn ->
  sanitizedNumber n = n /\
  (exists s, sockets W !! conn = Some s /\ sanitizedNumber (sock_number s) = n) /\
  is_Some (socketCreationTime W !! n).
Proof.
  cbv zeta. intros Ha.
  pose proof (sound_run env rs emptyWorld sound_empty) as H2.
  assert (Hc : registry_consistent (run env rs emptyWorld))
    by (apply registry_consistent_run; reflexivity).
  destruct (H2 n conn Ha) as (s & Hs & Hn).
  split; [rewrite <- Hn; apply sanitizedNumber_idem|].
  split; [exists s; split; assumption|].
  apply elem_of_dom. rewrite Hc. apply elem_of_dom. eauto.
Qed.

Lemma registry_keys_sound_witness :
  let W := run calm [TimePasses 1000; GetCode (Some "+1 23")] emptyWorld in
  sanitizedNumber "123" = "123" /\
  (exists s, sockets W !! 0 = Some s /\ sanitizedNumber (sock_number s) = "123") /\
  is_Some (socketCreationTime W !! "123").
Proof.
  apply (registry_keys_sound calm [TimePasses 1000; GetCode (Some "+1 23")] "123" 0).
  reflexivity.
Defined.

(** ** The /status route *)

(** X14: at every point the process can reach, /status without a number lists
    every registered number once and nothing else, [totalActive] is the length
    of the list, and each entry, which the route labels 'connected', carries
    the connection time and the uptime of getConnectionStatus for its number,
    which that function reports as connected. *)
Theorem status_lists_registry env rs :
  let W := run env rs emptyWorld in
  exists connections,
    status_route None W = StatusAll (length connections) connections /\
    NoDup (ac_number <$> connections) /\
    (forall n, is_Some (activeSockets W !! n) <-> n ∈ ac_number <$> connections) /\
    (forall c, c ∈ connections ->
       isConnected (getConnectionStatus (ac_number c) W) = true /\
       ac_connectionTime c = connectionTime (getConnectionStatus (ac_number c) W) /\
       ac_uptime c = uptime (getConnectionStatus (ac_number c) W)).
Proof.
  cbv zeta. set (W := run env rs emptyWorld).
  assert (Hc : registry_consistent W) by (apply registry_consistent_run; reflexivity).
  assert (Hs : registry_sound W) by apply sound_run, sound_empty.
  eexists. split.
  { unfold status_route. f_equal.
    rewrite length_fmap, length_fmap, length_map_to_list. reflexivity. }
  assert (Hk : (ac_number <$>
                  ((fun num =>
                      {| ac_number := num;
                         ac_connectionTime := connectionTime (getConnectionStatus num W);
                         ac_uptime := uptime (getConnectionStatus num W) |}) <$>
                   (map_to_list (activeSockets W)).*1)) = (map_to_list (activeSockets W)).*1).
  { rewrite <- list_fmap_compose. apply list_fmap_id. }
  split; [|split].
  - rewrite Hk. apply NoDup_fst_map_to_list.
  - intros n. rewrite Hk. split.
    + intros [conn Ha]. apply list_elem_of_fmap. exists (n, conn).
      split; [reflexivity | apply elem_of_map_to_list, Ha].
    + intros Hin. apply list_elem_of_fmap in Hin as ([k conn] & -> & Hin).
      apply elem_of_map_to_list in Hin. eauto.
  - intros c Hin. apply list_elem_of_fmap in Hin as (n & -> & Hin).
    apply list_elem_of_fmap in Hin as ([k conn] & -> & Hin).
    apply elem_of_map_to_list in Hin. cbn [ac_number ac_connectionTime ac_uptime fst].
    destruct (Hs k conn Hin) as (s & _ & Hn).
    assert (Hk' : sanitizedNumber k = k) by (rewrite <- Hn; apply sanitizedNumber_idem).
    assert (Ha : activeSockets W !! sanitizedNumber k = Some conn) by (rewrite Hk'; exact Hin).
    destruct (getConnectionStatus_registered W k conn Hc Ha) as (H1 & _).
    split; [exact H1|]. split; reflexivity.
Qed.

(** ** Registered sockets listen *)

Lemma whole_alter g sid w :
  (forall s, sock_listeners (g s) = sock_listeners s \/ sock_listeners (g s) = []) ->
  sockets_whole w -> sockets_whole (with_sockets (alter g sid) w).
Proof.
  intros Hg H i s Hi. cbn in Hi.
  destruct (decide (sid = i)) as [->|Hne].
  - rewrite list_lookup_alter_eq in Hi.
    destruct (sockets w !! i) as [s0|] eqn:E; [|discriminate].
    inversion Hi; subst. destruct (Hg s0) as [->| ->]; [apply (H i s0 E) | right; reflexivity].
  - rewrite list_lookup_alter_ne in Hi by exact Hne. apply (H i s Hi).
Qed.

Lemma socket_of_alter at_ g sid w :
  (forall s, sock_number (g s) = sock_number s) ->
  socket_of at_ w -> socket_of at_ (with_sockets (alter g sid) w).
Proof.
  intros Hg. destruct at_ as [[i number]|]; [|auto]. intros (s & Hs & Hn). cbn.
  destruct (decide (sid = i)) as [->|Hne].
  - exists (g s). rewrite list_lookup_alter_eq, Hs, Hg. split; [reflexivity | exact Hn].
  - exists s. rewrite list_lookup_alter_ne by exact Hne. split; assumption.
Qed.

Lemma socket_of_app at_ l w :
  socket_of at_ w -> socket_of at_ (with_sockets (fun ss => ss ++ l) w).
Proof.
  destruct at_ as [[i number]|]; [|auto]. intros (s & Hs & Hn). cbn.
  exists s. split; [apply lookup_app_l_Some, Hs | exact Hn].
Qed.

Lemma live_alter g sid w :
  (forall s, sock_listeners (g s) = sock_listeners s) ->
  registry_live w -> registry_live (with_sockets (alter g sid) w).
Proof.
  intros Hg H n conn Ha. destruct (H n conn Ha) as (s & Hs & Hl). cbn.
  destruct (decide (sid = conn)) as [->|Hne].
  - exists (g s). rewrite list_lookup_alter_eq, Hs, Hg. split; [reflexivity | exact Hl].
  - exists s. rewrite list_lookup_alter_ne by exact Hne. split; assumption.
Qed.

Lemma live_active_delete n w :
  registry_live w -> registry_live (with_activeSockets (delete n) w).
Proof.
  intros H m conn Ha. cbn in Ha. apply lookup_delete_Some in Ha as [_ Ha]. apply (H m conn Ha).
Qed.

Section Listening.

Variable env : Env.

Lemma listening_frame at_ (f : World -> World) w :
  activeSockets (f w) = activeSockets w ->
  sockets (f w) = sockets w ->
  listening env at_ w -> listening env at_ (f w).
Proof.
  intros Ha Hs (H1 & H2 & H3 & H4). split; [apply sound_frame; assumption|].
  split; [intros i s; rewrite Hs; apply H2|].
  split; [destruct at_ as [[i number]|]; [cbn; rewrite Hs; exact H3 | exact I]|].
  intros Hb n conn. rewrite Ha, Hs. apply (H4 Hb).
Qed.

Lemma listening_alter at_ g sid w :
  (forall s, sock_number (g s) = sock_number s) ->
  (forall s, sock_listeners (g s) = sock_listeners s) ->
  listening env at_ w -> listening env at_ (with_sockets (alter g sid) w).
Proof.
  intros Hn Hl (H1 & H2 & H3 & H4). split; [apply sound_alter; assumption|].
  split; [apply whole_alter; [intros s; left; apply Hl | exact H2]|].
  split; [apply socket_of_alter; assumption|].
  intros Hb. apply live_alter; [exact Hl | exact (H4 Hb)].
Qed.

Lemma listening_active_delete at_ n w :
  listening env at_ w -> listening env at_ (with_activeSockets (delete n) w).
Proof.
  intros (H1 & H2 & H3 & H4). split; [apply sound_active_delete, H1|].
  split; [exact H2|]. split; [destruct at_ as [[i number]|]; [exact H3 | exact I]|].
  intros Hb. apply live_active_delete, H4, Hb.
Qed.

(** Which socket is meant does not matter once the callback is over. *)
Lemma listening_any at_ w : listening env at_ w -> listening env None w.
Proof.
  intros (H1 & H2 & _ & H4). split; [exact H1|]. split; [exact H2|].
  split; [exact I | exact H4].
Qed.

Lemma listening_of sid s w :
  sockets w !! sid = Some s ->
  listening env None w -> listening env (Some (sid, sock_number s)) w.
Proof.
  intros Hs (H1 & H2 & _ & H4). split; [exact H1|]. split; [exact H2|].
  split; [exists s; split; [exact Hs | reflexivity] | exact H4].
Qed.

(** A socket whose number has left the registry is not registered. *)
Lemma off_unregistered sid number w :
  listening_off env sid number w -> forall n, activeSockets w !! n <> Some sid.
Proof.
  intros [(H1 & _ & (s & Hs & Hn) & _) Hoff] n Ha.
  destruct (H1 n sid Ha) as (s' & Hs' & Hn').
  rewrite Hs in Hs'. inversion Hs'; subst s'. rewrite Hn in Hn'. subst n.
  rewrite Hoff in Ha. discriminate.
Qed.

Lemma listening_off_frame sid number (f : World -> World) w :
  activeSockets (f w) = activeSockets w ->
  sockets (f w) = sockets w ->
  listening_off env sid number w -> listening_off env sid number (f w).
Proof.
  intros Ha Hs [H Hoff]. split; [apply listening_frame; assumption|].
  rewrite Ha. exact Hoff.
Qed.

(** removeAllListeners, on a socket that is not registered *)
Lemma listening_off_remove sid number w :
  listening_off env sid number w ->
  listening_off env sid number (with_sockets (alter (set_listeners []) sid) w).
Proof.
  intros Hw. pose proof (off_unregistered _ _ _ Hw) as Hu.
  destruct Hw as [(H1 & H2 & H3 & H4) Hoff]. split; [|exact Hoff].
  split; [apply sound_alter; [intros []; reflexivity | exact H1]|].
  split; [apply whole_alter; [intros s; right; reflexivity | exact H2]|].
  split; [apply socket_of_alter; [intros []; reflexivity | exact H3]|].
  intros Hb n conn Ha. cbn in Ha. destruct (H4 Hb n conn Ha) as (s & Hs & Hl).
  exists s. cbn. rewrite list_lookup_alter_ne; [split; assumption|].
  intros ->. apply (Hu n Ha).
Qed.

(** The number of a socket leaves the registry. *)
Lemma listening_leave sid number w :
  listening env (Some (sid, number)) w ->
  listening_off env sid number (with_activeSockets (delete (sanitizedNumber number)) w).
Proof.
  intros H. split; [apply listening_active_delete, H|].
  cbn. apply lookup_delete_eq.
Qed.

(** A statement after which more is known, followed by the rest. *)
Lemma preserves_shift {A} (P Q : World -> Prop) (f : World -> World) (k : Block World A) :
  (forall w, P w -> Q (f w)) -> preserves Q k -> (forall w, Q w -> P w) ->
  preserves P (modify f ;; k).
Proof. intros Hf Hk Hq w H. rewrite run_modify. apply Hq, Hk, Hf, H. Qed.

End Listening.

Ltac listening_modify :=
  first
    [ apply listening_frame; [reflexivity | reflexivity | assumption]
    | apply listening_alter; [intros []; reflexivity | intros []; reflexivity | assumption]
    | apply listening_active_delete; assumption
    | apply listening_off_frame; [reflexivity | reflexivity | assumption]
    | apply listening_off_remove; assumption ].

Ltac listening_step :=
  match goal with
  | |- forall _, _ => intro
  | |- preserves (listening ?env (Some (?sid, ?number)))
         (modify (with_activeSockets (delete (sanitizedNumber ?number))) ≫= _) =>
      apply (preserves_shift _ (listening_off env sid number));
        [apply listening_leave | | intros ? [? _]; assumption]
  | |- preserves _ (_ ≫= _) => apply preserves_bind
  | |- preserves _ (mret _) => apply preserves_ret
  | |- preserves _ return_ => apply preserves_return
  | |- preserves _ (throw _) => apply preserves_throw
  | |- preserves _ (gets _) => apply preserves_gets
  | |- preserves _ (ext _ _) => apply preserves_ext
  | |- preserves _ (when _ _) => apply preserves_when
  | |- preserves _ (try_catch _ _) => apply preserves_try_catch
  | |- preserves _ (call _) => apply preserves_call
  | |- preserves _ (inWorld _) => apply preserves_inWorld
  | |- preserves _ (unawaited _) =>
      apply preserves_unawaited; [intros ? ? ?; listening_modify|]
  | |- preserves _ (modify _) =>
      apply preserves_modify; intros ? ?; listening_modify
  | |- preserves _ (if ?b then _ else _) => destruct b
  | |- preserves _ (match ?x with _ => _ end) => destruct x
  end.

Ltac listening := repeat listening_step.

Section ListeningBlocks.

Variable env : Env.

Lemma listening_agree at_ w v :
  activeSockets v = activeSockets w ->
  sockets v = sockets w ->
  listening env at_ w -> listening env at_ v.
Proof. intros Ha Hs. apply (listening_frame env at_ (fun _ => v)); assumption. Qed.

(** A new socket is registered for its number. *)
Lemma listening_register at_ number new w :
  sock_number new = number ->
  sock_listeners new = pair_listeners \/
    (sock_listeners new = [] /\ fails env OpStoreBind <> None) ->
  listening env at_ w ->
  listening env at_
    (with_activeSockets <[sanitizedNumber number := length (sockets w)]>
       (with_socketCreationTime <[sanitizedNumber number := clock w]>
          (with_sockets (fun l => l ++ [new]) w))).
Proof.
  intros Hn Hl (H1 & H2 & H3 & H4). split; [|split; [|split]].
  - apply sound_with_register.
    split; [apply (sound_frame (with_socketCreationTime _)), sound_append, H1;
            reflexivity|].
    exists new. cbn. rewrite lookup_last. split; [reflexivity | exact Hn].
  - intros i s Hi. cbn in Hi. apply lookup_app_Some in Hi as [Hi|[_ Hi]].
    + apply (H2 i s Hi).
    + apply list_lookup_singleton_Some in Hi as [_ <-].
      destruct Hl as [Hl|[Hl _]]; [left | right]; exact Hl.
  - apply (socket_of_app at_ [new]) in H3. destruct at_ as [[i m]|]; [exact H3 | exact I].
  - intros Hb n conn Ha. cbn in Ha. cbn.
    apply lookup_insert_Some in Ha as [[_ <-]|[_ Ha]].
    + exists new. rewrite lookup_last. split; [reflexivity|].
      destruct Hl as [Hl|[_ Hf]]; [exact Hl | contradiction].
    + destruct (H4 Hb n conn Ha) as (s & Hs & Hls). exists s.
      split; [apply lookup_app_l_Some, Hs | exact Hls].
Qed.

(** What follows store.bind in inconnuboyPair cannot fail: the socket that
    was created last receives its eight listeners. *)
Lemma pair_tail_sockets (between : Block World unit) conn new ss w :
  sockets w = ss ++ [new] ->
  conn = length ss ->
  sock_listeners new = [] ->
  (forall v, exists v', between v = (Normal tt, v') /\ sockets v' = sockets v /\
     activeSockets v' = activeSockets v /\
     socketCreationTime v' = socketCreationTime v /\ clock v' = clock v) ->
  exists v,
    (ev_on conn LPresence ;;
     ev_on conn LAntiCall ;;
     ev_on conn LAutoRestart ;;
     between ;;
     ev_on conn LCredsUpdate ;;
     ev_on conn LConnection ;;
     ev_on conn LCall ;;
     ev_on conn LAntiDelete ;;
     ev_on conn LUpsert) w = (Normal tt, v) /\
    sockets v = ss ++ [set_listeners pair_listeners new] /\
    activeSockets v = activeSockets w /\
    socketCreationTime v = socketCreationTime w /\ clock v = clock w.
Proof.
  intros Hs -> Hn Hb. rewrite !ev_on_run.
  match goal with |- context [(between ≫= ?k) ?v0] =>
    destruct (Hb v0) as (v' & Hv & Hsv & Hav & Htv & Hcv); rewrite run_bind, Hv
  end.
  rewrite !ev_on_run. eexists. split; [reflexivity|].
  fields. rewrite Hsv, Hav, Htv, Hcv. fields. rewrite Hs, !alter_last.
  split; [|split; [|split]]; try reflexivity.
  unfold set_listeners. cbn. rewrite Hn. reflexivity.
Qed.

Lemma listening_pair_main at_ number res :
  preserves (listening env at_) (pair_main env number (sanitizedNumber number) res).
Proof.
  unfold pair_main, getSessionFromMongoDB. cbv zeta.
  apply preserves_bind; [listening|]. intros existingSession.
  apply preserves_bind; [unfold inconnuLog; listening|]. intros [].
  apply preserves_bind; [unfold useMultiFileAuthState; listening|]. intros state_creds.
  intros w H. unfold makeWASocket. rewrite run_assoc. unfold ext.
  destruct (fails env OpMakeSocket) as [e|]; [exact H|].
  rewrite run_ret, run_assoc, run_gets, run_assoc, run_modify, run_ret.
  rewrite !run_modify.
  set (new := {| sock_number := number;
                 sock_usePairingCode := negb (bool_decide (is_Some existingSession));
                 sock_creds := state_creds; sock_listeners := [];
                 sock_restartAttempts := 0; sock_wsClosed := false |}).
  match goal with |- listening _ _ (snd (_ ?v)) => set (w1 := v) end.
  destruct (fails env OpStoreBind) as [e|] eqn:Hb.
  - apply (listening_register at_ number new w); [reflexivity | | exact H].
    right. split; [reflexivity | congruence].
  - rewrite run_ret.
    match goal with |- context [ev_on _ LAutoRestart ;; ?b ;; _] =>
      destruct (pair_tail_sockets b (length (sockets w)) new (sockets w) w1)
        as (v & -> & Hv & Ha & Ht & Hc)
    end.
    + reflexivity.
    + reflexivity.
    + reflexivity.
    + intros v. destruct existingSession as [c|].
      * unfold res_json. destruct res as [i|].
        -- rewrite run_gets.
           destruct (canRespond (Some i) v); eexists; (split; [reflexivity|]); repeat split.
        -- eexists; (split; [reflexivity|]); repeat split.
      * eexists; (split; [reflexivity|]); repeat split.
    + cbn [snd].
      apply (listening_agree at_
               (with_activeSockets <[sanitizedNumber number := length (sockets w)]>
                  (with_socketCreationTime <[sanitizedNumber number := clock w]>
                     (with_sockets (fun l => l ++ [set_listeners pair_listeners new]) w)))).
      * rewrite Ha. reflexivity.
      * rewrite Hv. reflexivity.
      * apply listening_register; [reflexivity | left; reflexivity | exact H].
Qed.

Lemma listening_log at_ msg type : preserves (listening env at_) (inconnuLog msg type).
Proof. unfold inconnuLog. listening. Qed.

Lemma listening_pair at_ number res :
  preserves (listening env at_) (inconnuboyPair env number res).
Proof.
  intros w H. unfold inconnuboyPair.
  pose proof (preserves_call (fun f => listening env at_ (world f))
                (inconnuboyPair_block env number res)) as Hc.
  destruct (call (inconnuboyPair_block env number res)
                 {| world := w; connectionLockKey := None |}) as [c f] eqn:E.
  cbn. change f with (snd (c, f)). rewrite <- E. apply Hc; [|exact H].
  unfold inconnuboyPair_block. apply preserves_try_catch_finally.
  - apply preserves_bind; [|intros []; apply preserves_inWorld, listening_pair_main].
    unfold pair_prologue, set_connectionLockKey, respondAndReturn, res_json, inconnuLog.
    listening.
    all: try (apply preserves_modify; intros [w0 k0] H0; exact H0).
  - intros e. unfold pair_catch, respondAndReturn, res_json, inconnuLog. listening.
  - unfold pair_finally. listening.
Qed.

(** The listener of a socket removes its number from the registry before it
    removes the listeners. *)
Lemma listening_autoRestart socket number update :
  preserves (listening env (Some (socket, number)))
    (autoRestart_listener env socket number update).
Proof.
  unfold autoRestart_listener, deleteSessionFromMongoDB, removeNumberFromMongoDB,
    removeAllListeners, with_socket, schedule, inconnuLog.
  cbv zeta. listening.
Qed.

Lemma listening_reconnect at_ number : preserves (listening env at_) (reconnect env number).
Proof.
  unfold reconnect. listening; try apply listening_log. apply listening_pair.
Qed.

Lemma listening_connection at_ conn n existing user update :
  preserves (listening env at_) (connection_listener env conn n existing user update).
Proof.
  unfold connection_listener, user_id, addNumberToMongoDB, client_call, inconnuLog.
  listening.
Qed.

Lemma listening_creds at_ n creds : preserves (listening env at_) (creds_listener env n creds).
Proof. unfold creds_listener, saveSessionToMongoDB, inconnuLog. listening. Qed.

(** /disconnect removes the listeners of the socket that is registered for the
    number, and then the number. *)
Lemma listening_disconnect number res :
  preserves (listening env None) (disconnect env number res).
Proof.
  unfold disconnect. destruct number as [number|]; [|unfold res_status, res_json; listening].
  destruct (String.eqb_spec number "") as [->|Hne];
    [unfold res_status, res_json; listening|].
  assert (Hd : forall (A : Type) (x y : A),
             match number with "" => x | String _ _ => y end = y)
    by (intros A x y; destruct number; [contradiction | reflexivity]).
  rewrite Hd. cbv zeta. intros w H. rewrite run_gets.
  destruct (activeSockets w !! sanitizedNumber number) as [socket|] eqn:E;
    [|assert (Hp : preserves (listening env None)
                     (res_status res 404 ;; res_json res BNotFound ;; (return_ : Block World unit)))
        by (unfold res_status, res_json; listening);
      exact (Hp w H)].
  pose proof H as (Hreg & _).
  destruct (Hreg _ _ E) as (s & Hs & Hn).
  assert (Hh : forall e, preserves (listening env None)
            (inconnuLog ("Error disconnecting " +:+ sanitizedNumber number +:+ ": " +:+ e) error ;;
             res_status res 500 ;; res_json res BDisconnectFailed))
    by (unfold res_status, res_json, inconnuLog; listening).
  unfold try_catch, ws_close, ext.
  destruct (fails env OpWsClose) as [e|].
  - apply Hh, H.
  - rewrite run_assoc, run_ret. unfold removeAllListeners, with_socket.
    rewrite !run_modify.
    match goal with |- context [(?k ≫= _) ?v] =>
      match k with removeNumberFromMongoDB _ _ =>
        assert (Hv : listening env None v)
      end
    end.
    { apply listening_any with (at_ := Some (socket, sock_number s)).
      apply (listening_frame env _ (with_socketCreationTime _)); [reflexivity | reflexivity|].
      match goal with |- listening _ _ (with_activeSockets ?f (with_sockets ?g ?v)) =>
        change (listening env (Some (socket, sock_number s))
                  (with_sockets g (with_activeSockets f v)))
      end.
      rewrite <- Hn.
      apply (listening_off_remove env socket (sock_number s)), listening_leave.
      apply listening_alter; [intros []; reflexivity | intros []; reflexivity|].
      apply listening_of; assumption. }
    match goal with |- context [(?m) ?v] =>
      match m with (removeNumberFromMongoDB _ _ ≫= _) =>
        assert (Hm : preserves (listening env None) m)
          by (unfold removeNumberFromMongoDB, deleteSessionFromMongoDB, res_json, inconnuLog;
              listening);
        specialize (Hm v Hv); destruct (m v) as [[a| |e] v']; cbn in Hm |- *;
          [exact Hm | exact Hm | apply Hh, Hm]
      end
    end.
Qed.

Lemma listening_invoke at_ i cmd path ctx : preserves (listening env at_) (invoke i cmd path ctx).
Proof. unfold invoke. listening. Qed.

Lemma listening_presence at_ socket number msg :
  preserves (listening env at_) (presence_listener env socket number msg).
Proof.
  unfold presence_listener, getUserConfigFromMongoDB, client_call, inconnuLog. listening.
Qed.

Lemma listening_events at_ mek body ctx :
  preserves (listening env at_) (execute_events env mek body ctx).
Proof.
  unfold execute_events. generalize 0. induction (commands env) as [|c r IH]; intros i.
  - apply preserves_ret.
  - cbn [map_async]. listening; [|apply IH].
    unfold event_callback. listening; apply listening_invoke.
Qed.

Lemma listening_plugins at_ conn n from body isCmd isOwner ctx :
  preserves (listening env at_) (execute_plugins env conn n from body isCmd isOwner ctx).
Proof.
  unfold execute_plugins, incrementStats, client_call, inconnuLog. cbv zeta.
  listening; apply listening_invoke.
Qed.

Lemma listening_upsert at_ conn number n user mek :
  preserves (listening env at_) (upsert_listener env conn number n user mek).
Proof.
  unfold upsert_listener, status_handling, send_command, getUserConfigFromMongoDB,
    incrementStats, user_id, client_call, inconnuLog.
  cbv zeta. listening.
  all: first [apply listening_plugins | apply listening_events].
Qed.

Lemma listening_detached at_ (m : Block World unit) w :
  preserves (listening env at_) m -> listening env at_ w -> listening env at_ (detached m w).
Proof.
  intros Hm H. unfold detached, exec.
  apply (preserves_unawaited (listening env at_) m);
    [intros f w0 H0; listening_modify | exact Hm | exact H].
Qed.

Lemma listening_emit sid ev w : listening env None w -> listening env None (emit env sid ev w).
Proof.
  unfold emit. destruct (sockets w !! sid) as [s|] eqn:Es; [|auto].
  intros H. apply listening_any with (at_ := Some (sid, sock_number s)).
  apply (listening_of env sid s w Es) in H. clear Es.
  revert w H. induction (sock_listeners s) as [|l ls IH]; intros w H; [exact H|].
  cbn [foldl]. apply IH.
  destruct (listener_block env sid s ev l) as [m|] eqn:E; [|exact H].
  apply listening_detached; [|exact H].
  unfold listener_block in E.
  destruct ev, l; inversion E; subst;
    auto using listening_autoRestart, listening_connection, listening_presence,
      listening_upsert, listening_creds.
Qed.

Lemma listening_fire i w : listening env None w -> listening env None (fire env i w).
Proof.
  intros H. unfold fire. destruct (timers w !! i) as [t|]; [|exact H].
  apply listening_detached.
  - destruct (task t); cbn [run_task].
    + unfold pairing_timeout, schedule. listening.
    + unfold pairing_request, respondAndReturn, res_json, client_call, inconnuLog. listening.
    + apply listening_reconnect.
  - apply listening_frame; [reflexivity | reflexivity | exact H].
Qed.

Lemma listening_step r w : listening env None w -> listening env None (step env r w).
Proof.
  intros H. destruct r; cbn [step].
  - apply listening_detached; [|listening_modify].
    unfold code_route, res_json. listening. apply listening_pair.
  - apply listening_detached; [|listening_modify]. apply listening_disconnect.
  - apply listening_detached; [|exact H].
    unfold roster_connect. listening. apply listening_pair.
  - apply listening_emit, H.
  - apply listening_fire, H.
  - apply listening_frame; [reflexivity | reflexivity | exact H].
Qed.

Lemma listening_run rs w : listening env None w -> listening env None (run env rs w).
Proof.
  revert w. induction rs as [|r rs IH]; intros w H; [exact H|].
  apply IH, listening_step, H.
Qed.

Lemma listening_empty : listening env None emptyWorld.
Proof.
  split; [apply sound_empty|]. split; [intros sid s H; cbn in H; discriminate|].
  split; [exact I|]. intros _ n conn H. cbn in H. rewrite lookup_empty in H. discriminate.
Qed.

End ListeningBlocks.

(** X16: at every point the process can reach, a socket carries the eight
    listeners of inconnuboyPair, in the order in which they were attached, or
    none at all; and when store.bind cannot throw, every registered socket
    carries the eight. *)
Theorem registered_sockets_listen env rs :
  let W := run env rs emptyWorld in
  (forall sid s, sockets W !! sid = Some s ->
     sock_listeners s = pair_listeners \/ sock_listeners s = []) /\
  (fails env OpStoreBind = None ->
   forall n conn, activeSockets W !! n = Some conn ->
     exists s, sockets W !! conn = Some s /\ sock_listeners s = pair_listeners).
Proof.
  cbv zeta.
  destruct (listening_run env rs emptyWorld (listening_empty env)) as (_ & H2 & _ & H4).
  split; [exact H2 | exact H4].
Qed.

(** ** No request is answered twice *)

Lemma once_frame (f : World -> World) w :
  responses (f w) = responses w -> responses_sound w -> responses_sound (f w).
Proof. intros Hr H i r. rewrite Hr. apply H. Qed.

Lemma once_append x w :
  answered_once x ->
  responses_sound w -> responses_sound (with_responses (fun l => l ++ [x]) w).
Proof.
  intros Hx H i r Hi. cbn in Hi. apply lookup_app_Some in Hi as [Hi|[_ Hi]].
  - apply (H i r Hi).
  - destruct (i - length (responses w)) as [|k]; [|destruct k; discriminate].
    inversion Hi; subst. exact Hx.
Qed.

Lemma once_status code res w :
  responses_sound w -> responses_sound (with_responses (alter (status code) res) w).
Proof.
  intros H i r Hi. cbn in Hi.
  destruct (decide (res = i)) as [->|Hne].
  - rewrite list_lookup_alter_eq in Hi.
    destruct (responses w !! i) as [r0|] eqn:E; [|discriminate].
    inversion Hi; subst. exact (H i r0 E).
  - rewrite list_lookup_alter_ne in Hi by exact Hne. apply (H i r Hi).
Qed.

(** [res.json] on a response object that [headersSent] says is not
    answered. *)
Lemma once_json body res w :
  canRespond (Some res) w = true ->
  responses_sound w -> responses_sound (with_responses (alter (json body) res) w).
Proof.
  intros Hc H i r Hi. cbn in Hi. unfold canRespond in Hc.
  destruct (decide (res = i)) as [->|Hne].
  - rewrite list_lookup_alter_eq in Hi.
    destruct (responses w !! i) as [r0|] eqn:E; [|discriminate].
    inversion Hi; subst. intros Hm. cbn in Hm.
    destruct (H i r0 E Hm) as [[Hh Hs]|[Hh _]].
    + right. cbn. rewrite Hm, Hs. split; reflexivity.
    + rewrite Hh in Hc. discriminate.
  - rewrite list_lookup_alter_ne in Hi by exact Hne. apply (H i r Hi).
Qed.

Lemma once_respond res body : preserves responses_sound (respondAndReturn res body).
Proof.
  intros w H. rewrite respondAndReturn_run. cbn [snd]. unfold responded.
  destruct res as [i|]; [|exact H].
  destruct (canRespond (Some i) w) eqn:E; [|exact H]. apply once_json; assumption.
Qed.

Lemma once_maybe_json res body :
  preserves responses_sound
    (can ← gets (canRespond res);
     match res with
     | Some i => when can (res_json i body)
     | None => mret tt
     end).
Proof.
  intros w H. rewrite run_gets. destruct res as [i|]; [|exact H].
  destruct (canRespond (Some i) w) eqn:E; [|exact H]. apply once_json; assumption.
Qed.

Ltac answers_modify :=
  first
    [ apply once_frame; [reflexivity | assumption]
    | apply once_append; [intros _; left; split; reflexivity | assumption]
    | apply once_append; [intros Hm; discriminate | assumption] ].

Ltac answers_step :=
  match goal with
  | |- forall _, _ => intro
  | |- preserves _ (respondAndReturn _ _) => apply once_respond
  | |- preserves _ (gets (canRespond _) ≫= _) => apply once_maybe_json
  | |- preserves _ (_ ≫= _) => apply preserves_bind
  | |- preserves _ (mret _) => apply preserves_ret
  | |- preserves _ return_ => apply preserves_return
  | |- preserves _ (throw _) => apply preserves_throw
  | |- preserves _ (gets _) => apply preserves_gets
  | |- preserves _ (ext _ _) => apply preserves_ext
  | |- preserves _ (when _ _) => apply preserves_when
  | |- preserves _ (try_catch _ _) => apply preserves_try_catch
  | |- preserves _ (call _) => apply preserves_call
  | |- preserves _ (inWorld _) => apply preserves_inWorld
  | |- preserves responses_sound (unawaited _) =>
      apply preserves_unawaited; [intros ? ? ?; answers_modify|]
  | |- preserves responses_sound (modify _) =>
      apply preserves_modify; intros ? ?; answers_modify
  | |- preserves _ (if ?b then _ else _) => destruct b
  | |- preserves _ (match ?x with _ => _ end) => destruct x
  end.

Ltac answers := repeat answers_step.

Section AnsweredOnce.

Variable env : Env.

Lemma once_log msg type : preserves responses_sound (inconnuLog msg type).
Proof. unfold inconnuLog. answers. Qed.

Lemma once_pair number res : preserves responses_sound (inconnuboyPair env number res).
Proof.
  intros w Hw. unfold inconnuboyPair.
  pose proof (preserves_call (fun f => responses_sound (world f))
                (inconnuboyPair_block env number res)) as Hc.
  destruct (call (inconnuboyPair_block env number res)
                 {| world := w; connectionLockKey := None |}) as [c f] eqn:E.
  cbn. change f with (snd (c, f)). rewrite <- E. apply Hc; [|exact Hw].
  clear Hc E Hw.
  unfold inconnuboyPair_block. apply preserves_try_catch_finally.
  - unfold pair_prologue, pair_main, set_connectionLockKey, useMultiFileAuthState,
      makeWASocket, getSessionFromMongoDB, ev_on, with_socket, schedule, inconnuLog.
    cbv zeta. answers.
    all: try (apply preserves_modify; intros [w0 k0] H0; exact H0).
  - intros e. unfold pair_catch, inconnuLog. answers.
  - unfold pair_finally. answers.
Qed.

Lemma once_autoRestart socket number update :
  preserves responses_sound (autoRestart_listener env socket number update).
Proof.
  unfold autoRestart_listener, deleteSessionFromMongoDB, removeNumberFromMongoDB,
    removeAllListeners, with_socket, schedule, inconnuLog.
  cbv zeta. answers.
Qed.

Lemma once_reconnect number : preserves responses_sound (reconnect env number).
Proof.
  unfold reconnect. answers; try apply once_log. apply once_pair.
Qed.

Lemma once_connection conn n existing user update :
  preserves responses_sound (connection_listener env conn n existing user update).
Proof.
  unfold connection_listener, user_id, addNumberToMongoDB, client_call, inconnuLog. answers.
Qed.

Lemma once_creds n creds : preserves responses_sound (creds_listener env n creds).
Proof. unfold creds_listener, saveSessionToMongoDB, inconnuLog. answers. Qed.

Lemma once_invoke i cmd path ctx : preserves responses_sound (invoke i cmd path ctx).
Proof. unfold invoke. answers. Qed.

Lemma once_presence socket number msg :
  preserves responses_sound (presence_listener env socket number msg).
Proof.
  unfold presence_listener, getUserConfigFromMongoDB, client_call, inconnuLog. answers.
Qed.

Lemma once_events mek body ctx :
  preserves responses_sound (execute_events env mek body ctx).
Proof.
  unfold execute_events. generalize 0. induction (commands env) as [|c r IH]; intros i.
  - apply preserves_ret.
  - cbn [map_async]. answers; [|apply IH].
    unfold event_callback. answers; apply once_invoke.
Qed.

Lemma once_plugins conn n from body isCmd isOwner ctx :
  preserves responses_sound (execute_plugins env conn n from body isCmd isOwner ctx).
Proof.
  unfold execute_plugins, incrementStats, client_call, inconnuLog. cbv zeta.
  answers; apply once_invoke.
Qed.

Lemma once_upsert conn number n user mek :
  preserves responses_sound (upsert_listener env conn number n user mek).
Proof.
  unfold upsert_listener, status_handling, send_command, getUserConfigFromMongoDB,
    incrementStats, user_id, client_call, inconnuLog.
  cbv zeta. answers.
  all: first [apply once_plugins | apply once_events].
Qed.

Lemma once_detached (m : Block World unit) w :
  preserves responses_sound m -> responses_sound w -> responses_sound (detached m w).
Proof.
  intros Hm H. unfold detached, exec.
  apply (preserves_unawaited responses_sound m);
    [intros f w0 H0; answers_modify | exact Hm | exact H].
Qed.

Lemma once_emit sid ev w : responses_sound w -> responses_sound (emit env sid ev w).
Proof.
  unfold emit. destruct (sockets w !! sid) as [s|]; [|auto].
  revert w. induction (sock_listeners s) as [|l ls IH]; intros w H; [exact H|].
  cbn [foldl]. apply IH.
  destruct (listener_block env sid s ev l) as [m|] eqn:E; [|exact H].
  apply once_detached; [|exact H].
  unfold listener_block in E.
  destruct ev, l; inversion E; subst;
    auto using once_autoRestart, once_connection, once_presence, once_upsert, once_creds.
Qed.

Lemma once_fire i w : responses_sound w -> responses_sound (fire env i w).
Proof.
  intros H. unfold fire. destruct (timers w !! i) as [t|]; [|exact H].
  apply once_detached.
  - destruct (task t); cbn [run_task].
    + unfold pairing_timeout, schedule. answers.
    + unfold pairing_request, client_call, inconnuLog. answers.
    + apply once_reconnect.
  - apply (once_frame (fun w => with_timers (delete i) (with_clock (Z.max (due t)) w)));
      [reflexivity | exact H].
Qed.

(** What a route leaves behind that answers, once, a response object which
    was not answered before. *)
Lemma once_answer (W : World) res w :
  responses_sound w ->
  canRespond (Some res) w = true ->
  (exists code body,
     responses W = alter (json body) res (alter (status code) res (responses w)) \/
     responses W = alter (json body) res (responses w)) ->
  responses_sound W.
Proof.
  intros H Hc (code & body & [Hr|Hr]).
  - apply (once_frame (fun _ => W)
             (with_responses (alter (json body) res)
                (with_responses (alter (status code) res) w))); [exact Hr|].
    apply once_json; [|apply once_status, H].
    unfold canRespond in *. cbn. rewrite list_lookup_alter_eq.
    destruct (responses w !! res) as [r|]; [exact Hc | discriminate].
  - apply (once_frame (fun _ => W) (with_responses (alter (json body) res) w)); [exact Hr|].
    apply once_json; assumption.
Qed.

Lemma disconnect_responses number res w :
  exists code body,
    responses (exec (disconnect env number res) w) =
      alter (json body) res (alter (status code) res (responses w)) \/
    responses (exec (disconnect env number res) w) = alter (json body) res (responses w).
Proof.
  unfold exec, disconnect.
  destruct number as [[|c0 n0]|].
  - exists 400, BNumberRequired. left. reflexivity.
  - cbv zeta. rewrite run_gets.
    destruct (activeSockets w !! sanitizedNumber (String c0 n0)) as [socket|].
    + unfold try_catch, ws_close, removeAllListeners, with_socket, removeNumberFromMongoDB,
        deleteSessionFromMongoDB, res_json, res_status.
      destruct (fails env OpWsClose) as [e1|] eqn:E1.
      { exists 500, BDisconnectFailed. left.
        rewrite run_assoc, (run_ext_fail env OpWsClose e1) by exact E1.
        run_block. reflexivity. }
      destruct (fails env OpRemoveNumber) as [e2|] eqn:E2.
      { exists 500, BDisconnectFailed. left. run_block.
        rewrite (run_ext_fail env OpRemoveNumber e2) by exact E2.
        run_block. reflexivity. }
      destruct (fails env OpDeleteSession) as [e3|] eqn:E3.
      { exists 500, BDisconnectFailed. left. run_block.
        rewrite (run_ext_fail env OpDeleteSession e3) by exact E3.
        run_block. reflexivity. }
      exists 200, BDisconnected. right. run_block. reflexivity.
    + exists 404, BNotFound. left. reflexivity.
  - exists 400, BNumberRequired. left. reflexivity.
Qed.

Lemma fresh_can_respond w :
  canRespond (Some (length (responses w)))
    (with_responses (fun l => l ++ [freshRes]) w) = true.
Proof. unfold canRespond. fields. rewrite lookup_last. reflexivity. Qed.

Lemma once_fresh w :
  responses_sound w -> responses_sound (with_responses (fun l => l ++ [freshRes]) w).
Proof. intros H. apply once_append; [|exact H]. intros _. left. split; reflexivity. Qed.

Lemma detached_responses (m : Block World unit) w :
  responses (detached m w) = responses (exec m w).
Proof. unfold detached, exec, unawaited. destruct (m w) as [[a| |e] w']; reflexivity. Qed.

Lemma once_step r w : responses_sound w -> responses_sound (step env r w).
Proof.
  intros H. destruct r; cbn [step].
  - rewrite with_fresh_res_run. unfold code_route.
    destruct number as [[|c0 n0]|].
    + apply (once_answer _ (length (responses w))
               (with_responses (fun l => l ++ [freshRes]) w));
        [apply once_fresh, H | apply fresh_can_respond|].
      exists 200, BNumberRequired. right. reflexivity.
    + apply once_detached; [apply once_pair | apply once_fresh, H].
    + apply (once_answer _ (length (responses w))
               (with_responses (fun l => l ++ [freshRes]) w));
        [apply once_fresh, H | apply fresh_can_respond|].
      exists 200, BNumberRequired. right. reflexivity.
  - rewrite with_fresh_res_run.
    apply (once_answer _ (length (responses w))
             (with_responses (fun l => l ++ [freshRes]) w));
      [apply once_fresh, H | apply fresh_can_respond|].
    rewrite detached_responses. apply disconnect_responses.
  - apply once_detached; [|exact H].
    unfold roster_connect. answers. apply once_pair.
  - apply once_emit, H.
  - apply once_fire, H.
  - exact H.
Qed.

Lemma once_run rs w : responses_sound w -> responses_sound (run env rs w).
Proof.
  revert w. induction rs as [|r rs IH]; intros w H; [exact H|].
  apply IH, once_step, H.
Qed.

End AnsweredOnce.

(** X3: at every point the process can reach, no response object of a request has
    been answered more than once, and [headersSent] is set on those that have
    been answered and on no other. *)
Theorem requests_answered_once env rs i r :
  responses (run env rs emptyWorld) !! i = Some r ->
  res_mock r = false ->
  length (res_sent r) <= 1 /\
  (res_headersSent r = true <-> res_sent r <> []).
Proof.
  intros Hi Hm.
  assert (H : responses_sound (run env rs emptyWorld)).
  { apply once_run. intros j x Hj. cbn in Hj. discriminate. }
  destruct (H i r Hi Hm) as [[Hh Hs]|[Hh Hs]].
  - rewrite Hs, Hh. cbn. split; [lia|]. split; [discriminate | congruence].
  - rewrite Hs, Hh. split; [lia|]. split; [|reflexivity].
    intros _ E. rewrite E in Hs. discriminate.
Qed.

(** ** Calls of inconnuboyPair for a registered number *)

Section Connect.

Variable env : Env.

(** X5: a call of inconnuboyPair for a number that is registered changes
    nothing but the log and the response object: no socket, no timer, no write
    to the registry, the lock or the store; a response object that has not
    been answered receives 'already_connected' with the connection time and
    the uptime that getConnectionStatus reports. *)
Theorem connect_when_registered_changes_nothing number res w :
  let w' := exec (inconnuboyPair env number res) w in
  let st := getConnectionStatus number w in
  is_Some (activeSockets w !! sanitizedNumber number) ->
  activeSockets w' = activeSockets w /\
  socketCreationTime w' = socketCreationTime w /\
  globals w' = globals w /\
  mongoSessions w' = mongoSessions w /\
  mongoNumbers w' = mongoNumbers w /\
  localFs w' = localFs w /\
  sockets w' = sockets w /\
  timers w' = timers w /\
  (forall i r, res = Some i -> responses w !! i = Some r -> res_headersSent r = false ->
     responses w' !! i =
       Some (json (BAlreadyConnected (connectionTime st) (uptime st)) r)).
Proof.
  cbv zeta. intros Hc. unfold exec.
  rewrite (inconnuboyPair_connected env number res w Hc). cbn [snd].
  match goal with |- context [responded res ?b ?w0] =>
    destruct (responded_else res b w0) as (Ra & Rt & Rg & Rm & Rn & Rl & Rs & Rti & _)
  end.
  rewrite Ra, Rt, Rg, Rm, Rn, Rl, Rs, Rti.
  repeat split.
  intros i r -> Hi Hsent. unfold responded, canRespond. fields.
  rewrite Hi, Hsent. cbn [negb]. fields. rewrite list_lookup_alter_eq, Hi.
  unfold getConnectionStatus. cbv zeta. rewrite sanitizedNumber_idem. reflexivity.
Qed.

Lemma pair_main_unhandled number n res U :
  preserves (fun w => unhandled w = U) (pair_main env number n res).
Proof.
  unfold pair_main, getSessionFromMongoDB, useMultiFileAuthState, makeWASocket,
    ev_on, with_socket, schedule, res_json, inconnuLog.
  cbv zeta. unchanged.
Qed.

Lemma inconnuboyPair_unhandled number res U :
  preserves (fun w => unhandled w = U) (inconnuboyPair env number res).
Proof.
  intros w Hw. unfold inconnuboyPair.
  pose proof (preserves_call (fun f => unhandled (world f) = U)
                (inconnuboyPair_block env number res)) as Hc.
  destruct (call (inconnuboyPair_block env number res)
                 {| world := w; connectionLockKey := None |}) as [c f] eqn:E.
  cbn. change f with (snd (c, f)). rewrite <- E. apply Hc; [|exact Hw].
  clear Hc E Hw.
  unfold inconnuboyPair_block. apply preserves_try_catch_finally.
  - apply preserves_bind.
    + unfold pair_prologue, set_connectionLockKey, respondAndReturn, res_json, inconnuLog.
      repeat first
        [ match goal with
          | |- preserves (fun f => unhandled (world f) = ?V) (inWorld _) =>
              apply (preserves_inWorld (fun w => unhandled w = V))
          end
        | unchanged_step ].
    + intros []. apply (preserves_inWorld (fun w => unhandled w = U)), pair_main_unhandled.
  - intros e. apply (preserves_inWorld (fun w => unhandled w = U)).
    unfold pair_catch, respondAndReturn, res_json, inconnuLog. unchanged.
  - unfold pair_finally.
    repeat first
      [ match goal with
        | |- preserves (fun f => unhandled (world f) = ?V) (inWorld _) =>
            apply (preserves_inWorld (fun w => unhandled w = V))
        end
      | unchanged_step ].
Qed.

Lemma inconnuboyPair_normal number res w :
  fst (inconnuboyPair env number res w) = Normal tt.
Proof.
  unfold inconnuboyPair, call, inconnuboyPair_block, try_catch_finally, try_catch.
  destruct ((pair_prologue (sanitizedNumber number) res ;;
             inWorld (pair_main env number (sanitizedNumber number) res))
              {| world := w; connectionLockKey := None |}) as [[[]| |e] f1].
  - unfold pair_finally. rewrite run_gets.
    destruct (connectionLockKey f1) as [k|]; [destruct (Js.truthy k)|]; reflexivity.
  - unfold pair_finally. rewrite run_gets.
    destruct (connectionLockKey f1) as [k|]; [destruct (Js.truthy k)|]; reflexivity.
  - rewrite inWorld_run. unfold pair_catch. rewrite run_log, respondAndReturn_run.
    cbn [fst snd]. unfold pair_finally. rewrite run_gets. cbn [connectionLockKey].
    destruct (canRespond res _);
      destruct (connectionLockKey f1) as [k|]; try destruct (Js.truthy k); reflexivity.
Qed.

(** X4: inconnuboyPair called with a string never throws and never leaves a
    rejection behind, whatever its collaborators do: every exception is
    caught inside. Called with anything else it throws before its [try],
    at line 274, and changes nothing; so /code with a number that the query
    parser made an array or an object is never answered and leaves an
    unhandled rejection. *)
Theorem connect_rejects_only_without_string number res w :
  (forall s, number = Text s ->
     fst (inconnuboyPair_query env number res w) = Normal tt /\
     unhandled (exec (inconnuboyPair_query env number res) w) = unhandled w) /\
  ((forall s, number <> Text s) ->
     inconnuboyPair_query env number res w = (Thrown (notAString number), w)) /\
  (let w' := with_fresh_res (code_query env Parsed) w in
   (res_sent <$> (responses w' !! length (responses w))) = Some [] /\
   unhandled w' = unhandled w ++ ["number.replace is not a function"] /\
   activeSockets w' = activeSockets w /\
   sockets w' = sockets w /\
   timers w' = timers w).
Proof.
  split; [|split].
  - intros s ->. cbn [inconnuboyPair_query]. split.
    + apply inconnuboyPair_normal.
    + apply (inconnuboyPair_unhandled s res (unhandled w) w). reflexivity.
  - intros Hn. destruct number as [|s|]; [reflexivity | | reflexivity].
    exfalso. apply (Hn s). reflexivity.
  - cbv zeta. rewrite with_fresh_res_run. cbn. rewrite lookup_last. repeat split.
Qed.

(** X15: the loops of /connect-all and of the reconnection at start-up never
    create a second socket for a number that is registered, also when the
    roster holds the number in a form that is not sanitized: the sockets, the
    registry, the timers and the store are left as they are. *)
Theorem roster_connect_no_second_socket number w :
  let w' := step env (RosterConnect number) w in
  is_Some (activeSockets w !! sanitizedNumber number) ->
  sockets w' = sockets w /\
  activeSockets w' = activeSockets w /\
  socketCreationTime w' = socketCreationTime w /\
  timers w' = timers w /\
  mongoSessions w' = mongoSessions w /\
  mongoNumbers w' = mongoNumbers w.
Proof.
  cbv zeta. intros Hc. cbn [step]. unfold detached, exec, unawaited, roster_connect.
  rewrite run_gets.
  destruct (bool_decide (is_Some (activeSockets w !! number))); [repeat split|].
  rewrite run_gets, run_modify.
  rewrite (inconnuboyPair_connected env number _
             (with_responses (fun l => l ++ [mockRes]) w) Hc).
  cbn [snd].
  match goal with |- context [responded ?res ?b ?w0] =>
    destruct (responded_else res b w0) as (Ra & Rt & _ & Rm & Rn & _ & Rs & Rti & _)
  end.
  rewrite Ra, Rt, Rm, Rn, Rs, Rti. repeat split.
Qed.

End Connect.

Section Failures.

Variable env : Env.

(** The call as a whole, when it takes the lock and its main part throws. *)
Lemma inconnuboyPair_throws number res w W e :
  activeSockets w !! sanitizedNumber number = None ->
  global_truthy (connectionLockKeyOf (sanitizedNumber number)) w = false ->
  pair_main env number (sanitizedNumber number) res
    (with_globals <[connectionLockKeyOf (sanitizedNumber number) := true]> w) = (Thrown e, W) ->
  inconnuboyPair env number res w =
    (Normal tt,
     with_globals <[connectionLockKeyOf (sanitizedNumber number) := false]>
       (responded res (BInternalServerError e)
          (with_logs (fun l => l ++ [(error, "InconnuboyPair error: " +:+ e)]) W))).
Proof.
  intros Hc Hh Hm. rewrite (inconnuboyPair_acquired env number res w Hc Hh).
  unfold call, try_catch. rewrite Hm. unfold pair_catch.
  rewrite run_log, respondAndReturn_run.
  destruct (canRespond res _); reflexivity.
Qed.

(** The main part of inconnuboyPair when makeWASocket throws. *)
Lemma pair_main_socket_fails number res w e :
  let n := sanitizedNumber number in
  fails env OpGetSession = None ->
  fails env OpFsWrite = None ->
  fails env OpFsRemove = None ->
  fails env OpAuthState = None ->
  fails env OpMakeSocket = Some e ->
  exists W,
    pair_main env number n res w = (Thrown e, W) /\
    activeSockets W = activeSockets w /\
    socketCreationTime W = socketCreationTime w /\
    sockets W = sockets w /\
    timers W = timers w /\
    responses W = responses w /\
    globals W = globals w /\
    mongoSessions W = mongoSessions w /\
    mongoNumbers W = mongoNumbers w.
Proof.
  intros n H1 H2 H3 H4 H5.
  unfold pair_main, getSessionFromMongoDB, useMultiFileAuthState, makeWASocket.
  cbv zeta. run_block.
  destruct (mongoSessions w !! n) as [creds|].
  - run_block. rewrite lookup_insert_eq. run_block.
    rewrite (run_ext_fail env OpMakeSocket e) by exact H5.
    eexists. split; [reflexivity|]. repeat split.
  - run_block.
    destruct (localFs w !! sessionDirOf n) as [stale|] eqn:El.
    + rewrite (bool_decide_eq_true_2 (is_Some (Some stale))) by eauto. run_block.
      rewrite lookup_delete_eq. run_block.
      rewrite (run_ext_fail env OpMakeSocket e) by exact H5.
      eexists. split; [reflexivity|]. repeat split.
    + rewrite (bool_decide_eq_false_2 (is_Some None)) by (intros [? ?]; discriminate).
      run_block. rewrite El. run_block.
      rewrite (run_ext_fail env OpMakeSocket e) by exact H5.
      eexists. split; [reflexivity|]. repeat split.
Qed.

(** X6: when makeWASocket throws, the call ends normally all the same: nothing
    is registered, no socket and no timer is added, the error is written to
    the log, a response object that has not been answered receives 'Internal
    Server Error' with the message of the exception, and the lock is
    false. *)
Theorem connect_failure_registers_nothing number res w e :
  let n := sanitizedNumber number in
  let w' := exec (inconnuboyPair env number res) w in
  activeSockets w !! n = None ->
  global_truthy (connectionLockKeyOf n) w = false ->
  fails env OpGetSession = None ->
  fails env OpFsWrite = None ->
  fails env OpFsRemove = None ->
  fails env OpAuthState = None ->
  fails env OpMakeSocket = Some e ->
  fst (inconnuboyPair env number res w) = Normal tt /\
  activeSockets w' = activeSockets w /\
  socketCreationTime w' = socketCreationTime w /\
  sockets w' = sockets w /\
  timers w' = timers w /\
  mongoSessions w' = mongoSessions w /\
  mongoNumbers w' = mongoNumbers w /\
  global_truthy (connectionLockKeyOf n) w' = false /\
  (exists l, logs w' = l ++ [(error, "InconnuboyPair error: " +:+ e)]) /\
  (forall i r, res = Some i -> responses w !! i = Some r -> res_headersSent r = false ->
     responses w' !! i = Some (json (BInternalServerError e) r)).
Proof.
  cbv zeta. intros Hc Hh H1 H2 H3 H4 H5.
  destruct (pair_main_socket_fails number res
              (with_globals <[connectionLockKeyOf (sanitizedNumber number) := true]> w) e
              H1 H2 H3 H4 H5)
    as (W & Hrun & Ha & Ht & Hs & Hti & Hr & Hg & Hm & Hn).
  unfold exec. rewrite (inconnuboyPair_throws number res w W e Hc Hh Hrun).
  cbn [fst snd].
  match goal with |- context [responded res ?b ?w0] =>
    destruct (responded_else res b w0) as (Ra & Rt & Rg & Rm & Rn & Rl & Rs & Rti & Rc)
  end.
  fields. rewrite Ra, Rt, Rm, Rn, Rs, Rti. fields.
  repeat split; try assumption.
  - unfold global_truthy. fields. rewrite lookup_insert_eq. reflexivity.
  - unfold responded. destruct res as [i|]; [destruct (canRespond _ _)|]; fields; eauto.
  - intros i r -> Hi Hsent. unfold responded, canRespond. fields.
    rewrite Hr. fields. rewrite Hi, Hsent. cbn [negb]. fields.
    rewrite Hr. fields. rewrite list_lookup_alter_eq, Hi. reflexivity.
Qed.

(** The main part of inconnuboyPair when store.bind throws. *)
Lemma pair_main_bind_fails number res w e :
  let n := sanitizedNumber number in
  fails env OpGetSession = None ->
  fails env OpFsWrite = None ->
  fails env OpFsRemove = None ->
  fails env OpAuthState = None ->
  fails env OpMakeSocket = None ->
  fails env OpStoreBind = Some e ->
  exists W,
    pair_main env number n res w = (Thrown e, W) /\
    sockets W = sockets w ++
      [{| sock_number := number;
          sock_usePairingCode := negb (bool_decide (is_Some (mongoSessions w !! n)));
          sock_creds := mongoSessions w !! n; sock_listeners := [];
          sock_restartAttempts := 0; sock_wsClosed := false |}] /\
    activeSockets W = <[n := length (sockets w)]> (activeSockets w) /\
    socketCreationTime W = <[n := clock w]> (socketCreationTime w) /\
    timers W = timers w /\
    responses W = responses w /\
    globals W = globals w /\
    clock W = clock w.
Proof.
  intros n H1 H2 H3 H4 H5 H6.
  unfold pair_main, getSessionFromMongoDB, useMultiFileAuthState, makeWASocket.
  cbv zeta. run_block.
  destruct (mongoSessions w !! n) as [creds|].
  - run_block. rewrite lookup_insert_eq. run_block.
    rewrite (run_ext_fail env OpStoreBind e) by exact H6.
    eexists. split; [reflexivity|]. repeat split.
  - run_block.
    destruct (localFs w !! sessionDirOf n) as [stale|] eqn:El.
    + rewrite (bool_decide_eq_true_2 (is_Some (Some stale))) by eauto. run_block.
      rewrite lookup_delete_eq. run_block.
      rewrite (run_ext_fail env OpStoreBind e) by exact H6.
      eexists. split; [reflexivity|]. repeat split.
    + rewrite (bool_decide_eq_false_2 (is_Some None)) by (intros [? ?]; discriminate).
      run_block. rewrite El. run_block.
      rewrite (run_ext_fail env OpStoreBind e) by exact H6.
      eexists. split; [reflexivity|]. repeat split.
Qed.

(** X7: when store.bind throws, the socket has been registered already and
    stays so: the number is a key of activeSockets for a socket without any
    listener, the request is answered 'Internal Server Error', and the next
    call for the number creates nothing and answers 'already_connected'. *)
Theorem bind_failure_leaves_registration number res res' w e :
  let n := sanitizedNumber number in
  let conn := length (sockets w) in
  let w' := exec (inconnuboyPair env number res) w in
  let w'' := exec (inconnuboyPair env number res') w' in
  activeSockets w !! n = None ->
  global_truthy (connectionLockKeyOf n) w = false ->
  fails env OpGetSession = None ->
  fails env OpFsWrite = None ->
  fails env OpFsRemove = None ->
  fails env OpAuthState = None ->
  fails env OpMakeSocket = None ->
  fails env OpStoreBind = Some e ->
  activeSockets w' !! n = Some conn /\
  (sock_listeners <$> (sockets w' !! conn)) = Some [] /\
  global_truthy (connectionLockKeyOf n) w' = false /\
  (forall i r, res = Some i -> responses w !! i = Some r -> res_headersSent r = false ->
     responses w' !! i = Some (json (BInternalServerError e) r)) /\
  sockets w'' = sockets w' /\
  (forall i r, res' = Some i -> responses w' !! i = Some r -> res_headersSent r = false ->
     exists connectionTime uptime,
       responses w'' !! i = Some (json (BAlreadyConnected connectionTime uptime) r)).
Proof.
  cbv zeta. intros Hc Hh H1 H2 H3 H4 H5 H6.
  destruct (pair_main_bind_fails number res
              (with_globals <[connectionLockKeyOf (sanitizedNumber number) := true]> w) e
              H1 H2 H3 H4 H5 H6)
    as (W & Hrun & Hs & Ha & Ht & Hti & Hr & Hg & Hcl).
  assert (E : exec (inconnuboyPair env number res) w =
              with_globals <[connectionLockKeyOf (sanitizedNumber number) := false]>
                (responded res (BInternalServerError e)
                   (with_logs (fun l => l ++ [(error, "InconnuboyPair error: " +:+ e)]) W))).
  { unfold exec. rewrite (inconnuboyPair_throws number res w W e Hc Hh Hrun). reflexivity. }
  rewrite E. clear E.
  set (w' := with_globals _ _).
  assert (Ha' : activeSockets w' !! sanitizedNumber number = Some (length (sockets w))).
  { subst w'.
    match goal with |- context [responded res ?b ?w0] =>
      destruct (responded_else res b w0) as (Ra & _)
    end.
    fields. rewrite Ra. fields. rewrite Ha. fields. apply lookup_insert_eq. }
  assert (Hs' : sockets w' = sockets W).
  { subst w'.
    match goal with |- context [responded res ?b ?w0] =>
      destruct (responded_else res b w0) as (_ & _ & _ & _ & _ & _ & Rs & _)
    end.
    fields. rewrite Rs. reflexivity. }
  split; [exact Ha'|]. split.
  { rewrite Hs', Hs. fields. rewrite lookup_last. reflexivity. }
  split.
  { subst w'. unfold global_truthy. fields. rewrite lookup_insert_eq. reflexivity. }
  split.
  { intros i r -> Hi Hsent. subst w'. unfold responded, canRespond. fields.
    rewrite Hr. fields. rewrite Hi, Hsent. cbn [negb]. fields.
    rewrite Hr. fields. rewrite list_lookup_alter_eq, Hi. reflexivity. }
  assert (Hc' : is_Some (activeSockets w' !! sanitizedNumber number)) by eauto.
  unfold exec. rewrite (inconnuboyPair_connected env number res' w' Hc'). cbn [snd].
  split.
  { match goal with |- context [responded res' ?b ?w0] =>
      destruct (responded_else res' b w0) as (_ & _ & _ & _ & _ & _ & Rs & _)
    end.
    rewrite Rs. reflexivity. }
  intros i r -> Hi Hsent. eexists _, _. unfold responded, canRespond. fields.
  rewrite Hi, Hsent. cbn [negb]. fields. rewrite list_lookup_alter_eq, Hi. reflexivity.
Qed.

End Failures.

Section PairingFailure.

Variable env : Env.

(** X8: when the request of the pairing code throws, the callback of the timer
    catches it: the error is written to the log, a response object that has
    not been answered receives 'Failed to generate pairing code' with the
    message of the exception, no rejection is left unhandled, and the socket
    stays registered. *)
Theorem pairing_code_failure_answered w l t conn n res e :
  timers w = l ++ [{| due := t; task := TPairingRequest conn n res |}] ->
  fails env OpRequestPairingCode = Some e ->
  let w' := fire env (length l) w in
  timers w' = l /\
  unhandled w' = unhandled w /\
  outbox w' = outbox w /\
  activeSockets w' = activeSockets w /\
  socketCreationTime w' = socketCreationTime w /\
  sockets w' = sockets w /\
  (exists entries, logs w' = entries ++ [(error, "Pairing Error: " +:+ e)]) /\
  (forall i r, res = Some i -> responses w !! i = Some r -> res_headersSent r = false ->
     responses w' !! i = Some (json (BPairingFailed e) r)).
Proof.
  intros Ht Hf. cbv zeta. unfold fire. rewrite Ht, lookup_last. cbn [task due run_task].
  unfold pairing_request, client_call, detached, exec, unawaited, try_catch.
  rewrite run_assoc, (run_ext_fail env OpRequestPairingCode e) by exact Hf.
  rewrite run_log, respondAndReturn_run.
  match goal with |- context [responded res ?b ?w0] =>
    destruct (responded_else res b w0) as (Ra & Rt & _ & _ & _ & _ & Rs & Rti & _)
  end.
  assert (Hu : forall b w0, unhandled (responded res b w0) = unhandled w0).
  { intros b w0. unfold responded. destruct res as [i|]; [destruct (canRespond _ _)|];
      reflexivity. }
  assert (Ho : forall b w0, outbox (responded res b w0) = outbox w0).
  { intros b w0. unfold responded. destruct res as [i|]; [destruct (canRespond _ _)|];
      reflexivity. }
  assert (Hl : forall b w0, logs (responded res b w0) = logs w0).
  { intros b w0. unfold responded. destruct res as [i|]; [destruct (canRespond _ _)|];
      reflexivity. }
  destruct (canRespond res _) eqn:Ec; cbn [snd];
    rewrite Ra, Rt, Rs, Rti, Hu, Ho, Hl; fields; rewrite Ht, delete_last.
  all: repeat split; eauto.
  - intros i r -> Hi Hs. unfold responded. rewrite Ec. fields.
    rewrite list_lookup_alter_eq, Hi. reflexivity.
  - intros i r -> Hi Hs. unfold canRespond in Ec. fields_in Ec.
    rewrite Hi, Hs in Ec. discriminate.
Qed.

End PairingFailure.

Section OpenEvents.

Variable env : Env.

Lemma autoRestart_open socket number update w :
  connection update = Some ConnOpen ->
  autoRestart_listener env socket number update w =
    (Normal tt,
     with_sockets (alter (set_restartAttempts 0) socket)
       (with_logs (fun l =>
          (l ++ [(debug, "Connection update for " +:+ number)]) ++
          [(success, "Connection established for " +:+ number)]) w)).
Proof.
  intros Hc. unfold autoRestart_listener, with_socket. rewrite Hc. reflexivity.
Qed.

Lemma connection_listener_open conn n existing id update w :
  connection update = Some ConnOpen ->
  fails env OpAddNumber = None ->
  fails env OpSendMessage = None ->
  connection_listener env conn n existing (Some id) update w =
    (Normal tt,
     with_logs (fun l => l ++ [(success, n +:+ " successfully connected!")])
       (with_outbox (fun l => l ++ (if existing then []
                                    else [(conn, CWelcome (jidNormalizedUser env id))]))
          (with_mongoNumbers (fun r => {[n]} ∪ r)
             (with_logs (fun l => l ++ [(success, "Connected: " +:+ n)]) w)))).
Proof.
  intros Hc Ha Hs. unfold connection_listener, addNumberToMongoDB, client_call, ext.
  rewrite Hc, Ha, Hs. destruct existing; cbn; [|reflexivity].
  unfold with_outbox. cbn. rewrite app_nil_r. reflexivity.
Qed.

(** X9: when a socket that inconnuboyPair set up reports 'open', its number is
    added to the roster, its retry counter is 0, the welcome message is sent
    to jidNormalizedUser of the user of the socket when the socket was created
    for a new pairing and only then, and the registry and the timers are as
    before. *)
Theorem open_adds_to_roster sid s id update w :
  sockets w !! sid = Some s ->
  sock_listeners s = pair_listeners ->
  connection update = Some ConnOpen ->
  fails env OpAddNumber = None ->
  fails env OpSendMessage = None ->
  let n := sanitizedNumber (sock_number s) in
  let w' := emit env sid (ConnectionUpdate (Some id) update) w in
  mongoNumbers w' = {[n]} ∪ mongoNumbers w /\
  restartAttempts sid w' = 0 /\
  outbox w' = outbox w ++
    (if sock_usePairingCode s then [(sid, CWelcome (jidNormalizedUser env id))] else []) /\
  activeSockets w' = activeSockets w /\
  socketCreationTime w' = socketCreationTime w /\
  mongoSessions w' = mongoSessions w /\
  timers w' = timers w /\
  unhandled w' = unhandled w.
Proof.
  intros Hs Hl Hc Ha Hm. cbv zeta.
  rewrite (emit_connection_update env sid s (Some id) update w Hs Hl).
  unfold detached, exec, unawaited.
  rewrite (autoRestart_open sid (sock_number s) update w Hc). cbn [snd].
  rewrite (connection_listener_open sid _ _ id update _ Hc Ha Hm). cbn [snd]. fields.
  repeat split.
  - unfold restartAttempts. fields. rewrite list_lookup_alter_eq, Hs. reflexivity.
  - destruct (sock_usePairingCode s); reflexivity.
Qed.

End OpenEvents.

Section Flows.

Variable env : Env.

(** The listener of 'creds.update' of a socket that was set up to the end. *)
Lemma emit_creds_update sid s creds w :
  sockets w !! sid = Some s ->
  sock_listeners s = pair_listeners ->
  fails env OpSaveCreds = None ->
  fails env OpSaveSession = None ->
  emit env sid (CredsUpdate creds) w =
    with_logs (fun l => l ++ [(success, "Session updated in MongoDB for " +:+
                                          sanitizedNumber (sock_number s))])
      (with_mongoSessions <[sanitizedNumber (sock_number s) := creds]>
         (with_localFs <[sessionDirOf (sanitizedNumber (sock_number s)) := Some creds]> w)).
Proof.
  intros Hs Hl H1 H2. unfold emit. rewrite Hs, Hl. cbn [foldl pair_listeners listener_block].
  unfold detached, exec, unawaited, creds_listener, saveSessionToMongoDB, ext.
  rewrite H1, H2. reflexivity.
Qed.

(** The two listeners of 'connection.update' on a closure that is neither a
    manual unlink nor an expected one, while the counter is below the
    maximum. *)
Lemma emit_unexpected sid s user update w :
  sockets w !! sid = Some s ->
  sock_listeners s = pair_listeners ->
  connection update = Some ConnClose ->
  isManualUnlink (lastDisconnect update ≫= statusCode)
                 (lastDisconnect update ≫= errorMessage) = false ->
  isNormalError (lastDisconnect update ≫= statusCode)
                (lastDisconnect update ≫= errorMessage) = false ->
  sock_restartAttempts s < maxRestartAttempts ->
  let n := sanitizedNumber (sock_number s) in
  let w' := emit env sid (ConnectionUpdate user update) w in
  timers w' = timers w ++ [{| due := (clock w + 10000)%Z; task := TReconnect (sock_number s) |}] /\
  activeSockets w' = delete n (activeSockets w) /\
  socketCreationTime w' = delete n (socketCreationTime w) /\
  sockets w' =
    alter (set_listeners []) sid
      (alter (set_restartAttempts (S (sock_restartAttempts s))) sid (sockets w)) /\
  globals w' = globals w /\
  mongoSessions w' = mongoSessions w /\
  mongoNumbers w' = mongoNumbers w /\
  localFs w' = localFs w /\
  responses w' = responses w /\
  clock w' = clock w /\
  unhandled w' = unhandled w.
Proof.
  intros Hs Hl Hc Hu Hn Hlt. cbv zeta.
  rewrite (emit_connection_update env sid s user update w Hs Hl).
  unfold detached, exec, unawaited.
  rewrite (autoRestart_unexpected env sid (sock_number s) update w Hc Hu Hn).
  assert (Hr : restartAttempts sid w = sock_restartAttempts s).
  { unfold restartAttempts. rewrite Hs. reflexivity. }
  rewrite Hr. apply Nat.ltb_lt in Hlt. rewrite Hlt. cbn [snd].
  match goal with |- context [connection_listener _ _ _ _ _ _ ?w0] =>
    destruct (connection_listener_close env sid (sanitizedNumber (sock_number s))
                (negb (sock_usePairingCode s)) user update w0 Hc) as [entries He];
    rewrite He
  end.
  cbn [snd]. fields. repeat split.
Qed.

(** The reconnection that the listener of setupAutoRestart left to the event
    loop, for a number whose blob is in the store. *)
Lemma fire_reconnect w l t number creds :
  timers w = l ++ [{| due := t; task := TReconnect number |}] ->
  let n := sanitizedNumber number in
  activeSockets w !! n = None ->
  global_truthy (connectionLockKeyOf n) w = false ->
  mongoSessions w !! n = Some creds ->
  fails env OpGetSession = None ->
  fails env OpFsWrite = None ->
  fails env OpAuthState = None ->
  fails env OpMakeSocket = None ->
  fails env OpStoreBind = None ->
  let w' := fire env (length l) w in
  sockets w' = sockets w ++
    [{| sock_number := number; sock_usePairingCode := false;
        sock_creds := Some creds; sock_listeners := pair_listeners;
        sock_restartAttempts := 0; sock_wsClosed := false |}] /\
  activeSockets w' = <[n := length (sockets w)]> (activeSockets w) /\
  socketCreationTime w' = <[n := Z.max t (clock w)]> (socketCreationTime w) /\
  timers w' = l /\
  mongoSessions w' = mongoSessions w.
Proof.
  intros Ht n Ha Hg Hm H1 H2 H3 H4 H5. cbv zeta.
  unfold fire. rewrite Ht, lookup_last. cbn [task due run_task].
  set (w0 := with_timers (delete (length l)) (with_clock (Z.max t) w)).
  set (w1 := with_responses (fun r => r ++ [mockRes]) w0).
  assert (Ha1 : activeSockets w1 !! sanitizedNumber number = None) by exact Ha.
  assert (Hg1 : global_truthy (connectionLockKeyOf (sanitizedNumber number)) w1 = false)
    by exact Hg.
  destruct (pair_main_restore env number (Some (length (responses w0)))
              (with_globals <[connectionLockKeyOf (sanitizedNumber number) := true]> w1)
              creds Hm H1 H2 H3 H4 H5)
    as (W & Hrun & _ & Hs & Hact & Hsct & Hti & _ & _ & Hms & _).
  pose proof (inconnuboyPair_completes env number (Some (length (responses w0))) w1 W
                Ha1 Hg1 Hrun) as Hp.
  unfold detached, exec, unawaited, reconnect, try_catch.
  rewrite run_gets, run_modify. fold w1. rewrite run_bind, Hp. unfold inconnuLog, modify.
  cbn [snd]. fields. rewrite Hs, Hact, Hsct, Hti, Hms. subst w1 w0. fields.
  rewrite Ht, delete_last. repeat split.
Qed.

(** X10: the credentials that a socket reports with 'creds.update' are written to
    the store and to the local session directory; when that socket is then
    closed unexpectedly, its number leaves the registry at once, and the
    reconnection ten seconds later registers a new socket for the same number
    that is created from those credentials, without pairing code. *)
Theorem saved_creds_restored_on_reconnect sid s user creds update w :
  let n := sanitizedNumber (sock_number s) in
  let w1 := emit env sid (CredsUpdate creds) w in
  let w2 := emit env sid (ConnectionUpdate user update) w1 in
  let w3 := fire env (length (timers w)) w2 in
  sockets w !! sid = Some s ->
  sock_listeners s = pair_listeners ->
  sock_restartAttempts s < maxRestartAttempts ->
  global_truthy (connectionLockKeyOf n) w = false ->
  connection update = Some ConnClose ->
  isManualUnlink (lastDisconnect update ≫= statusCode)
                 (lastDisconnect update ≫= errorMessage) = false ->
  isNormalError (lastDisconnect update ≫= statusCode)
                (lastDisconnect update ≫= errorMessage) = false ->
  fails env OpSaveCreds = None ->
  fails env OpSaveSession = None ->
  fails env OpGetSession = None ->
  fails env OpFsWrite = None ->
  fails env OpAuthState = None ->
  fails env OpMakeSocket = None ->
  fails env OpStoreBind = None ->
  mongoSessions w1 !! n = Some creds /\
  localFs w1 !! sessionDirOf n = Some (Some creds) /\
  activeSockets w2 !! n = None /\
  (sock_listeners <$> (sockets w2 !! sid)) = Some [] /\
  sockets w3 !! length (sockets w) =
    Some {| sock_number := sock_number s; sock_usePairingCode := false;
            sock_creds := Some creds; sock_listeners := pair_listeners;
            sock_restartAttempts := 0; sock_wsClosed := false |} /\
  activeSockets w3 !! n = Some (length (sockets w)).
Proof.
  cbv zeta. intros Hs Hl Hlt Hg Hc Hu Hn F1 F2 F3 F4 F5 F6 F7.
  rewrite (emit_creds_update sid s creds w Hs Hl F1 F2).
  set (w1 := with_logs _ _).
  assert (Hs1 : sockets w1 !! sid = Some s) by exact Hs.
  destruct (emit_unexpected sid s user update w1 Hs1 Hl Hc Hu Hn Hlt)
    as (Ht2 & Ha2 & _ & Hso2 & Hg2 & Hm2 & _).
  set (w2 := emit env sid (ConnectionUpdate user update) w1) in *.
  assert (Ha2' : activeSockets w2 !! sanitizedNumber (sock_number s) = None).
  { rewrite Ha2. apply lookup_delete_eq. }
  assert (Hg2' : global_truthy (connectionLockKeyOf (sanitizedNumber (sock_number s))) w2
                 = false).
  { unfold global_truthy. rewrite Hg2. exact Hg. }
  assert (Hm2' : mongoSessions w2 !! sanitizedNumber (sock_number s) = Some creds).
  { rewrite Hm2. subst w1. fields. apply lookup_insert_eq. }
  assert (Ht2' : timers w2 = timers w ++
            [{| due := (clock w1 + 10000)%Z; task := TReconnect (sock_number s) |}])
    by exact Ht2.
  destruct (fire_reconnect w2 (timers w) _ (sock_number s) creds Ht2' Ha2' Hg2' Hm2'
              F3 F4 F5 F6 F7) as (Hso3 & Ha3 & _).
  assert (Hlen : length (sockets w2) = length (sockets w)).
  { rewrite Hso2. rewrite !length_alter. reflexivity. }
  repeat split.
  - subst w1. fields. apply lookup_insert_eq.
  - subst w1. fields. apply lookup_insert_eq.
  - exact Ha2'.
  - rewrite Hso2, list_lookup_alter_eq, list_lookup_alter_eq, Hs1. reflexivity.
  - rewrite Hso3, <- Hlen. apply lookup_last.
  - rewrite Ha3, Hlen. apply lookup_insert_eq.
Qed.

End Flows.

Section Routes.

Variable env : Env.

Lemma code_route_given number res :
  number <> "" -> code_route env (Some number) res = inconnuboyPair env number (Some res).
Proof. intros H. destruct number; [congruence | reflexivity]. Qed.

(** X11: after /disconnect has succeeded for a number, a request of /code for the
    same number starts a new pairing, whatever the store held before: the new
    socket is created with fresh credentials and usePairingCode true, it is
    registered, the timer for the pairing code is set, and the request is not
    answered yet. *)
Theorem disconnect_then_code_pairs_anew number socket w :
  let n := sanitizedNumber number in
  let w1 := step env (GetDisconnect (Some number)) w in
  let w2 := step env (GetCode (Some number)) w1 in
  number <> "" ->
  activeSockets w !! n = Some socket ->
  global_truthy (connectionLockKeyOf n) w = false ->
  fails env OpWsClose = None ->
  fails env OpRemoveNumber = None ->
  fails env OpDeleteSession = None ->
  fails env OpGetSession = None ->
  fails env OpFsRemove = None ->
  fails env OpAuthState = None ->
  fails env OpMakeSocket = None ->
  fails env OpStoreBind = None ->
  mongoSessions w1 !! n = None /\
  sockets w2 !! length (sockets w) =
    Some {| sock_number := number; sock_usePairingCode := true;
            sock_creds := None; sock_listeners := pair_listeners;
            sock_restartAttempts := 0; sock_wsClosed := false |} /\
  activeSockets w2 !! n = Some (length (sockets w)) /\
  timers w2 = timers w ++
    [{| due := (clock w + 3000)%Z;
        task := TPairingTimeout (length (sockets w)) n (Some (S (length (responses w)))) |}] /\
  (res_sent <$> (responses w2 !! S (length (responses w)))) = Some [].
Proof.
  cbv zeta. intros Hn Ha Hg F1 F2 F3 F4 F5 F6 F7 F8. cbn [step].
  assert (E : exists w1, with_fresh_res (disconnect env (Some number)) w = w1 /\
            w1 = with_responses (alter (json BDisconnected) (length (responses w)))
                   (with_logs (fun l => l ++
                      [(success, "Manually disconnected " +:+ sanitizedNumber number)])
                      (with_mongoSessions (delete (sanitizedNumber number))
                         (with_mongoNumbers (fun r => r ∖ {[sanitizedNumber number]})
                            (with_socketCreationTime (delete (sanitizedNumber number))
                               (with_activeSockets (delete (sanitizedNumber number))
                                  (with_sockets (alter (set_listeners []) socket)
                                     (with_sockets (alter set_wsClosed socket)
                                        (with_responses (fun l => l ++ [freshRes]) w))))))))).
  { eexists. split; [|reflexivity].
    rewrite with_fresh_res_run. unfold detached, exec, unawaited.
    rewrite (disconnect_registered env number _ _ socket Hn) by assumption.
    reflexivity. }
  destruct E as (w1 & -> & Ew).
  assert (Hm1 : mongoSessions w1 !! sanitizedNumber number = None).
  { subst w1. fields. apply lookup_delete_eq. }
  split; [exact Hm1|].
  rewrite with_fresh_res_run, (code_route_given number _ Hn).
  set (v := with_responses (fun l => l ++ [freshRes]) w1).
  assert (Hav : activeSockets v !! sanitizedNumber number = None).
  { subst v w1. fields. apply lookup_delete_eq. }
  assert (Hgv : global_truthy (connectionLockKeyOf (sanitizedNumber number)) v = false).
  { subst v w1. exact Hg. }
  destruct (pair_main_new env number (Some (length (responses w1)))
              (with_globals <[connectionLockKeyOf (sanitizedNumber number) := true]> v)
              Hm1 F4 F5 F6 F7 F8)
    as (W & Hrun & _ & Hs & Hact & _ & Hti & Hr & _).
  unfold detached, exec, unawaited.
  rewrite (inconnuboyPair_completes env number _ v W Hav Hgv Hrun).
  cbn [snd]. fields. rewrite Hs, Hact, Hti, Hr.
  assert (Hlen : length (sockets v) = length (sockets w)).
  { subst v w1. fields. rewrite !length_alter. reflexivity. }
  assert (Hres : length (responses w1) = S (length (responses w))).
  { subst w1. fields. rewrite length_alter, length_app. cbn. lia. }
  fields. rewrite Hlen, Hres. repeat split.
  - rewrite <- Hlen. apply lookup_last.
  - apply lookup_insert_eq.
  - subst v w1. reflexivity.
  - subst v w1. fields.
    rewrite lookup_app_r; rewrite length_alter, length_app; cbn [length]; [|lia].
    replace (S (length (responses w)) - (length (responses w) + 1)) with 0 by lia.
    reflexivity.
Qed.

End Routes.

Section DisconnectAnswers.

Variable env : Env.

(** What /disconnect leaves in a response object that was not answered. *)
Lemma disconnect_answers number res w r :
  responses w !! res = Some r ->
  res_mock r = false ->
  res_statusCode r = 200 ->
  res_sent r = [] ->
  exists code body,
    (res_sent <$> (responses (exec (disconnect env number res) w) !! res))
      = Some [(code, body)] /\
    (forall e, fst (disconnect env number res w) <> Thrown e) /\
    unhandled (exec (disconnect env number res) w) = unhandled w /\
    ((code, body) = (200, BDisconnected) \/ (code, body) = (400, BNumberRequired) \/
     (code, body) = (404, BNotFound) \/ (code, body) = (500, BDisconnectFailed)).
Proof.
  intros Hr Hm Hc Hs.
  assert (J : forall code body (l : list Res), l !! res = Some r ->
            (res_sent <$> (alter (json body) res (alter (status code) res l) !! res))
              = Some [(code, body)]).
  { intros code body l Hl. rewrite !list_lookup_alter_eq, Hl. cbn.
    rewrite Hm, Hs. reflexivity. }
  assert (J0 : forall body (l : list Res), l !! res = Some r ->
            (res_sent <$> (alter (json body) res l !! res)) = Some [(200, body)]).
  { intros body l Hl. rewrite !list_lookup_alter_eq, Hl. cbn.
    rewrite Hc, Hs. reflexivity. }
  unfold exec, disconnect.
  destruct number as [[|c0 n0]|].
  - exists 400, BNumberRequired. unfold res_status, res_json. run_block. cbn [fst snd]. fields.
    split; [apply J, Hr|]. split; [discriminate|]. split; [reflexivity | auto].
  - cbv zeta. rewrite run_gets.
    destruct (activeSockets w !! sanitizedNumber (String c0 n0)) as [socket|].
    + unfold try_catch, ws_close, removeAllListeners, with_socket, removeNumberFromMongoDB,
        deleteSessionFromMongoDB, res_json, res_status.
      destruct (fails env OpWsClose) as [e1|] eqn:E1.
      { exists 500, BDisconnectFailed.
        rewrite run_assoc, (run_ext_fail env OpWsClose e1) by exact E1.
        run_block. unfold modify. cbn [fst snd]. fields.
        split; [apply J, Hr|]. split; [discriminate|]. split; [reflexivity | auto]. }
      destruct (fails env OpRemoveNumber) as [e2|] eqn:E2.
      { exists 500, BDisconnectFailed. run_block.
        rewrite (run_ext_fail env OpRemoveNumber e2) by exact E2.
        run_block. unfold modify. cbn [fst snd]. fields.
        split; [apply J, Hr|]. split; [discriminate|]. split; [reflexivity | auto]. }
      destruct (fails env OpDeleteSession) as [e3|] eqn:E3.
      { exists 500, BDisconnectFailed. run_block.
        rewrite (run_ext_fail env OpDeleteSession e3) by exact E3.
        run_block. unfold modify. cbn [fst snd]. fields.
        split; [apply J, Hr|]. split; [discriminate|]. split; [reflexivity | auto]. }
      exists 200, BDisconnected. run_block. unfold modify. cbn [fst snd]. fields.
      split; [apply J0, Hr|]. split; [discriminate|]. split; [reflexivity | auto].
    + exists 404, BNotFound. unfold res_status, res_json. run_block. cbn [fst snd]. fields.
      split; [apply J, Hr|]. split; [discriminate|]. split; [reflexivity | auto 6].
  - exists 400, BNumberRequired. unfold res_status, res_json. run_block. cbn [fst snd]. fields.
    split; [apply J, Hr|]. split; [discriminate|]. split; [reflexivity | auto].
Qed.

(** X12: /disconnect answers every request whose number is absent or a string
    exactly once, with 200, 400, 404 or 500, and leaves no rejection
    unhandled, whatever the transport and the store do: an exception while
    disconnecting is answered 500. A number that the query parser made an
    array or an object makes line 769 throw before the [try]: the request is
    never answered, a rejection is left unhandled, and nothing is
    disconnected. *)
Theorem disconnect_answers_strings number w :
  let w' := with_fresh_res (disconnect_query env number) w in
  (number <> Parsed ->
   exists code body,
     (res_sent <$> (responses w' !! length (responses w))) = Some [(code, body)] /\
     unhandled w' = unhandled w /\
     ((code, body) = (200, BDisconnected) \/ (code, body) = (400, BNumberRequired) \/
      (code, body) = (404, BNotFound) \/ (code, body) = (500, BDisconnectFailed))) /\
  (number = Parsed ->
   (res_sent <$> (responses w' !! length (responses w))) = Some [] /\
   unhandled w' = unhandled w ++ ["number.replace is not a function"] /\
   activeSockets w' = activeSockets w /\
   sockets w' = sockets w /\
   mongoSessions w' = mongoSessions w).
Proof.
  cbv zeta. rewrite with_fresh_res_run. split.
  - intros Hp.
    set (w0 := with_responses (fun l => l ++ [freshRes]) w).
    assert (Hq : exists n, disconnect_query env number = disconnect env n).
    { destruct number as [|s|]; [exists None | exists (Some s) | contradiction]; reflexivity. }
    destruct Hq as [n ->].
    destruct (disconnect_answers n (length (responses w)) w0 freshRes)
      as (code & body & Hs & Hn & Hu & Hcases); try reflexivity.
    { subst w0. fields. apply lookup_last. }
    exists code, body. unfold detached, unawaited. unfold exec in *.
    destruct (disconnect env n (length (responses w)) w0) as [[a| |e] w1];
      cbn [fst snd] in *.
    + repeat split; assumption.
    + repeat split; assumption.
    + exfalso. apply (Hn e). reflexivity.
  - intros ->. cbn. rewrite lookup_last. repeat split.
Qed.

End DisconnectAnswers.

(** ** The end of the process *)

Lemma closed_all_cons e l w :
  closed_all (e :: l) w =
    closed_all l (with_socketCreationTime (delete e.1)
                    (with_activeSockets (delete e.1)
                       (with_sockets (alter set_wsClosed e.2) w))).
Proof. reflexivity. Qed.

Section ExitProps.

Variable env : Env.
Hypothesis closeOk : fails env OpWsClose = None.

Lemma for_each_exit l w :
  for_each l (fun entry =>
    ws_close env entry.2 ;;
    modify (with_activeSockets (delete entry.1)) ;;
    modify (with_socketCreationTime (delete entry.1))) w = (Normal tt, closed_all l w).
Proof.
  revert w. induction l as [|e l IH]; intros w; [reflexivity|].
  rewrite closed_all_cons. cbn [for_each]. unfold ws_close, with_socket.
  run_block. rewrite IH. reflexivity.
Qed.

Lemma closed_all_activeSockets l w k :
  activeSockets (closed_all l w) !! k =
    if decide (k ∈ l.*1) then None else activeSockets w !! k.
Proof.
  revert w. induction l as [|e l IH]; intros w.
  - cbn. destruct (decide (k ∈ [])) as [H|_]; [|reflexivity].
    apply elem_of_nil in H. destruct H.
  - rewrite closed_all_cons, IH. fields.
    rewrite fmap_cons.
    destruct (decide (k ∈ l.*1)) as [H|H].
    + rewrite decide_True by (apply elem_of_cons; auto). reflexivity.
    + destruct (decide (k = e.1)) as [->|Hne].
      * rewrite decide_True by (apply elem_of_cons; auto). apply lookup_delete_eq.
      * rewrite decide_False by (intros Hc; apply elem_of_cons in Hc as [?|?]; auto).
        apply lookup_delete_ne. congruence.
Qed.

Lemma closed_all_socketCreationTime l w k :
  socketCreationTime (closed_all l w) !! k =
    if decide (k ∈ l.*1) then None else socketCreationTime w !! k.
Proof.
  revert w. induction l as [|e l IH]; intros w.
  - cbn. destruct (decide (k ∈ [])) as [H|_]; [|reflexivity].
    apply elem_of_nil in H. destruct H.
  - rewrite closed_all_cons, IH. fields.
    rewrite fmap_cons.
    destruct (decide (k ∈ l.*1)) as [H|H].
    + rewrite decide_True by (apply elem_of_cons; auto). reflexivity.
    + destruct (decide (k = e.1)) as [->|Hne].
      * rewrite decide_True by (apply elem_of_cons; auto). apply lookup_delete_eq.
      * rewrite decide_False by (intros Hc; apply elem_of_cons in Hc as [?|?]; auto).
        apply lookup_delete_ne. congruence.
Qed.

Lemma set_wsClosed_twice (o : option Socket) :
  set_wsClosed <$> (set_wsClosed <$> o) = set_wsClosed <$> o.
Proof. destruct o as [s|]; reflexivity. Qed.

Lemma closed_all_sockets l w sid :
  sockets (closed_all l w) !! sid =
    if decide (sid ∈ l.*2) then set_wsClosed <$> sockets w !! sid else sockets w !! sid.
Proof.
  revert w. induction l as [|e l IH]; intros w.
  - cbn. destruct (decide (sid ∈ [])) as [H|_]; [|reflexivity].
    apply elem_of_nil in H. destruct H.
  - rewrite closed_all_cons, IH. fields.
    rewrite fmap_cons.
    destruct (decide (sid = e.2)) as [->|Hne].
    + rewrite (decide_True (P := e.2 ∈ e.2 :: l.*2)) by (apply elem_of_cons; auto).
      rewrite list_lookup_alter_eq.
      destruct (decide (e.2 ∈ l.*2)); [apply set_wsClosed_twice | reflexivity].
    + rewrite list_lookup_alter_ne by congruence.
      destruct (decide (sid ∈ l.*2)) as [H|H].
      * rewrite decide_True by (apply elem_of_cons; auto). reflexivity.
      * rewrite decide_False by (intros Hc; apply elem_of_cons in Hc as [?|?]; auto).
        reflexivity.
Qed.

Lemma closed_all_else l w :
  mongoSessions (closed_all l w) = mongoSessions w /\
  mongoNumbers (closed_all l w) = mongoNumbers w /\
  timers (closed_all l w) = timers w.
Proof.
  revert w. induction l as [|e l IH]; intros w; [repeat split|].
  rewrite closed_all_cons.
  destruct (IH (with_socketCreationTime (delete e.1)
                  (with_activeSockets (delete e.1)
                     (with_sockets (alter set_wsClosed e.2) w)))) as (-> & -> & ->).
  repeat split.
Qed.

(** X13: when the process exits and no transport refuses to close, the registry
    is emptied, the transport of every registered socket is closed, the local
    session directories are removed, and the credential store, the roster and
    the listeners are left as they are. *)
Theorem exit_empties_registry w :
  let w' := exec (on_exit env) w in
  fst (on_exit env w) = Normal tt /\
  activeSockets w' = ∅ /\
  (registry_consistent w -> socketCreationTime w' = ∅) /\
  localFs w' = ∅ /\
  (forall n sid, activeSockets w !! n = Some sid ->
     sockets w' !! sid = set_wsClosed <$> sockets w !! sid) /\
  mongoSessions w' = mongoSessions w /\
  mongoNumbers w' = mongoNumbers w.
Proof.
  cbv zeta. unfold exec, on_exit. rewrite run_gets, run_bind, for_each_exit.
  unfold modify. cbn [fst snd]. fields.
  destruct (closed_all_else (map_to_list (activeSockets w)) w) as (Hs & Hn & _).
  repeat split; try assumption.
  - apply map_empty. intros k. rewrite closed_all_activeSockets.
    destruct (decide _) as [_|Hk]; [reflexivity|].
    destruct (activeSockets w !! k) as [sid|] eqn:E; [|reflexivity].
    exfalso. apply Hk. apply list_elem_of_fmap. exists (k, sid). split; [reflexivity|].
    apply elem_of_map_to_list. exact E.
  - intros Hc. apply map_empty. intros k. rewrite closed_all_socketCreationTime.
    destruct (decide _) as [_|Hk]; [reflexivity|].
    destruct (socketCreationTime w !! k) as [t|] eqn:E; [|reflexivity].
    exfalso. apply Hk.
    assert (Hd : k ∈ dom (activeSockets w)).
    { rewrite <- Hc. apply elem_of_dom. eauto. }
    apply elem_of_dom in Hd as [sid Hsid].
    apply list_elem_of_fmap. exists (k, sid). split; [reflexivity|].
    apply elem_of_map_to_list. exact Hsid.
  - intros n sid Ha. rewrite closed_all_sockets.
    rewrite decide_True; [reflexivity|].
    apply list_elem_of_fmap. exists (n, sid). split; [reflexivity|].
    apply elem_of_map_to_list. exact Ha.
Qed.

End ExitProps.

(** A block whose last statement returns, or that returns or throws
    before, does not run to its end. *)
Lemma bind_never_normal {S A B} (m : Block S A) (k : A -> Block S B) s :
  (forall a s' b, fst (k a s') <> Normal b) -> forall b, fst ((m ≫= k) s) <> Normal b.
Proof.
  intros Hk b. rewrite run_bind. destruct (m s) as [[a| |e] s']; cbn; try discriminate.
  apply Hk.
Qed.

Lemma preserves_bind_never {S A B} (P : S -> Prop) (m : Block S A) (k : A -> Block S B) :
  preserves P m -> (forall s a, fst (m s) <> Normal a) -> preserves P (m ≫= k).
Proof.
  intros Hm Hn s H. rewrite run_bind. specialize (Hm s H). specialize (Hn s).
  destruct (m s) as [[a| |e] s']; cbn in *; auto. exfalso. apply (Hn a). reflexivity.
Qed.

(** A [try] whose handler only writes to the log does not throw. *)
Lemma try_catch_log_no_throw (body : Block World unit) (msg : string -> string) type w e :
  fst (try_catch body (fun e => inconnuLog (msg e) type) w) <> Thrown e.
Proof.
  unfold try_catch. destruct (body w) as [[a| |e'] w']; cbn; discriminate.
Qed.

Section Upsert.

Variable env : Env.

Lemma status_handling_never_normal conn user mek userConfig w a :
  fst (status_handling env conn user mek userConfig w) <> Normal a.
Proof.
  unfold status_handling.
  apply bind_never_normal. intros _ s1 b1.
  apply bind_never_normal. intros _ s2 b2.
  apply bind_never_normal. intros _ s3 b3. discriminate.
Qed.

(** X17: a message without content changes nothing at all. *)
Theorem upsert_without_content_ignored sid s user mek w :
  sockets w !! sid = Some s ->
  sock_listeners s = pair_listeners ->
  message mek = None ->
  emit env sid (MessagesUpsert user mek) w = w.
Proof.
  intros Hs Hl Hm. rewrite (emit_messages_upsert env sid s user mek w Hs Hl).
  unfold detached, exec, unawaited, presence_listener, upsert_listener, try_catch.
  rewrite !run_bind, Hm. reflexivity.
Qed.

(** X18: a status update is never dispatched: whatever the configuration, the
    plugins and the collaborators do, no plugin function is called, no counter
    is incremented, and no rejection is left unhandled. *)
Theorem status_update_not_dispatched sid s user mek w :
  sockets w !! sid = Some s ->
  sock_listeners s = pair_listeners ->
  remoteJid mek = "status@broadcast" ->
  let w' := emit env sid (MessagesUpsert user mek) w in
  invoked w' = invoked w /\ stats w' = stats w /\ unhandled w' = unhandled w.
Proof.
  intros Hs Hl Hst. cbv zeta.
  rewrite (emit_messages_upsert env sid s user mek w Hs Hl).
  assert (Hp : detached (presence_listener env sid (sock_number s) mek) w = w).
  { unfold detached, exec, unawaited, presence_listener.
    rewrite run_bind, Hst.
    rewrite (bool_decide_eq_true_2 ("status@broadcast" = "status@broadcast")) by reflexivity.
    rewrite orb_true_r. reflexivity. }
  rewrite Hp.
  set (P := fun w' => invoked w' = invoked w /\ stats w' = stats w /\
                      unhandled w' = unhandled w).
  assert (Hu : preserves P (upsert_listener env sid (sock_number s)
                              (sanitizedNumber (sock_number s)) user mek)).
  { unfold upsert_listener. apply preserves_try_catch; [|intros e; unfold inconnuLog; unchanged].
    apply preserves_bind; [destruct (message mek); unchanged|]. intros m0.
    apply preserves_bind; [unfold getUserConfigFromMongoDB; unchanged|]. intros userConfig.
    cbv zeta.
    apply preserves_bind; [unfold client_call; unchanged|]. intros [].
    apply preserves_bind; [unfold client_call; unchanged|]. intros [].
    rewrite Hst.
    rewrite (bool_decide_eq_true_2 ("status@broadcast" = "status@broadcast")) by reflexivity.
    apply preserves_bind_never.
    - unfold status_handling, user_id, client_call. unchanged.
    - intros w0 a. apply status_handling_never_normal. }
  unfold detached, exec, unawaited.
  specialize (Hu w (conj eq_refl (conj eq_refl eq_refl))).
  pose proof (try_catch_log_no_throw) as Hn.
  destruct (upsert_listener env sid (sock_number s) (sanitizedNumber (sock_number s))
              user mek w) as [[a| |e] w1] eqn:E; cbn [snd] in *; try exact Hu.
  exfalso. unfold upsert_listener in E.
  match type of E with try_catch ?b ?h w = _ =>
    apply (Hn b (fun e => "Message handler error: " +:+ e) error w e)
  end.
  rewrite E. reflexivity.
Qed.

End Upsert.

Section Counters.

Variable env : Env.
Hypothesis noFault : forall op, fails env op = None.

Lemma incrementStats_stats n counter S0 :
  triple (fun w => stats w = S0) (incrementStats env n counter)
    (fun c w => c = Normal tt /\ stats w = S0 ++ [(n, counter)]).
Proof.
  intros w H. unfold incrementStats. rewrite run_ext_ok by apply noFault.
  unfold modify. cbn [fst snd]. fields. rewrite H. split; reflexivity.
Qed.

Lemma execute_events_stats mek body ctx l i S0 :
  preserves (fun w => stats w = S0) (map_async (event_callback mek body ctx) i l).
Proof.
  revert i. induction l as [|c r IH]; intros i.
  - apply preserves_ret.
  - cbn [map_async]. apply preserves_bind; [|intros []; apply IH].
    apply preserves_unawaited; [intros ? ? H; exact H|].
    unfold event_callback, invoke. unchanged.
Qed.

(** "Execute Plugins": a text that starts with the prefix is counted as a
    command before the command is looked up. *)
Lemma execute_plugins_stats conn n from body isCmd isOwner ctx S0 :
  triple (fun w => stats w = S0)
    (execute_plugins env conn n from body isCmd isOwner ctx)
    (fun c w =>
       stats w = S0 ++ (if isCmd then [(n, "commandsUsed")] else []) /\
       c = if isCmd && bool_decide (is_Some (find_command env (commandName env body))) &&
              (bool_decide (WORK_TYPE (config env) = "private") && negb isOwner)
           then Returned else Normal tt).
Proof.
  unfold execute_plugins. cbv zeta. destruct isCmd; cbn [when andb].
  2: { intros w H. cbn. rewrite app_nil_r. split; [exact H | reflexivity]. }
  eapply seq_triple; [apply incrementStats_stats| | |].
  2: { intros s [Hc _]. discriminate. }
  2: { intros e s [Hc _]. discriminate. }
  intros [].
  apply (triple_pre _ (fun w => stats w = S0 ++ [(n, "commandsUsed")]));
    [intros s [_ H]; exact H|].
  destruct (find_command env (commandName env body)) as [[i cmd]|].
  2: { intros w H. split; [exact H | reflexivity]. }
  rewrite (bool_decide_eq_true_2 (is_Some (Some (i, cmd)))) by eauto. cbn [andb].
  destruct (bool_decide (WORK_TYPE (config env) = "private") && negb isOwner).
  { intros w H. split; [exact H | reflexivity]. }
  apply seq_ret. apply seq_runs.
  { destruct (cmd_react cmd) as [emoji|]; [|apply runs_ret].
    apply runs_when, runs_unawaited; [intros ? ? H; exact H|].
    unfold client_call. unchanged. }
  intros [] w H. unfold try_catch. rewrite invoke_run.
  destruct (cmd_function cmd ByCommand ctx); cbn; rewrite H; split; reflexivity.
Qed.

(** What follows "Execute Plugins". *)
Lemma after_plugins_stats n isGroup mek body ctx S0 :
  triple (fun w => stats w = S0)
    (incrementStats env n "messagesReceived" ;;
     when isGroup (incrementStats env n "groupsInteracted") ;;
     execute_events env mek body ctx)
    (fun c w => (forall e, c <> Thrown e) /\
                stats w = S0 ++ (n, "messagesReceived") ::
                          (if isGroup then [(n, "groupsInteracted")] else [])).
Proof.
  eapply seq_triple; [apply incrementStats_stats| | |].
  2: { intros s [Hc _]. discriminate. }
  2: { intros e s [Hc _]. discriminate. }
  intros [].
  apply (triple_pre _ (fun w => stats w = S0 ++ [(n, "messagesReceived")]));
    [intros s [_ H]; exact H|].
  destruct isGroup; cbn [when].
  - eapply seq_triple; [apply incrementStats_stats| | |].
    2: { intros s [Hc _]. discriminate. }
    2: { intros e s [Hc _]. discriminate. }
    intros [] w [_ H]. unfold execute_events.
    destruct (execute_events_invoked mek body ctx (commands env) 0 w) as [Hc _].
    rewrite Hc. split; [discriminate|].
    rewrite (execute_events_stats mek body ctx (commands env) 0 _ w H).
    rewrite <- app_assoc. reflexivity.
  - apply seq_ret. intros w H. unfold execute_events.
    destruct (execute_events_invoked mek body ctx (commands env) 0 w) as [Hc _].
    rewrite Hc. split; [discriminate|].
    rewrite (execute_events_stats mek body ctx (commands env) 0 _ w H). reflexivity.
Qed.

Lemma upsert_listener_stats conn number n id mek m0 w :
  message mek = Some m0 ->
  remoteJid mek <> "status@broadcast" ->
  stats (exec (upsert_listener env conn number n (Some id) mek) w) =
    stats w ++ counted env n id mek (bodyOf (normalizeMessage m0)).
Proof.
  intros Hm Hs. unfold exec.
  enough (T : triple (fun w' => stats w' = stats w)
                (upsert_listener env conn number n (Some id) mek)
                (fun _ w' => stats w' = stats w ++
                               counted env n id mek (bodyOf (normalizeMessage m0)))).
  { apply (T w). reflexivity. }
  unfold upsert_listener. apply triple_try_catch. rewrite Hm.
  apply seq_ret.
  apply seq_runs.
  { unfold getUserConfigFromMongoDB. runs_block noFault. }
  intros userConfig. cbv zeta.
  apply seq_runs; [unfold client_call; runs_block noFault|]. intros [].
  apply seq_runs; [unfold client_call; runs_block noFault|]. intros [].
  rewrite (bool_decide_eq_false_2 _ Hs).
  apply seq_ret.
  apply seq_runs; [apply runs_ext, noFault|]. intros [].
  cbn [user_id]. apply seq_ret.
  apply seq_runs; [unfold client_call; runs_block noFault|]. intros [].
  apply seq_runs; [unfold client_call; runs_block noFault|]. intros [].
  apply seq_runs; [unfold client_call; runs_block noFault|]. intros [].
  apply seq_runs; [unfold send_command, client_call, inconnuLog; cbv zeta; runs_block noFault|].
  intros [].
  unfold counted.
  set (body := bodyOf (normalizeMessage m0)).
  set (isCmd := Js.startsWith body (PREFIX (config env))).
  set (refused := isCmd && _ && _).
  eapply seq_triple; [apply execute_plugins_stats| | |].
  - intros []. fold refused.
    destruct refused.
    { intros w0 [_ Hc]. discriminate. }
    apply (triple_pre _ (fun w' => stats w' = stats w ++
                                     (if isCmd then [(n, "commandsUsed")] else [])));
      [intros w0 [H0 _]; exact H0|].
    intros w0 H0.
    match goal with |- context [when ?g _] =>
      destruct (after_plugins_stats n g mek body
                  {| ctx_from := remoteJid mek; ctx_body := body;
                     ctx_isCmd := isCmd;
                     ctx_isGroup := g; ctx_sender := senderOf id mek;
                     ctx_senderNumber := Js.splitHead "@" (senderOf id mek);
                     ctx_isOwner := isOwnerOf env id mek |}
                  _ w0 H0) as [Hne Hi]
    end.
    split; [exact Hne|]. rewrite Hi, <- app_assoc. reflexivity.
  - intros w0. fold refused. destruct refused.
    + intros [H0 _]. split; [discriminate|]. rewrite app_nil_r. exact H0.
    + intros [_ Hc]. discriminate.
  - intros e w0. fold refused. destruct refused; intros [_ Hc]; discriminate.
Qed.

Lemma presence_listener_stats socket number msg S0 :
  preserves (fun w => stats w = S0) (presence_listener env socket number msg).
Proof.
  unfold presence_listener, getUserConfigFromMongoDB, client_call, inconnuLog. unchanged.
Qed.

Lemma unawaited_stats (m : Block World unit) w :
  stats (snd (unawaited m w)) = stats (snd (m w)).
Proof. unfold unawaited. destruct (m w) as [[a| |e] w1]; reflexivity. Qed.

(** X19: the counters of a message that is not a status and whose text is
    ASCII, when no collaborator throws: a text that starts with the prefix
    counts as a command used, also when no command of that name exists; the
    message counts as received, and as a group interaction when it comes from
    a group, unless a command was found and refused because the work type is
    private and the sender is not the owner. On ASCII text the name that is
    looked up is the one line 655 derives. *)
Theorem message_counters sid s id mek m0 w :
  sockets w !! sid = Some s ->
  sock_listeners s = pair_listeners ->
  message mek = Some m0 ->
  remoteJid mek <> "status@broadcast" ->
  asciiText (bodyOf (normalizeMessage m0)) = true ->
  stats (emit env sid (MessagesUpsert (Some id) mek) w) =
    stats w ++ counted env (sanitizedNumber (sock_number s)) id mek
                 (bodyOf (normalizeMessage m0)).
Proof.
  intros Hs Hl Hm Hst _.
  rewrite (emit_messages_upsert env sid s _ mek w Hs Hl).
  unfold detached at 1. unfold exec at 1. rewrite unawaited_stats.
  pose proof (upsert_listener_stats sid (sock_number s)
                (sanitizedNumber (sock_number s)) id mek m0
                (detached (presence_listener env sid (sock_number s) mek) w) Hm Hst) as H.
  unfold exec in H. rewrite H. clear H. f_equal.
  unfold detached, exec. rewrite unawaited_stats.
  apply (presence_listener_stats sid (sock_number s) mek (stats w) w). reflexivity.
Qed.

End Counters.

(** ** Reaching the registered commands *)

Lemma prefix_app s b : String.prefix s (s +:+ b) = true.
Proof.
  induction s as [|c r IH]; [destruct b; reflexivity|].
  change (String.prefix (String c r) (String c (r +:+ b)) = true).
  cbn [String.prefix]. rewrite IH. destruct (ascii_dec c c); [reflexivity | congruence].
Qed.

Lemma includes_app a s b : Js.includes (a +:+ s +:+ b) s = true.
Proof.
  induction a as [|c r IH].
  - change ("" +:+ s +:+ b) with (s +:+ b).
    destruct s as [|d t].
    + destruct b; reflexivity.
    + change (String d t +:+ b) with (String d (t +:+ b)).
      cbn [Js.includes]. change (String d (t +:+ b)) with (String d t +:+ b).
      rewrite prefix_app. reflexivity.
  - change (String c r +:+ s +:+ b) with (String c (r +:+ s +:+ b)).
    cbn [Js.includes]. rewrite IH. apply orb_true_r.
Qed.

Lemma splitHead_app sep s t :
  Js.includes s (String sep "") = false ->
  Js.splitHead sep (s +:+ String sep t) = s.
Proof.
  induction s as [|c r IH]; intros H.
  - change ("" +:+ String sep t) with (String sep t). cbn [Js.splitHead].
    rewrite Ascii.eqb_refl. reflexivity.
  - change (String c r +:+ String sep t) with (String c (r +:+ String sep t)).
    cbn [Js.splitHead]. cbn [Js.includes] in H.
    apply orb_false_iff in H as [Hp Hr].
    destruct (Ascii.eqb c sep) eqn:E.
    + apply Ascii.eqb_eq in E. subst c. exfalso.
      cbn [String.prefix] in Hp. destruct (ascii_dec sep sep); [|congruence].
      destruct r; discriminate.
    + rewrite (IH Hr). reflexivity.
Qed.

(** X20: the owner test is a test for a substring: a sender whose number occurs
    anywhere inside OWNER_NUMBER passes for the owner. *)
Theorem owner_by_substring env id mek a s b :
  OWNER_NUMBER (config env) = a +:+ s +:+ b ->
  fromMe mek = false ->
  participant mek = None ->
  remoteJid mek = s +:+ "@s.whatsapp.net" ->
  Js.includes s "@" = false ->
  isOwnerOf env id mek = true.
Proof.
  intros Ho Hf Hp Hr Hs. unfold isOwnerOf, senderOf. rewrite Hf, Hp, Hr.
  rewrite (splitHead_app "@" s "s.whatsapp.net" Hs), Ho, includes_app. reflexivity.
Qed.

Lemma owner_by_substring_witness :
  isOwnerOf calm "123:1@s.whatsapp.net"
    {| message := Some (Conversation ".menu"); remoteJid := "7999@s.whatsapp.net";
       fromMe := false; participant := None; newsletterServerId := None;
       mek_type := Some "conversation"; mek_q := false |} = true.
Proof.
  apply (owner_by_substring calm "123:1@s.whatsapp.net" _ "254" "7999" "635583");
    reflexivity.
Defined.

Lemma lower_char_idem c : Js.lower_char (Js.lower_char c) = Js.lower_char c.
Proof. destruct c as [[] [] [] [] [] [] [] []]; reflexivity. Qed.

Lemma lower_char_space c : Js.lower_char c = " "%char -> c = " "%char.
Proof. destruct c as [[] [] [] [] [] [] [] []]; cbv; congruence. Qed.

Lemma lowered_toLowerCase_splitHead s :
  lowered (Js.toLowerCase (Js.splitHead " " s)) = true.
Proof.
  induction s as [|c r IH]; [reflexivity|]. cbn [Js.splitHead].
  destruct (Ascii.eqb c " ") eqn:E; [reflexivity|].
  cbn [Js.toLowerCase lowered]. rewrite IH, lower_char_idem, Ascii.eqb_refl.
  destruct (Ascii.eqb (Js.lower_char c) " ") eqn:E2; [|reflexivity].
  apply Ascii.eqb_eq, lower_char_space in E2. subst c. discriminate.
Qed.

(** X21: the name that the dispatch looks up has no upper-case letter and no
    space, so a command whose pattern has one is never found by its pattern,
    and an alias that has one never matches, whatever the text of the
    message. *)
Theorem unlowered_name_never_matches env body cmd :
  lowered (commandName env body) = true /\
  (forall p, cmd_pattern cmd = Some p -> lowered p = false ->
     has_pattern (commandName env body) cmd = false) /\
  (forall names, cmd_alias cmd = Some names ->
     Forall (fun a => lowered a = false) names ->
     has_alias (commandName env body) cmd = false).
Proof.
  assert (H : lowered (commandName env body) = true)
    by apply lowered_toLowerCase_splitHead.
  split; [exact H|]. split.
  - intros p Hp Hl. unfold has_pattern. apply bool_decide_eq_false_2.
    rewrite Hp. intros E. inversion E. congruence.
  - intros names Ha Hall. unfold has_alias. rewrite Ha. apply bool_decide_eq_false_2.
    intros Hin. rewrite Forall_forall in Hall. specialize (Hall _ Hin). congruence.
Qed.

(** ** Calls *)

Lemma inCore_run {A} (m : Block World A) (p : Process) :
  inCore m p =
    (fst (m (core p)), {| core := snd (m (core p)); adminCalls := adminCalls p |}).
Proof. unfold inCore. destruct (m (core p)); reflexivity. Qed.

Lemma preserves_inCore {A} (P : World -> Prop) (m : Block World A) :
  preserves P m -> preserves (fun p => P (core p)) (inCore m).
Proof.
  intros Hm p H. rewrite inCore_run. cbn. apply Hm, H.
Qed.

Lemma preserves_for_each {S A} (P : S -> Prop) (l : list A) (body : A -> Block S unit) :
  (forall x, preserves P (body x)) -> preserves P (for_each l body).
Proof.
  intros Hb. induction l as [|x r IH]; [apply preserves_ret|].
  cbn [for_each]. apply preserves_bind; [apply Hb | intros []; exact IH].
Qed.

Section Calls.

Variable env : Env.
Variable aenv : AdminEnv.

Lemma emit_call_pair sid s calls p :
  sockets (core p) !! sid = Some s ->
  sock_listeners s = pair_listeners ->
  emit_call env aenv sid calls p =
    detached_admin (call_listener env aenv sid (sock_number s) calls)
      (detached_admin (antiCall_listener env aenv sid (sock_number s) calls) p).
Proof. intros Hs Hl. unfold emit_call. rewrite Hs, Hl. reflexivity. Qed.

Lemma getCallConfig_run {B} number (k : CallConfig -> Block Process B) p :
  fails env OpGetUserConfig = None ->
  (getCallConfigFromMongoDB env aenv number ≫= k) p = k (callConfigOf aenv number) p.
Proof.
  intros H. unfold getCallConfigFromMongoDB, getUserConfigFromMongoDB.
  rewrite run_assoc, run_bind, inCore_run. unfold ext. rewrite H. cbn.
  destruct p; reflexivity.
Qed.

(** X23: with the rejection of calls switched off, an event 'call' changes
    nothing. *)
Theorem calls_ignored_when_off sid s calls p :
  sockets (core p) !! sid = Some s ->
  sock_listeners s = pair_listeners ->
  fails env OpGetUserConfig = None ->
  ANTI_CALL (callConfigOf aenv (sock_number s)) <> "true" ->
  emit_call env aenv sid calls p = p.
Proof.
  intros Hs Hl Hf Ha. rewrite (emit_call_pair sid s calls p Hs Hl).
  assert (E1 : detached_admin (antiCall_listener env aenv sid (sock_number s) calls) p = p).
  { unfold detached_admin, antiCall_listener, try_catch.
    rewrite getCallConfig_run by exact Hf.
    rewrite (bool_decide_eq_false_2 _ Ha). reflexivity. }
  rewrite E1.
  unfold detached_admin, call_listener, try_catch.
  rewrite getCallConfig_run by exact Hf.
  rewrite (bool_decide_eq_false_2 _ Ha). reflexivity.
Qed.

Lemma offers_cons call calls :
  offers (call :: calls) =
    if bool_decide (call_status call = "offer") then call :: offers calls else offers calls.
Proof.
  unfold offers. rewrite filter_cons.
  destruct (decide (call_status call = "offer")) as [H|H].
  - rewrite (bool_decide_eq_true_2 _ H). reflexivity.
  - rewrite (bool_decide_eq_false_2 _ H). reflexivity.
Qed.

(** The loop of a listener of 'call' when nothing throws: [text] is the
    message sent, [logged] tells whether each rejection is written to the
    log. *)
Lemma call_loop_run sid text (entry : CallInfo -> list (LogType * string)) calls
    (body : CallInfo -> Block Process unit) p :
  (forall call q,
     body call q =
       if negb (bool_decide (call_status call = "offer")) then (Normal tt, q)
       else (Normal tt,
             {| core := with_logs (fun l => l ++ entry call)
                          (with_outbox (fun l => l ++ [(sid, CSendText (call_from call) text)])
                             (core q));
                adminCalls := adminCalls q ++
                              [RejectCall sid (call_id call) (call_from call)] |})) ->
  exists p',
    for_each calls body p = (Normal tt, p') /\
    adminCalls p' = adminCalls p ++
      ((fun call => RejectCall sid (call_id call) (call_from call)) <$> offers calls) /\
    outbox (core p') = outbox (core p) ++
      ((fun call => (sid, CSendText (call_from call) text)) <$> offers calls) /\
    sockets (core p') = sockets (core p) /\
    unhandled (core p') = unhandled (core p).
Proof.
  intros Hb. revert p. induction calls as [|call calls IH]; intros p.
  - exists p. cbn. rewrite !app_nil_r. repeat split.
  - cbn [for_each]. rewrite run_bind, Hb, offers_cons.
    destruct (bool_decide (call_status call = "offer")); cbn [negb].
    + destruct (IH {| core := with_logs (fun l => l ++ entry call)
                          (with_outbox (fun l => l ++ [(sid, CSendText (call_from call) text)])
                             (core p));
                      adminCalls := adminCalls p ++
                              [RejectCall sid (call_id call) (call_from call)] |})
        as (p' & -> & Ha & Ho & Hs & Hu).
      exists p'. split; [reflexivity|]. cbn in Ha, Ho, Hs, Hu.
      rewrite Ha, Ho, Hs, Hu, !fmap_cons, <- !app_assoc. repeat split.
    + destruct (IH p) as (p' & -> & Ha & Ho & Hs & Hu).
      exists p'. repeat split; assumption.
Qed.

(** X22: with the rejection of calls switched on and no collaborator that
    throws, every call with status 'offer' is rejected twice, once by each of
    the two listeners that a socket carries, and its caller is sent two
    messages: one with the stored text or the text of setupCallHandlers, one
    with the stored text or REJECT_MSG of config.js. Calls with another status
    are left alone. *)
Theorem offers_rejected_twice sid s calls p :
  sockets (core p) !! sid = Some s ->
  sock_listeners s = pair_listeners ->
  fails env OpGetUserConfig = None ->
  fails env OpSendMessage = None ->
  admin_fails aenv OpRejectCall = None ->
  ANTI_CALL (callConfigOf aenv (sock_number s)) = "true" ->
  let p' := emit_call env aenv sid calls p in
  let stored := USER_REJECT_MSG (callConfigOf aenv (sock_number s)) in
  let rejections :=
    (fun call => RejectCall sid (call_id call) (call_from call)) <$> offers calls in
  adminCalls p' ≡ₚ adminCalls p ++ rejections ++ rejections /\
  outbox (core p') ≡ₚ outbox (core p) ++
    ((fun call => (sid, CSendText (call_from call)
                          (or_else stored "*🔕 ʏᴏᴜʀ ᴄᴀʟʟ ᴡᴀs ᴀᴜᴛᴏᴍᴀᴛɪᴄᴀʟʟʏ ʀᴇᴊᴇᴄᴛᴇᴅ..!*")))
       <$> offers calls) ++
    ((fun call => (sid, CSendText (call_from call)
                          (or_else stored (REJECT_MSG (config env)))))
       <$> offers calls) /\
  unhandled (core p') = unhandled (core p).
Proof.
  intros Hs Hl Hf Hm Hr Ha. cbv zeta.
  rewrite (emit_call_pair sid s calls p Hs Hl).
  assert (E1 : exists p1,
            detached_admin (antiCall_listener env aenv sid (sock_number s) calls) p = p1 /\
            adminCalls p1 = adminCalls p ++
              ((fun call => RejectCall sid (call_id call) (call_from call)) <$> offers calls) /\
            outbox (core p1) = outbox (core p) ++
              ((fun call => (sid, CSendText (call_from call)
                  (or_else (USER_REJECT_MSG (callConfigOf aenv (sock_number s)))
                     "*🔕 ʏᴏᴜʀ ᴄᴀʟʟ ᴡᴀs ᴀᴜᴛᴏᴍᴀᴛɪᴄᴀʟʟʏ ʀᴇᴊᴇᴄᴛᴇᴅ..!*"))) <$> offers calls) /\
            unhandled (core p1) = unhandled (core p)).
  { unfold detached_admin, antiCall_listener, try_catch.
    rewrite getCallConfig_run by exact Hf. rewrite Ha.
    rewrite (bool_decide_eq_true_2 ("true" = "true")) by reflexivity. cbn [negb].
    rewrite run_ret.
    match goal with |- context [for_each calls ?b p] =>
      destruct (call_loop_run sid
                  (or_else (USER_REJECT_MSG (callConfigOf aenv (sock_number s)))
                     "*🔕 ʏᴏᴜʀ ᴄᴀʟʟ ᴡᴀs ᴀᴜᴛᴏᴍᴀᴛɪᴄᴀʟʟʏ ʀᴇᴊᴇᴄᴛᴇᴅ..!*")
                  (fun call => [(info, "Auto-rejected call for user " +:+ sock_number s +:+
                                       " from " +:+ call_from call)])
                  calls b p)
        as (p1 & -> & Ha1 & Ho1 & _ & Hu1)
    end.
    { intros call q. destruct (negb (bool_decide (call_status call = "offer"))); [reflexivity|].
      cbv zeta. unfold admin_call, admin_ext, client_call, ext, inconnuLog.
      rewrite Hr, Hm. reflexivity. }
    exists p1. repeat split; assumption. }
  destruct E1 as (p1 & -> & Ha1 & Ho1 & Hu1).
  assert (E2 : exists p2,
            detached_admin (call_listener env aenv sid (sock_number s) calls) p1 = p2 /\
            adminCalls p2 = adminCalls p1 ++
              ((fun call => RejectCall sid (call_id call) (call_from call)) <$> offers calls) /\
            outbox (core p2) = outbox (core p1) ++
              ((fun call => (sid, CSendText (call_from call)
                  (or_else (USER_REJECT_MSG (callConfigOf aenv (sock_number s)))
                     (REJECT_MSG (config env))))) <$> offers calls) /\
            unhandled (core p2) = unhandled (core p1)).
  { unfold detached_admin, call_listener, try_catch.
    rewrite getCallConfig_run by exact Hf. rewrite Ha.
    rewrite (bool_decide_eq_true_2 ("true" = "true")) by reflexivity. cbn [negb].
    rewrite run_ret.
    match goal with |- context [for_each calls ?b p1] =>
      destruct (call_loop_run sid
                  (or_else (USER_REJECT_MSG (callConfigOf aenv (sock_number s)))
                     (REJECT_MSG (config env)))
                  (fun _ => [])
                  calls b p1)
        as (p2 & -> & Ha2 & Ho2 & _ & Hu2)
    end.
    { intros call q. destruct (negb (bool_decide (call_status call = "offer"))); [reflexivity|].
      cbv zeta. unfold admin_call, admin_ext, client_call, ext.
      rewrite Hr, Hm. cbn. unfold with_logs. cbn. rewrite app_nil_r.
      destruct q as [[] ?]; reflexivity. }
    exists p2. repeat split; assumption. }
  destruct E2 as (p2 & -> & Ha2 & Ho2 & Hu2).
  rewrite Ha2, Ha1, Ho2, Ho1, Hu2, Hu1, <- !app_assoc.
  split; [reflexivity|]. split; reflexivity.
Qed.

Ltac unchanged_admin_step :=
  match goal with
  | |- preserves (fun p => unhandled (core p) = ?U) (inCore _) =>
      apply (preserves_inCore (fun w => unhandled w = U))
  | |- preserves _ (for_each _ _) => apply preserves_for_each
  | _ => unchanged_step
  end.

Ltac unchanged_admin := repeat unchanged_admin_step.

Lemma antiCall_listener_unhandled socket number calls U :
  preserves (fun p => unhandled (core p) = U)
    (antiCall_listener env aenv socket number calls).
Proof.
  unfold antiCall_listener, getCallConfigFromMongoDB, getUserConfigFromMongoDB,
    admin_call, admin_ext, client_call, inconnuLog.
  cbv zeta. unchanged_admin.
Qed.

Lemma call_listener_unhandled conn number calls U :
  preserves (fun p => unhandled (core p) = U) (call_listener env aenv conn number calls).
Proof.
  unfold call_listener, getCallConfigFromMongoDB, getUserConfigFromMongoDB,
    admin_call, admin_ext, client_call, inconnuLog.
  cbv zeta. unchanged_admin.
Qed.

Lemma detached_admin_caught (body : Block Process unit) (msg : string -> string) p U :
  preserves (fun p => unhandled (core p) = U)
    (try_catch body (fun err => inCore (inconnuLog (msg err) error))) ->
  unhandled (core p) = U ->
  unhandled (core (detached_admin
                     (try_catch body (fun err => inCore (inconnuLog (msg err) error))) p)) = U.
Proof.
  intros Hp H. specialize (Hp p H). unfold detached_admin.
  destruct (try_catch body _ p) as [[a| |e] p'] eqn:E; cbn [snd] in Hp; try exact Hp.
  exfalso. unfold try_catch in E.
  destruct (body p) as [[a| |e'] q]; discriminate.
Qed.

(** X24: the listeners of 'call' never leave a rejection unhandled, whatever the
    calls, the configuration and the collaborators do: what is thrown inside
    them is caught and written to the log. *)
Theorem call_listeners_catch_all sid calls p :
  unhandled (core (emit_call env aenv sid calls p)) = unhandled (core p).
Proof.
  unfold emit_call. destruct (sockets (core p) !! sid) as [s|]; [|reflexivity].
  generalize (eq_refl (unhandled (core p))).
  generalize (unhandled (core p)) at 2 3 as U. intros U.
  revert p. induction (sock_listeners s) as [|l ls IH]; intros p H; [exact H|].
  cbn [foldl]. apply IH.
  destruct l; cbn [call_listener_block]; try exact H.
  - apply (detached_admin_caught _ (fun err => "Anti-call error for " +:+ sock_number s +:+
                                               ": " +:+ err));
      [apply antiCall_listener_unhandled | exact H].
  - apply (detached_admin_caught _ (fun err => "Anti-call error: " +:+ err));
      [apply call_listener_unhandled | exact H].
Qed.

End Calls.

(** ** The configuration routes *)

Lemma truthy_given s : s <> "" -> Js.truthy s = true.
Proof. destruct s; [congruence | reflexivity]. Qed.

Section Config.

Variable env : Env.
Variable aenv : AdminEnv.


(** X26: /update-config for a number with a socket in the registry: the code is
    stored for the sanitized number, bound to the parsed configuration, before
    anything is sent. When the message goes out, to jidNormalizedUser of the
    user of the socket, the answer is 'otp_sent'; when sending throws, or the
    socket has no user yet, the answer is 500 and the code stays stored. *)
Theorem update_config_stores_then_sends number configString newConfig user socket p :
  let n := sanitizedNumber number in
  let otp := chosenOtp aenv in
  let r := update_config_route env aenv (Some number) (Some configString) user p in
  number <> "" ->
  configString <> "" ->
  parseConfig aenv configString = Some newConfig ->
  activeSockets (core p) !! n = Some socket ->
  admin_fails aenv OpSaveOTP = None ->
  adminCalls (snd r) = adminCalls p ++ [SaveOTP n otp newConfig] /\
  (forall id, user = Some id -> fails env OpSendMessage = None ->
     fst r = Normal (200, BOtpSent) /\
     outbox (core (snd r)) = outbox (core p) ++
       [(socket, CSendText (jidNormalizedUser env id) (otpText otp))]) /\
  (user = None \/ (exists e, fails env OpSendMessage = Some e) ->
     fst r = Normal (500, BOtpSendFailed) /\
     outbox (core (snd r)) = outbox (core p)).
Proof.
  cbv zeta. intros Hn Hc Hp Ha Hs. unfold update_config_route.
  rewrite (truthy_given _ Hn), (truthy_given _ Hc), Hp. cbn [andb]. cbv zeta.
  rewrite run_bind, inCore_run. cbn [gets fst snd]. rewrite Ha.
  unfold saveOTPToMongoDB, admin_call, admin_ext. rewrite Hs.
  rewrite run_assoc, run_ret, run_modify.
  unfold try_catch_answer, client_call, ext, inconnuLog, user_id.
  destruct user as [id|].
  - destruct (fails env OpSendMessage) as [e|] eqn:E.
    + cbn. split; [reflexivity|]. split.
      * intros id' _ Hf. discriminate.
      * intros _. split; reflexivity.
    + cbn. split; [reflexivity|]. split.
      * intros id' Hid _. inversion Hid; subst. split; reflexivity.
      * intros [Hu|[e He]]; discriminate.
  - cbn. split; [reflexivity|]. split.
    + intros id Hid. discriminate.
    + intros _. split; reflexivity.
Qed.

(** X27: /verify-otp: a verification that fails is answered 400 with its error
    and changes nothing. One that succeeds has the configuration it carries
    stored for the sanitized number, whether the number has a socket in the
    registry or not; without a socket the answer is a success and nothing is
    sent; with one the notification goes to jidNormalizedUser of its user, and
    when sending it throws the answer is 500 although the configuration has
    been stored. *)
Theorem verify_otp_updates_config number otp user p :
  let n := sanitizedNumber number in
  let r := verify_otp_route env aenv (Some number) (Some otp) user p in
  number <> "" ->
  otp <> "" ->
  admin_fails aenv OpVerifyOTP = None ->
  (forall error_, verificationOf aenv n otp = Invalid error_ ->
     r = (Normal (400, BVerificationError error_), p)) /\
  (forall config, verificationOf aenv n otp = Valid config ->
     admin_fails aenv OpUpdateUserConfig = None ->
     adminCalls (snd r) = adminCalls p ++ [UpdateUserConfig n config] /\
     (activeSockets (core p) !! n = None ->
        fst r = Normal (200, BConfigUpdated) /\ core (snd r) = core p) /\
     (forall socket id, activeSockets (core p) !! n = Some socket -> user = Some id ->
        fails env OpSendMessage = None ->
        fst r = Normal (200, BConfigUpdated) /\
        outbox (core (snd r)) = outbox (core p) ++
          [(socket, CSendText (jidNormalizedUser env id) configUpdatedText)]) /\
     (forall socket e, activeSockets (core p) !! n = Some socket ->
        fails env OpSendMessage = Some e ->
        fst r = Normal (500, BConfigUpdateFailed))).
Proof.
  cbv zeta. intros Hn Ho Hv. unfold verify_otp_route.
  rewrite (truthy_given _ Hn), (truthy_given _ Ho). cbn [andb]. cbv zeta.
  unfold verifyOTPFromMongoDB, admin_ext. rewrite Hv.
  rewrite run_assoc, !run_ret.
  split.
  - intros error_ ->. reflexivity.
  - intros config -> Hu.
    unfold updateUserConfigInMongoDB, admin_call, admin_ext, try_catch_answer. rewrite Hu.
    rewrite run_assoc, run_ret, run_modify, run_bind, inCore_run. cbn [gets fst snd core].
    destruct (activeSockets (core p) !! sanitizedNumber number) as [socket|].
    + unfold client_call, ext, inconnuLog, user_id.
      destruct user as [id|]; destruct (fails env OpSendMessage) as [e|] eqn:E; cbn.
      all: split; [reflexivity|]; split; [intros; discriminate|]; split.
      all: try (intros socket' id' Hs Hid Hf; inversion Hs; inversion Hid; subst;
                try discriminate; split; reflexivity).
      all: try (intros socket' e' Hs Hf; try discriminate; reflexivity).
    + cbn. split; [reflexivity|]. split; [intros _; split; reflexivity|].
      split; intros; discriminate.
Qed.

End Config.

(** ** Utilities *)

Lemma length_encode bytes : String.length (Hex.encode bytes) = 2 * length bytes.
Proof.
  induction bytes as [|b r IH]; [reflexivity|].
  cbn [Hex.encode String.length length]. rewrite IH. lia.
Qed.

Lemma length_slice_to s n : String.length (slice_to s n) = Nat.min n (String.length s).
Proof.
  revert s. induction n as [|n IH]; intros s; [reflexivity|].
  destruct s as [|c r]; [reflexivity|]. cbn [slice_to String.length]. rewrite IH. reflexivity.
Qed.

Lemma hex_digit_is_digit n : Hex.is_digit (Hex.digit n) = true.
Proof. do 16 (destruct n as [|n]; [reflexivity|]). reflexivity. Qed.

Lemma encode_digits bytes :
  Forall (fun c => Hex.is_digit c = true) (list_ascii_of_string (Hex.encode bytes)).
Proof.
  induction bytes as [|b r IH]; [constructor|].
  cbn [Hex.encode list_ascii_of_string].
  constructor; [apply hex_digit_is_digit|]. constructor; [apply hex_digit_is_digit | exact IH].
Qed.

Lemma slice_to_Forall (P : ascii -> Prop) s n :
  Forall P (list_ascii_of_string s) -> Forall P (list_ascii_of_string (slice_to s n)).
Proof.
  revert s. induction n as [|n IH]; intros s H; [constructor|].
  destruct s as [|c r]; [constructor|]. cbn [slice_to list_ascii_of_string] in *.
  inversion H; subst. constructor; [assumption | apply IH; assumption].
Qed.

Lemma encode_app a b : Hex.encode (a ++ b) = Hex.encode a +:+ Hex.encode b.
Proof.
  induction a as [|x a IH]; [reflexivity|].
  cbn [Hex.encode app]. rewrite IH. reflexivity.
Qed.

Lemma slice_to_app s t n : n <= String.length s -> slice_to (s +:+ t) n = slice_to s n.
Proof.
  revert s. induction n as [|n IH]; intros s H; [reflexivity|].
  destruct s as [|c r]; [cbn in H; lia|].
  change (String c r +:+ t) with (String c (r +:+ t)).
  cbn [slice_to]. rewrite IH; [reflexivity|]. cbn in H. lia.
Qed.

(** X28: createSerial(size) is a string of exactly [size] characters, each a
    lower-case hexadecimal digit, and only the first half of the random bytes
    reaches it: the bytes after the first [size/2], rounded up, make no
    difference. *)
Theorem createSerial_length size randomBytes :
  length randomBytes = size ->
  String.length (createSerial size randomBytes) = size /\
  Forall (fun c => Hex.is_digit c = true)
         (list_ascii_of_string (createSerial size randomBytes)) /\
  (forall first rest, randomBytes = first ++ rest -> size <= 2 * length first ->
     createSerial size randomBytes = createSerial size first).
Proof.
  intros H. unfold createSerial. split; [|split].
  - rewrite length_slice_to, length_encode, H. lia.
  - apply slice_to_Forall, encode_digits.
  - intros first rest -> Hf. rewrite encode_app.
    apply slice_to_app. rewrite length_encode. exact Hf.
Qed.

Lemma createSerial_length_witness :
  String.length (createSerial 4 [Byte.x12; Byte.x34; Byte.x56; Byte.x78]) = 4 /\
  createSerial 4 [Byte.x12; Byte.x34; Byte.x56; Byte.x78] = "1234" /\
  createSerial 4 [Byte.x12; Byte.x34; Byte.x56; Byte.x78] =
    createSerial 4 [Byte.x12; Byte.x34].
Proof.
  destruct (createSerial_length 4 [Byte.x12; Byte.x34; Byte.x56; Byte.x78] eq_refl)
    as (Hl & _ & Hh).
  split; [exact Hl|]. split; [reflexivity|].
  apply (Hh [Byte.x12; Byte.x34] [Byte.x56; Byte.x78] eq_refl). cbn. lia.
Defined.

Lemma getGroupAdmins_from_filter participants admins :
  getGroupAdmins_from participants admins =
    admins ++ (participant_id <$>
                 filter (fun i => is_Some (participant_admin i)) participants).
Proof.
  revert admins. induction participants as [|i r IH]; intros admins.
  - cbn. rewrite app_nil_r. reflexivity.
  - cbn [getGroupAdmins_from]. rewrite filter_cons.
    destruct (participant_admin i) as [role|] eqn:E.
    + rewrite IH. destruct (decide (is_Some (Some role))) as [_|n].
      * rewrite fmap_cons, <- app_assoc. reflexivity.
      * exfalso. apply n. eauto.
    + rewrite IH. destruct (decide (is_Some None)) as [[x Hx]|_]; [discriminate|].
      reflexivity.
Qed.

(** X29: getGroupAdmins lists the ids of the participants whose admin property is
    not null, in the order of the participants and as often as they occur; a
    JID is listed exactly when a participant with that id has a role, even
    the empty string. *)
Theorem getGroupAdmins_lists_roles participants :
  getGroupAdmins participants =
    participant_id <$> filter (fun i => is_Some (participant_admin i)) participants /\
  forall jid, jid ∈ getGroupAdmins participants <->
    exists i, i ∈ participants /\ participant_id i = jid /\ is_Some (participant_admin i).
Proof.
  assert (E : getGroupAdmins participants =
              participant_id <$> filter (fun i => is_Some (participant_admin i)) participants).
  { unfold getGroupAdmins. rewrite getGroupAdmins_from_filter. reflexivity. }
  split; [exact E|]. intros jid. rewrite E, list_elem_of_fmap. split.
  - intros (i & -> & Hi). apply list_elem_of_filter in Hi as [Ha Hi]. eauto.
  - intros (i & Hi & <- & Ha). exists i. split; [reflexivity|].
    apply list_elem_of_filter. split; assumption.
Qed.

(** ** decodeJid *)

Lemma has_device_colon jid : has_device jid = true -> Js.includes jid ":" = true.
Proof.
  induction jid as [|c r IH]; [discriminate|].
  cbn [has_device Js.includes]. intros H.
  apply orb_true_iff in H as [H|H].
  - apply andb_true_iff in H as [H _]. apply Ascii.eqb_eq in H. subst c.
    cbn [String.prefix]. destruct (ascii_dec ":" ":"); [destruct r; reflexivity | congruence].
  - rewrite (IH H). apply orb_true_r.
Qed.

(** X30: decodeJid never turns a JID that is not empty into an empty one, whatever
    the decoder returns, and it returns a JID without a colon as it is. *)
Theorem decodeJid_keeps_plain jidDecode jid :
  Js.truthy (decodeJid jidDecode jid) = Js.truthy jid /\
  (Js.includes jid ":" = false -> decodeJid jidDecode jid = jid).
Proof.
  unfold decodeJid. split.
  - destruct (Js.truthy jid) eqn:E; cbn [negb]; [|exact E].
    destruct (has_device jid); [|exact E].
    destruct (jid_user _) as [user|]; [|exact E].
    destruct (jid_server _) as [server|]; [|exact E].
    destruct (Js.truthy user) eqn:Eu; [|exact E].
    destruct (Js.truthy server); [|exact E].
    destruct user; [discriminate | reflexivity].
  - intros H. destruct (negb (Js.truthy jid)); [reflexivity|].
    destruct (has_device jid) eqn:E; [|reflexivity].
    apply has_device_colon in E. congruence.
Qed.

(** ** Instances of the properties above *)

Lemma exit_empties_registry_witness :
  let w' := exec (on_exit calm) connected123 in
  activeSockets connected123 !! "123" = Some 0 /\
  activeSockets w' = ∅ /\
  socketCreationTime w' = ∅ /\
  localFs w' = ∅ /\
  (sock_wsClosed <$> (sockets w' !! 0)) = Some true /\
  mongoSessions w' !! "123" = Some "blob".
Proof.
  cbv zeta.
  destruct (exit_empties_registry calm eq_refl connected123)
    as (_ & Ha & Ht & Hl & Hs & Hm & _).
  split; [reflexivity|]. split; [exact Ha|].
  split; [apply Ht; reflexivity|]. split; [exact Hl|].
  split; [rewrite (Hs "123" 0 eq_refl); reflexivity|].
  rewrite Hm. reflexivity.
Defined.

Lemma open_adds_to_roster_witness :
  let w := run calm [GetCode (Some "123")] emptyWorld in
  let w' := emit calm 0 (ConnectionUpdate (Some "123:1@s.whatsapp.net")
                           {| connection := Some ConnOpen; lastDisconnect := None |}) w in
  mongoNumbers w' = {["123"]} ∪ mongoNumbers w /\
  restartAttempts 0 w' = 0 /\
  outbox w' = outbox w ++ [(0, CWelcome "123@s.whatsapp.net")].
Proof.
  cbv zeta.
  destruct (open_adds_to_roster calm 0
              {| sock_number := "123"; sock_usePairingCode := true;
                 sock_creds := None; sock_listeners := pair_listeners;
                 sock_restartAttempts := 0; sock_wsClosed := false |}
              "123:1@s.whatsapp.net"
              {| connection := Some ConnOpen; lastDisconnect := None |}
              (run calm [GetCode (Some "123")] emptyWorld)
              eq_refl eq_refl eq_refl eq_refl eq_refl) as (Hn & Hr & Ho & _).
  split; [exact Hn|]. split; [exact Hr | exact Ho].
Defined.

Lemma saved_creds_restored_on_reconnect_witness :
  let close := {| connection := Some ConnClose;
                  lastDisconnect := Some {| statusCode := Some 428%Z;
                                            errorMessage := Some "Connection Closed" |} |} in
  let w1 := emit calm 0 (CredsUpdate "renewed") connected123 in
  let w2 := emit calm 0 (ConnectionUpdate None close) w1 in
  let w3 := fire calm 0 w2 in
  mongoSessions w1 !! "123" = Some "renewed" /\
  activeSockets w2 !! "123" = None /\
  (sock_creds <$> (sockets w3 !! 1)) = Some (Some "renewed") /\
  activeSockets w3 !! "123" = Some 1.
Proof.
  cbv zeta.
  destruct (saved_creds_restored_on_reconnect calm 0 socket123 None "renewed"
              {| connection := Some ConnClose;
                 lastDisconnect := Some {| statusCode := Some 428%Z;
                                           errorMessage := Some "Connection Closed" |} |}
              connected123
              eq_refl eq_refl (Nat.lt_0_succ 2) eq_refl eq_refl eq_refl eq_refl
              eq_refl eq_refl eq_refl eq_refl eq_refl eq_refl eq_refl)
    as (H1 & _ & H2 & _ & H3 & H4).
  split; [exact H1|]. split; [exact H2|].
  split; [exact (f_equal (fmap sock_creds) H3) | exact H4].
Defined.

Lemma disconnect_then_code_pairs_anew_witness :
  let w1 := step calm (GetDisconnect (Some "123")) connected123 in
  let w2 := step calm (GetCode (Some "123")) w1 in
  mongoSessions connected123 !! "123" = Some "blob" /\
  mongoSessions w1 !! "123" = None /\
  (sock_usePairingCode <$> (sockets w2 !! 1)) = Some true /\
  activeSockets w2 !! "123" = Some 1 /\
  (res_sent <$> (responses w2 !! 2)) = Some [].
Proof.
  cbv zeta.
  destruct (disconnect_then_code_pairs_anew calm "123" 0 connected123
              ltac:(discriminate) eq_refl eq_refl eq_refl eq_refl eq_refl eq_refl eq_refl
              eq_refl eq_refl eq_refl)
    as (H1 & H2 & H3 & _ & H4).
  split; [reflexivity|]. split; [exact H1|].
  split; [exact (f_equal (fmap sock_usePairingCode) H2)|]. split; [exact H3 | exact H4].
Defined.

Lemma connect_failure_registers_nothing_witness :
  let env := failing OpMakeSocket "socket refused" in
  let w := with_responses (fun _ => [freshRes]) known123 in
  let w' := exec (inconnuboyPair env "123" (Some 0)) w in
  activeSockets w' = activeSockets w /\
  sockets w' = sockets w /\
  global_truthy "connecting_123" w' = false /\
  responses w' !! 0 = Some (json (BInternalServerError "socket refused") freshRes).
Proof.
  cbv zeta.
  destruct (connect_failure_registers_nothing (failing OpMakeSocket "socket refused")
              "123" (Some 0) (with_responses (fun _ => [freshRes]) known123)
              "socket refused" eq_refl eq_refl eq_refl eq_refl eq_refl eq_refl eq_refl)
    as (_ & Ha & _ & Hs & _ & _ & _ & Hg & _ & Hr).
  split; [exact Ha|]. split; [exact Hs|]. split; [exact Hg|].
  apply (Hr 0 freshRes); reflexivity.
Defined.

Lemma bind_failure_leaves_registration_witness :
  let env := failing OpStoreBind "bind failed" in
  let w := with_responses (fun _ => [freshRes; freshRes]) emptyWorld in
  let w' := exec (inconnuboyPair env "123" (Some 0)) w in
  let w'' := exec (inconnuboyPair env "123" (Some 1)) w' in
  activeSockets w' !! "123" = Some 0 /\
  (sock_listeners <$> (sockets w' !! 0)) = Some [] /\
  responses w' !! 0 = Some (json (BInternalServerError "bind failed") freshRes) /\
  sockets w'' = sockets w' /\
  (exists connectionTime uptime,
     responses w'' !! 1 = Some (json (BAlreadyConnected connectionTime uptime) freshRes)).
Proof.
  cbv zeta.
  destruct (bind_failure_leaves_registration (failing OpStoreBind "bind failed")
              "123" (Some 0) (Some 1)
              (with_responses (fun _ => [freshRes; freshRes]) emptyWorld)
              "bind failed" eq_refl eq_refl eq_refl eq_refl eq_refl eq_refl eq_refl eq_refl)
    as (Ha & Hl & _ & Hr & Hs & Hr').
  split; [exact Ha|]. split; [exact Hl|].
  split; [apply (Hr 0 freshRes); reflexivity|]. split; [exact Hs|].
  apply (Hr' 1 freshRes); reflexivity.
Defined.

Lemma pairing_code_failure_answered_witness :
  let env := failing OpRequestPairingCode "timed out" in
  let w := fire env 0 (step env (GetCode (Some "123")) emptyWorld) in
  let w' := fire env 0 w in
  timers w = [{| due := 4500; task := TPairingRequest 0 "123" (Some 0) |}] /\
  timers w' = [] /\
  unhandled w' = unhandled w /\
  activeSockets w' = activeSockets w /\
  responses w' !! 0 = Some (json (BPairingFailed "timed out") freshRes).
Proof.
  cbv zeta.
  destruct (pairing_code_failure_answered (failing OpRequestPairingCode "timed out")
              (fire (failing OpRequestPairingCode "timed out") 0
                 (step (failing OpRequestPairingCode "timed out")
                    (GetCode (Some "123")) emptyWorld))
              [] 4500%Z 0 "123" (Some 0) "timed out" eq_refl eq_refl)
    as (Ht & Hu & _ & Ha & _ & _ & _ & Hr).
  split; [reflexivity|]. split; [exact Ht|]. split; [exact Hu|]. split; [exact Ha|].
  apply (Hr 0 freshRes); reflexivity.
Defined.

Lemma upsert_without_content_ignored_witness :
  emit (withCommands [cmdWatch] "public") 0
    (MessagesUpsert (Some "123:1@s.whatsapp.net")
       {| message := None; remoteJid := "254700000001@s.whatsapp.net"; fromMe := false;
          participant := None; newsletterServerId := None;
          mek_type := None; mek_q := false |})
    connected123 = connected123.
Proof.
  apply (upsert_without_content_ignored (withCommands [cmdWatch] "public") 0 socket123);
    reflexivity.
Defined.

Lemma status_update_not_dispatched_witness :
  let env := withCommands [cmdWatch] "public" in
  let w' := emit env 0
    (MessagesUpsert (Some "123:1@s.whatsapp.net")
       {| message := Some (Conversation "hello"); remoteJid := "status@broadcast";
          fromMe := false; participant := Some "254700000001@s.whatsapp.net";
          newsletterServerId := None; mek_type := Some "conversation"; mek_q := false |})
    connected123 in
  invoked w' = invoked connected123 /\ stats w' = stats connected123 /\
  unhandled w' = unhandled connected123.
Proof.
  apply (status_update_not_dispatched (withCommands [cmdWatch] "public") 0 socket123);
    reflexivity.
Defined.

Lemma message_counters_witness :
  let env := withCommands [cmdMenu] "public" in
  let w' := emit env 0 (MessagesUpsert (Some "123:1@s.whatsapp.net")
                          (textFrom254700000001 ".nosuch")) connected123 in
  find_command env "nosuch" = None /\
  stats w' = stats connected123 ++ [("123", "commandsUsed"); ("123", "messagesReceived")].
Proof.
  cbv zeta. split; [reflexivity|].
  exact (message_counters (withCommands [cmdMenu] "public") (fun _ => eq_refl) 0 socket123
           "123:1@s.whatsapp.net" (textFrom254700000001 ".nosuch") (Conversation ".nosuch")
           connected123 eq_refl eq_refl eq_refl ltac:(discriminate) eq_refl).
Defined.

Lemma calls_ignored_when_off_witness :
  let p := {| core := connected123; adminCalls := [] |} in
  emit_call calm (adminWith "false") 0 [offerFrom555] p = p.
Proof.
  apply (calls_ignored_when_off calm (adminWith "false") 0 socket123);
    [reflexivity | reflexivity | reflexivity | discriminate].
Defined.

Lemma offers_rejected_twice_witness :
  let p := {| core := connected123; adminCalls := [] |} in
  let ringing := {| call_status := "ringing"; call_id := "c2";
                    call_from := "777@s.whatsapp.net" |} in
  let p' := emit_call calm (adminWith "true") 0 [offerFrom555; ringing] p in
  adminCalls p' ≡ₚ [RejectCall 0 "c1" "555@s.whatsapp.net";
                    RejectCall 0 "c1" "555@s.whatsapp.net"] /\
  unhandled (core p') = unhandled connected123.
Proof.
  cbv zeta.
  destruct (offers_rejected_twice calm (adminWith "true") 0 socket123
              [offerFrom555; {| call_status := "ringing"; call_id := "c2";
                                call_from := "777@s.whatsapp.net" |}]
              {| core := connected123; adminCalls := [] |}
              eq_refl eq_refl eq_refl eq_refl eq_refl eq_refl) as (Ha & _ & Hu).
  split; [exact Ha | exact Hu].
Defined.


Lemma update_config_stores_then_sends_witness :
  let p := {| core := connected123; adminCalls := [] |} in
  let r := update_config_route calm (adminWith "false") (Some "+1 23") (Some "{}")
             (Some "123:1@s.whatsapp.net") p in
  adminCalls (snd r) = [SaveOTP "123" "123456" "{}"] /\
  fst r = Normal (200, BOtpSent) /\
  outbox (core (snd r)) =
    outbox connected123 ++ [(0, CSendText "123@s.whatsapp.net" (otpText "123456"))].
Proof.
  cbv zeta.
  destruct (update_config_stores_then_sends calm (adminWith "false") "+1 23" "{}" "{}"
              (Some "123:1@s.whatsapp.net") 0 {| core := connected123; adminCalls := [] |}
              ltac:(discriminate) ltac:(discriminate) eq_refl eq_refl eq_refl)
    as (Ha & Hs & _).
  split; [exact Ha|]. exact (Hs "123:1@s.whatsapp.net" eq_refl eq_refl).
Defined.

Lemma verify_otp_updates_config_witness :
  let p := {| core := emptyWorld; adminCalls := [] |} in
  let q := {| core := connected123; adminCalls := [] |} in
  verify_otp_route calm (adminWith "false") (Some "123") (Some "000000") None p =
    (Normal (400, BVerificationError "Invalid OTP"), p) /\
  outbox (core (snd (verify_otp_route calm (adminWith "false") (Some "123") (Some "123456")
                       (Some "123:1@s.whatsapp.net") q))) =
    outbox connected123 ++ [(0, CSendText "123@s.whatsapp.net" configUpdatedText)] /\
  adminCalls (snd (verify_otp_route calm (adminWith "false") (Some "123") (Some "123456")
                     None p)) = [UpdateUserConfig "123" "{}"] /\
  fst (verify_otp_route calm (adminWith "false") (Some "123") (Some "123456") None p) =
    Normal (200, BConfigUpdated).
Proof.
  cbv zeta. split; [|split].
  2: { destruct (verify_otp_updates_config calm (adminWith "false") "123" "123456"
                   (Some "123:1@s.whatsapp.net")
                   {| core := connected123; adminCalls := [] |}
                   ltac:(discriminate) ltac:(discriminate) eq_refl) as [_ Hv].
       destruct (Hv "{}" eq_refl eq_refl) as (_ & _ & Hs & _).
       exact (proj2 (Hs 0 "123:1@s.whatsapp.net" eq_refl eq_refl eq_refl)). }
  - destruct (verify_otp_updates_config calm (adminWith "false") "123" "000000" None
                {| core := emptyWorld; adminCalls := [] |}
                ltac:(discriminate) ltac:(discriminate) eq_refl) as [Hi _].
    exact (Hi "Invalid OTP" eq_refl).
  - destruct (verify_otp_updates_config calm (adminWith "false") "123" "123456" None
                {| core := emptyWorld; adminCalls := [] |}
                ltac:(discriminate) ltac:(discriminate) eq_refl) as [_ Hv].
    destruct (Hv "{}" eq_refl eq_refl) as (Ha & Hn & _).
    split; [exact Ha|]. exact (proj1 (Hn eq_refl)).
Defined.

Lemma connect_when_registered_changes_nothing_witness :
  let w := with_responses (fun l => l ++ [freshRes]) connected123 in
  let w' := exec (inconnuboyPair calm "+1 (23)" (Some 1)) w in
  sockets w' = sockets w /\
  timers w' = timers w /\
  globals w' = globals w /\
  responses w' !! 1 = Some (json (BAlreadyConnected None 0) freshRes).
Proof.
  cbv zeta.
  destruct (connect_when_registered_changes_nothing calm "+1 (23)" (Some 1)
              (with_responses (fun l => l ++ [freshRes]) connected123)
              (ex_intro _ 0 eq_refl))
    as (_ & _ & Hg & _ & _ & _ & Hs & Ht & Hr).
  split; [exact Hs|]. split; [exact Ht|]. split; [exact Hg|].
  apply (Hr 1 freshRes); reflexivity.
Defined.

Lemma requests_answered_once_witness :
  let r := {| res_headersSent := true; res_mock := false; res_statusCode := 200;
              res_sent := [(200, BDisconnected)] |} in
  responses (run calm [GetCode (Some "123"); GetDisconnect (Some "123")] emptyWorld) !! 1
    = Some r /\
  length (res_sent r) <= 1 /\
  (res_headersSent r = true <-> res_sent r <> []).
Proof.
  cbv zeta. split; [reflexivity|].
  apply (requests_answered_once calm [GetCode (Some "123"); GetDisconnect (Some "123")] 1);
    reflexivity.
Defined.

Lemma roster_connect_no_second_socket_witness :
  let w' := step calm (RosterConnect "+1 23") connected123 in
  activeSockets connected123 !! "+1 23" = None /\
  sockets w' = sockets connected123 /\
  activeSockets w' = activeSockets connected123.
Proof.
  cbv zeta.
  destruct (roster_connect_no_second_socket calm "+1 23" connected123 (ex_intro _ 0 eq_refl))
    as (Hs & Ha & _).
  split; [reflexivity|]. split; [exact Hs | exact Ha].
Defined.

Lemma registered_sockets_listen_witness :
  let W := run calm [GetCode (Some "+1 23")] emptyWorld in
  exists s, sockets W !! 0 = Some s /\ sock_listeners s = pair_listeners.
Proof.
  apply (proj2 (registered_sockets_listen calm [GetCode (Some "+1 23")]) eq_refl "123" 0).
  reflexivity.
Defined.
